(** * saml2aws: the Okta authentication flow ([okta.go])

    A shallow embedding of [OktaClient.Authenticate] and of
    [parseMfaIdentifer], with the properties of the flow stated over it.

    The flow talks to the outside through five operations: the HTTP
    client ([oc.client.Do]), the two prompts of [go-prompt]
    ([prompt.Choose], [prompt.StringRequired]), [time.Sleep] and
    [fmt.Println].  The embedding threads an explicit state through them:
    the answers of the outside are read from an environment, and every
    operation is appended to a trace.  A statement either falls through
    or ends the call, by [return] or by a panic.  The poll loop of the
    Duo case has no bound in the source; here it takes fuel, and a call
    that exhausts it ends as [OutOfFuel]. *)

From Stdlib Require Import String Ascii List Bool Arith ZArith Lia.
From Stdlib Require Import DecimalString DecimalNat.
Import ListNotations.
Open Scope list_scope.
Open Scope string_scope.

Set Implicit Arguments.
#[local] Set Warnings "-register-all".

(** ** Go values used by the flow *)

(** A Go [error]: a base error, or an error annotated by [errors.Wrap].
    The nil error is [None] in [option error]. *)
Inductive error : Type :=
| ErrBase (msg : string)
| ErrWrap (msg : string) (cause : error).

(** [errors.Wrap(err, message)] of [github.com/pkg/errors]: annotates
    [err] with [message]; as its documentation says, "If err is nil, Wrap
    returns nil". *)
Definition errors_Wrap (err : option error) (message : string) : option error :=
  match err with
  | None => None
  | Some e => Some (ErrWrap message e)
  end.

(** ** Strings *)

Definition is_lower (c : ascii) : bool :=
  ((97 <=? nat_of_ascii c)%nat && (nat_of_ascii c <=? 122)%nat)%bool.

Definition to_upper_ascii (c : ascii) : ascii :=
  if is_lower c then ascii_of_nat (nat_of_ascii c - 32) else c.

(** *** Runes

    A Go string is a sequence of bytes, and so is a [string] here; text
    is read from it as UTF-8.  A rune is a code point, held in [Z]. *)

Definition byte_val (c : ascii) : Z := Z.of_N (N_of_ascii c).

Definition byte_of (z : Z) : ascii := ascii_of_N (Z.to_N z).

Definition RuneError : Z := 0xFFFD.
Definition MaxRune : Z := 0x10FFFF.
Definition RuneSelf : Z := 0x80.
Definition MaxASCII : Z := 0x7F.

Definition between (lo hi : Z) (c : ascii) : bool :=
  ((lo <=? byte_val c) && (byte_val c <=? hi))%Z%bool.

(** The six low bits of a continuation byte. *)
Definition low6 (c : ascii) : Z := Z.land (byte_val c) 0x3F.

(** [utf8.DecodeRuneInString(s)]: the first rune of [s] and its width in
    bytes.  The second byte of a sequence is held to the range its first
    byte accepts, which rules out over-long forms, surrogates and runes
    above [MaxRune]; a byte that begins no such sequence is
    [RuneError] of width 1. *)
Definition utf8_DecodeRuneInString (s : string) : Z * nat :=
  match s with
  | EmptyString => (RuneError, 0)
  | String c0 rest =>
      let b0 := byte_val c0 in
      if (b0 <? RuneSelf)%Z then (b0, 1)
      else if between 0xC2 0xDF c0 then
        match rest with
        | String c1 _ =>
            if between 0x80 0xBF c1
            then (Z.lor (Z.shiftl (Z.land b0 0x1F) 6) (low6 c1), 2)
            else (RuneError, 1)
        | _ => (RuneError, 1)
        end
      else if between 0xE0 0xEF c0 then
        let lo := if (b0 =? 0xE0)%Z then 0xA0%Z else 0x80%Z in
        let hi := if (b0 =? 0xED)%Z then 0x9F%Z else 0xBF%Z in
        match rest with
        | String c1 (String c2 _) =>
            if (between lo hi c1 && between 0x80 0xBF c2)%bool
            then (Z.lor (Z.shiftl (Z.land b0 0x0F) 12)
                    (Z.lor (Z.shiftl (low6 c1) 6) (low6 c2)), 3)
            else (RuneError, 1)
        | _ => (RuneError, 1)
        end
      else if between 0xF0 0xF4 c0 then
        let lo := if (b0 =? 0xF0)%Z then 0x90%Z else 0x80%Z in
        let hi := if (b0 =? 0xF4)%Z then 0x8F%Z else 0xBF%Z in
        match rest with
        | String c1 (String c2 (String c3 _)) =>
            if (between lo hi c1 && between 0x80 0xBF c2 && between 0x80 0xBF c3)%bool
            then (Z.lor (Z.shiftl (Z.land b0 0x07) 18)
                    (Z.lor (Z.shiftl (low6 c1) 12)
                       (Z.lor (Z.shiftl (low6 c2) 6) (low6 c3))), 4)
            else (RuneError, 1)
        | _ => (RuneError, 1)
        end
      else (RuneError, 1)
  end.

(** The bytes [utf8.AppendRune] writes for [r]: one to four bytes, and
    the three bytes of [RuneError] for a surrogate or a value that is no
    code point. *)
Definition encode3 (r : Z) : string :=
  String (byte_of (Z.lor 0xE0 (Z.shiftr r 12)))
    (String (byte_of (Z.lor 0x80 (Z.land (Z.shiftr r 6) 0x3F)))
       (String (byte_of (Z.lor 0x80 (Z.land r 0x3F))) EmptyString)).

Definition utf8_EncodeRune (r : Z) : string :=
  if ((0 <=? r) && (r <=? 0x7F))%Z%bool then
    String (byte_of r) EmptyString
  else if ((0 <=? r) && (r <=? 0x7FF))%Z%bool then
    String (byte_of (Z.lor 0xC0 (Z.shiftr r 6)))
      (String (byte_of (Z.lor 0x80 (Z.land r 0x3F))) EmptyString)
  else if ((r <? 0) || (MaxRune <? r) || ((0xD800 <=? r) && (r <=? 0xDFFF)))%Z%bool then
    encode3 RuneError
  else if (r <=? 0xFFFF)%Z then
    encode3 r
  else
    String (byte_of (Z.lor 0xF0 (Z.shiftr r 18)))
      (String (byte_of (Z.lor 0x80 (Z.land (Z.shiftr r 12) 0x3F)))
         (String (byte_of (Z.lor 0x80 (Z.land (Z.shiftr r 6) 0x3F)))
            (String (byte_of (Z.lor 0x80 (Z.land r 0x3F))) EmptyString))).

(** [strings.Map(mapping, s)]: the runes of [s], as [range] reads them,
    each replaced by its image and written back as UTF-8; a negative
    image drops the rune.  [skip] counts the bytes of the rune in hand
    that are still to be passed over.  A byte that is not UTF-8 is read
    as [RuneError] and so comes out as the three bytes of U+FFFD. *)
Fixpoint strings_Map_from (mapping : Z -> Z) (skip : nat) (s : string) : string :=
  match s with
  | EmptyString => EmptyString
  | String _ rest =>
      match skip with
      | S skip' => strings_Map_from mapping skip' rest
      | O =>
          let '(c, width) := utf8_DecodeRuneInString s in
          let r := mapping c in
          ((if (r <? 0)%Z then EmptyString else utf8_EncodeRune r)
           ++ strings_Map_from mapping (width - 1) rest)%string
      end
  end.

Definition strings_Map (mapping : Z -> Z) (s : string) : string :=
  strings_Map_from mapping 0 s.

(** *** Upper case *)

(** The upper-case component of a [unicode.CaseRange]: a delta to add,
    or [UpperLower], which marks a range of alternating upper-case and
    lower-case letters that begins with an upper-case one. *)
Inductive CaseDelta : Type :=
| Delta (d : Z)
| UpperLower.

(** [unicode.CaseRanges], by its upper-case component: the ranges
    [(Lo, Hi, delta)] of the runes that the Unicode Character Database
    (version 14.0.0, simple upper-case mappings) moves to upper case,
    in increasing order.  Every rune outside of them is its own upper
    case. *)
Definition CaseRanges : list (Z * Z * CaseDelta) :=
  (
  [ (0x0061, 0x007A, Delta (-32)); (0x00B5, 0x00B5, Delta 743);
    (0x00E0, 0x00F6, Delta (-32)); (0x00F8, 0x00FE, Delta (-32));
    (0x00FF, 0x00FF, Delta 121); (0x0100, 0x012F, UpperLower);
    (0x0131, 0x0131, Delta (-232)); (0x0132, 0x0137, UpperLower);
    (0x0139, 0x0148, UpperLower); (0x014A, 0x0177, UpperLower);
    (0x0179, 0x017E, UpperLower); (0x017F, 0x017F, Delta (-300));
    (0x0180, 0x0180, Delta 195); (0x0182, 0x0185, UpperLower);
    (0x0188, 0x0188, Delta (-1)); (0x018C, 0x018C, Delta (-1));
    (0x0192, 0x0192, Delta (-1)); (0x0195, 0x0195, Delta 97);
    (0x0199, 0x0199, Delta (-1)); (0x019A, 0x019A, Delta 163);
    (0x019E, 0x019E, Delta 130); (0x01A0, 0x01A5, UpperLower);
    (0x01A8, 0x01A8, Delta (-1)); (0x01AD, 0x01AD, Delta (-1));
    (0x01B0, 0x01B0, Delta (-1)); (0x01B3, 0x01B6, UpperLower);
    (0x01B9, 0x01B9, Delta (-1)); (0x01BD, 0x01BD, Delta (-1));
    (0x01BF, 0x01BF, Delta 56); (0x01C5, 0x01C5, Delta (-1));
    (0x01C6, 0x01C6, Delta (-2)); (0x01C8, 0x01C8, Delta (-1));
    (0x01C9, 0x01C9, Delta (-2)); (0x01CB, 0x01CB, Delta (-1));
    (0x01CC, 0x01CC, Delta (-2)); (0x01CD, 0x01DC, UpperLower);
    (0x01DD, 0x01DD, Delta (-79)); (0x01DE, 0x01EF, UpperLower);
    (0x01F2, 0x01F2, Delta (-1)); (0x01F3, 0x01F3, Delta (-2));
    (0x01F5, 0x01F5, Delta (-1)); (0x01F8, 0x021F, UpperLower);
    (0x0222, 0x0233, UpperLower); (0x023C, 0x023C, Delta (-1));
    (0x023F, 0x0240, Delta 10815); (0x0242, 0x0242, Delta (-1));
    (0x0246, 0x024F, UpperLower); (0x0250, 0x0250, Delta 10783);
    (0x0251, 0x0251, Delta 10780); (0x0252, 0x0252, Delta 10782);
    (0x0253, 0x0253, Delta (-210)); (0x0254, 0x0254, Delta (-206));
    (0x0256, 0x0257, Delta (-205)); (0x0259, 0x0259, Delta (-202));
    (0x025B, 0x025B, Delta (-203)); (0x025C, 0x025C, Delta 42319);
    (0x0260, 0x0260, Delta (-205)); (0x0261, 0x0261, Delta 42315);
    (0x0263, 0x0263, Delta (-207)); (0x0265, 0x0265, Delta 42280);
    (0x0266, 0x0266, Delta 42308); (0x0268, 0x0268, Delta (-209));
    (0x0269, 0x0269, Delta (-211)); (0x026A, 0x026A, Delta 42308);
    (0x026B, 0x026B, Delta 10743); (0x026C, 0x026C, Delta 42305);
    (0x026F, 0x026F, Delta (-211)); (0x0271, 0x0271, Delta 10749);
    (0x0272, 0x0272, Delta (-213)); (0x0275, 0x0275, Delta (-214));
    (0x027D, 0x027D, Delta 10727); (0x0280, 0x0280, Delta (-218));
    (0x0282, 0x0282, Delta 42307); (0x0283, 0x0283, Delta (-218));
    (0x0287, 0x0287, Delta 42282); (0x0288, 0x0288, Delta (-218));
    (0x0289, 0x0289, Delta (-69)); (0x028A, 0x028B, Delta (-217));
    (0x028C, 0x028C, Delta (-71)); (0x0292, 0x0292, Delta (-219));
    (0x029D, 0x029D, Delta 42261); (0x029E, 0x029E, Delta 42258);
    (0x0345, 0x0345, Delta 84); (0x0370, 0x0373, UpperLower);
    (0x0377, 0x0377, Delta (-1)); (0x037B, 0x037D, Delta 130);
    (0x03AC, 0x03AC, Delta (-38)); (0x03AD, 0x03AF, Delta (-37));
    (0x03B1, 0x03C1, Delta (-32)); (0x03C2, 0x03C2, Delta (-31));
    (0x03C3, 0x03CB, Delta (-32)); (0x03CC, 0x03CC, Delta (-64));
    (0x03CD, 0x03CE, Delta (-63)); (0x03D0, 0x03D0, Delta (-62));
    (0x03D1, 0x03D1, Delta (-57)); (0x03D5, 0x03D5, Delta (-47));
    (0x03D6, 0x03D6, Delta (-54)); (0x03D7, 0x03D7, Delta (-8));
    (0x03D8, 0x03EF, UpperLower); (0x03F0, 0x03F0, Delta (-86));
    (0x03F1, 0x03F1, Delta (-80)); (0x03F2, 0x03F2, Delta 7);
    (0x03F3, 0x03F3, Delta (-116)); (0x03F5, 0x03F5, Delta (-96));
    (0x03F8, 0x03F8, Delta (-1)); (0x03FB, 0x03FB, Delta (-1));
    (0x0430, 0x044F, Delta (-32)); (0x0450, 0x045F, Delta (-80));
    (0x0460, 0x0481, UpperLower); (0x048A, 0x04BF, UpperLower);
    (0x04C1, 0x04CE, UpperLower); (0x04CF, 0x04CF, Delta (-15));
    (0x04D0, 0x052F, UpperLower); (0x0561, 0x0586, Delta (-48));
    (0x10D0, 0x10FA, Delta 3008); (0x10FD, 0x10FF, Delta 3008);
    (0x13F8, 0x13FD, Delta (-8)); (0x1C80, 0x1C80, Delta (-6254));
    (0x1C81, 0x1C81, Delta (-6253)); (0x1C82, 0x1C82, Delta (-6244));
    (0x1C83, 0x1C84, Delta (-6242)); (0x1C85, 0x1C85, Delta (-6243));
    (0x1C86, 0x1C86, Delta (-6236)); (0x1C87, 0x1C87, Delta (-6181));
    (0x1C88, 0x1C88, Delta 35266); (0x1D79, 0x1D79, Delta 35332);
    (0x1D7D, 0x1D7D, Delta 3814); (0x1D8E, 0x1D8E, Delta 35384);
    (0x1E00, 0x1E95, UpperLower); (0x1E9B, 0x1E9B, Delta (-59));
    (0x1EA0, 0x1EFF, UpperLower); (0x1F00, 0x1F07, Delta 8);
    (0x1F10, 0x1F15, Delta 8); (0x1F20, 0x1F27, Delta 8);
    (0x1F30, 0x1F37, Delta 8); (0x1F40, 0x1F45, Delta 8);
    (0x1F51, 0x1F51, Delta 8); (0x1F53, 0x1F53, Delta 8);
    (0x1F55, 0x1F55, Delta 8); (0x1F57, 0x1F57, Delta 8);
    (0x1F60, 0x1F67, Delta 8); (0x1F70, 0x1F71, Delta 74);
    (0x1F72, 0x1F75, Delta 86); (0x1F76, 0x1F77, Delta 100);
    (0x1F78, 0x1F79, Delta 128); (0x1F7A, 0x1F7B, Delta 112);
    (0x1F7C, 0x1F7D, Delta 126); (0x1F80, 0x1F87, Delta 8);
    (0x1F90, 0x1F97, Delta 8); (0x1FA0, 0x1FA7, Delta 8);
    (0x1FB0, 0x1FB1, Delta 8); (0x1FB3, 0x1FB3, Delta 9);
    (0x1FBE, 0x1FBE, Delta (-7205)); (0x1FC3, 0x1FC3, Delta 9);
    (0x1FD0, 0x1FD1, Delta 8); (0x1FE0, 0x1FE1, Delta 8);
    (0x1FE5, 0x1FE5, Delta 7); (0x1FF3, 0x1FF3, Delta 9);
    (0x214E, 0x214E, Delta (-28)); (0x2170, 0x217F, Delta (-16));
    (0x2184, 0x2184, Delta (-1)); (0x24D0, 0x24E9, Delta (-26));
    (0x2C30, 0x2C5F, Delta (-48)); (0x2C61, 0x2C61, Delta (-1));
    (0x2C65, 0x2C65, Delta (-10795)); (0x2C66, 0x2C66, Delta (-10792));
    (0x2C67, 0x2C6C, UpperLower); (0x2C73, 0x2C73, Delta (-1));
    (0x2C76, 0x2C76, Delta (-1)); (0x2C80, 0x2CE3, UpperLower);
    (0x2CEB, 0x2CEE, UpperLower); (0x2CF3, 0x2CF3, Delta (-1));
    (0x2D00, 0x2D25, Delta (-7264)); (0x2D27, 0x2D27, Delta (-7264));
    (0x2D2D, 0x2D2D, Delta (-7264)); (0xA640, 0xA66D, UpperLower);
    (0xA680, 0xA69B, UpperLower); (0xA722, 0xA72F, UpperLower);
    (0xA732, 0xA76F, UpperLower); (0xA779, 0xA77C, UpperLower);
    (0xA77E, 0xA787, UpperLower); (0xA78C, 0xA78C, Delta (-1));
    (0xA790, 0xA793, UpperLower); (0xA794, 0xA794, Delta 48);
    (0xA796, 0xA7A9, UpperLower); (0xA7B4, 0xA7C3, UpperLower);
    (0xA7C7, 0xA7CA, UpperLower); (0xA7D1, 0xA7D1, Delta (-1));
    (0xA7D6, 0xA7D9, UpperLower); (0xA7F6, 0xA7F6, Delta (-1));
    (0xAB53, 0xAB53, Delta (-928)); (0xAB70, 0xABBF, Delta (-38864));
    (0xFF41, 0xFF5A, Delta (-32)); (0x10428, 0x1044F, Delta (-40));
    (0x104D8, 0x104FB, Delta (-40)); (0x10597, 0x105A1, Delta (-39));
    (0x105A3, 0x105B1, Delta (-39)); (0x105B3, 0x105B9, Delta (-39));
    (0x105BB, 0x105BC, Delta (-39)); (0x10CC0, 0x10CF2, Delta (-64));
    (0x118C0, 0x118DF, Delta (-32)); (0x16E60, 0x16E7F, Delta (-32));
    (0x1E922, 0x1E943, Delta (-34)) ])%Z.

(** [unicode.To(unicode.UpperCase, r)] over [caseRange]: the range that
    holds [r] is looked up (the ranges do not overlap, so the first one
    found is the one the binary search of the source finds), and its
    delta is added; in an [UpperLower] range the offset of [r] from [Lo]
    loses its low bit. *)
Fixpoint unicode_to_UpperCase (r : Z) (caseRange : list (Z * Z * CaseDelta)) : Z :=
  match caseRange with
  | [] => r
  | (lo, hi, delta) :: rest =>
      if ((lo <=? r) && (r <=? hi))%Z%bool then
        match delta with
        | Delta d => (r + d)%Z
        | UpperLower => (lo + Z.ldiff (r - lo) 1)%Z
        end
      else unicode_to_UpperCase r rest
  end.

(** [unicode.ToUpper(r)]. *)
Definition unicode_ToUpper (r : Z) : Z :=
  if (r <=? MaxASCII)%Z then
    if ((0x61 <=? r) && (r <=? 0x7A))%Z%bool then (r - 32)%Z else r
  else unicode_to_UpperCase r CaseRanges.

(** Whether every byte of [s] is below [utf8.RuneSelf]. *)
Fixpoint isASCII (s : string) : bool :=
  match s with
  | EmptyString => true
  | String c rest => ((byte_val c <? RuneSelf)%Z && isASCII rest)%bool
  end.

(** The branch of [strings.ToUpper] for text that is all ASCII: the
    letters a-z are mapped to A-Z and every other byte is kept. *)
Fixpoint toUpperASCII (s : string) : string :=
  match s with
  | EmptyString => EmptyString
  | String c rest => String (to_upper_ascii c) (toUpperASCII rest)
  end.

(** [strings.ToUpper(s)]: byte by byte when [s] is all ASCII, and rune
    by rune through [unicode.ToUpper] otherwise, so that letters outside
    ASCII are mapped too (the long s to [S], a small e with acute to the
    capital one). *)
Definition strings_ToUpper (s : string) : string :=
  if isASCII s then toUpperASCII s else strings_Map unicode_ToUpper s.

(** [split_on sep s]: the pieces of [s] between the occurrences of the
    byte [sep]; there is always at least one piece. *)
Fixpoint split_on (sep : ascii) (s : string) : list string :=
  match s with
  | EmptyString => [EmptyString]
  | String c rest =>
      if Ascii.eqb c sep then EmptyString :: split_on sep rest
      else match split_on sep rest with
           | [] => [String c EmptyString]
           | piece :: pieces => String c piece :: pieces
           end
  end.

(** [strings.Split(s, sep)] for a separator of one byte, the only way
    the flow calls it. *)
Definition strings_Split (s : string) (sep : ascii) : list string :=
  split_on sep s.

(** [fmt.Sprintf("%d", n)] for an index. *)
Definition itoa (n : nat) : string :=
  NilEmpty.string_of_uint (Nat.to_uint n).

(** The unsigned decimal number a path component spells, if any. *)
Definition parse_uint (s : string) : option nat :=
  match s with
  | EmptyString => None
  | _ => option_map Nat.of_uint (NilEmpty.uint_of_string s)
  end.

Fixpoint assoc {A : Type} (k : string) (l : list (string * A)) : option A :=
  match l with
  | [] => None
  | (k', v) :: rest => if String.eqb k k' then Some v else assoc k rest
  end.

(** ** JSON bodies, as [gjson] reads them *)

(** A JSON value.  [gjson] keeps the source text of a value
    ([Result.Raw]) and [Result.String] returns it for an array and for an
    object, so that these carry it; a number carries the text
    [Result.String] returns for it. *)
Inductive json : Type :=
| JNull
| JBool (b : bool)
| JNumber (raw : string)
| JString (s : string)
| JArray (raw : string) (elems : list json)
| JObject (raw : string) (members : list (string * json)).

(** One step of a path: a member of an object by its key, an element of
    an array by its decimal index; anything else does not exist. *)
Definition json_child (j : json) (key : string) : json :=
  match j with
  | JObject _ members =>
      match assoc key members with
      | Some v => v
      | None => JNull
      end
  | JArray _ elems =>
      match parse_uint key with
      | Some i => nth i elems JNull
      | None => JNull
      end
  | _ => JNull
  end.

(** [gjson.Get(json, path)] for a dotted path of keys and indices.  A
    value that does not exist is the null [Result], which [JNull] stands
    for as well. *)
Definition gjson_Get (j : json) (path : string) : json :=
  fold_left json_child (split_on "." path) j.

(** [Result.String()]. *)
Definition json_String (j : json) : string :=
  match j with
  | JNull => ""
  | JBool true => "true"
  | JBool false => "false"
  | JNumber raw => raw
  | JString s => s
  | JArray raw _ => raw
  | JObject raw _ => raw
  end.

(** [Result.Array()]: the elements of an array; nothing for null; one
    element, the value itself, for any other value. *)
Definition json_Array (j : json) : list json :=
  match j with
  | JNull => []
  | JArray _ elems => elems
  | _ => [j]
  end.

(** ** HTML bodies, as [goquery] reads them *)

(** An element of a parsed document: its tag and its attributes. *)
Record Element : Type := {
  el_tag : string;
  el_attrs : list (string * string)
}.

(** A parsed document: its elements in document order. *)
Definition Document : Type := list Element.

(** [doc.Find("input[name=\"<name>\"]")]: the [input] elements whose
    [name] attribute is [name], in document order. *)
Definition Find_input_named (doc : Document) (name : string) : list Element :=
  filter (fun e =>
            (String.eqb (el_tag e) "input" &&
             match assoc "name" (el_attrs e) with
             | Some n => String.eqb n name
             | None => false
             end)%bool) doc.

(** [Selection.Attr(attrName)]: the attribute of the first element of the
    selection, and whether it exists. *)
Definition Attr (sel : list Element) (attrName : string) : string * bool :=
  match sel with
  | [] => ("", false)
  | e :: _ =>
      match assoc attrName (el_attrs e) with
      | Some v => (v, true)
      | None => ("", false)
      end
  end.

(** ** Requests and responses *)

(** Modelled from the spec: [LoginDetails] is declared outside [okta.go];
    the flow reads its three fields, the credentials of section 3
    (username, password, target hostname). *)
Record LoginDetails : Type := {
  Username : string;
  Password : string;
  Hostname : string
}.

(** [AuthRequest], the JSON body of the credential submission. *)
Record AuthRequest : Type := {
  auth_Username : string;
  auth_Password : string
}.

(** [VerifyRequest], the JSON body of a verify call.  [PassCode] is
    tagged [omitempty]: the empty pass code is not sent. *)
Record VerifyRequest : Type := {
  StateToken : string;
  PassCode : string
}.

(** [url.Values], as the successive calls of [Add] build it; [Encode]
    sorts the keys when the form is written, which no property here
    depends on. *)
Definition Values : Type := list (string * string).

Definition Values_Add (v : Values) (key value : string) : Values :=
  (v ++ [(key, value)])%list.

(** [Values.Get]: the first value of the key. *)
Definition Values_Get (v : Values) (key : string) : option string :=
  assoc key v.

(** What a request carries as its body. *)
Inductive Payload : Type :=
| NoBody
| JsonAuth (a : AuthRequest)
| JsonVerify (v : VerifyRequest)
| Form (f : Values).

(** An [http.Request]: [rq_query] holds the parameters the flow adds to
    the query of [rq_url]. *)
Record Request : Type := {
  rq_method : string;
  rq_url : string;
  rq_query : Values;
  rq_header : Values;
  rq_body : Payload
}.

Definition Header_Add (req : Request) (key value : string) : Request :=
  {| rq_method := rq_method req; rq_url := rq_url req;
     rq_query := rq_query req;
     rq_header := Values_Add (rq_header req) key value;
     rq_body := rq_body req |}.

Definition Query_Add (req : Request) (key value : string) : Request :=
  {| rq_method := rq_method req; rq_url := rq_url req;
     rq_query := Values_Add (rq_query req) key value;
     rq_header := rq_header req;
     rq_body := rq_body req |}.

(** An [http.Response]: its body as [gjson] reads it, its body as the
    HTML parser reads it, and the error met while reading the body (nil
    when the body is read whole). *)
Record Response : Type := {
  res_json : json;
  res_doc : Document;
  res_read_err : option error
}.

(** The part of a parsed [url.URL] the flow uses. *)
Record URL : Type := {
  Host : string
}.

(** ** The outside of the flow *)

(** The library functions the flow takes as they are, and the answers of
    the outside: the result of the n-th call of [client.Do], the index
    the user picks at the n-th [prompt.Choose], the text the user enters
    at the n-th [prompt.StringRequired].  The calls are counted from 0;
    whatever the servers make of a request, their answers in one call of
    [Authenticate] form such a sequence. *)
Record Env : Type := {
  url_Parse : string -> error + URL;
  html_UnescapeString : string -> string;
  http_answer : nat -> error + Response;
  choose_answer : nat -> nat;
  string_answer : nat -> string
}.

(** What the flow does to the outside, in order. *)
Inductive Event : Type :=
| EvDo (req : Request)
| EvChoose (prompt : string) (options : list string)
| EvStringRequired (prompt : string)
| EvSleep (duration : Z)
| EvPrintln (line : string).

Record State : Type := {
  n_do : nat;
  n_choose : nat;
  n_string : nat;
  trace : list Event
}.

Definition init_state : State :=
  {| n_do := 0; n_choose := 0; n_string := 0; trace := [] |}.

(** How a call of [Authenticate] ends: it returns its two results, or it
    panics, or the model runs out of fuel in the poll loop. *)
Inductive Result : Type :=
| Returned (samlAssertion : string) (err : option error)
| Panicked (msg : string)
| OutOfFuel.

(** A statement either falls through with a value or ends the call. *)
Inductive Step (A : Type) : Type :=
| Continue (a : A)
| Stop (r : Result).
Arguments Stop {A} r.

Definition M (A : Type) : Type := State -> Step A * State.

Definition ret {A : Type} (a : A) : M A :=
  fun s => (Continue a, s).

Definition bind {A B : Type} (m : M A) (k : A -> M B) : M B :=
  fun s =>
    match m s with
    | (Continue a, s') => k a s'
    | (Stop r, s') => (Stop r, s')
    end.

Definition return_ {A : Type} (samlAssertion : string) (err : option error) : M A :=
  fun s => (Stop (Returned samlAssertion err), s).

Definition panic {A : Type} (msg : string) : M A :=
  fun s => (Stop (Panicked msg), s).

Definition out_of_fuel {A : Type} : M A :=
  fun s => (Stop OutOfFuel, s).

Declare Scope flow_scope.
Delimit Scope flow_scope with flow.
Notation "x <- m ;; k" := (bind m (fun x => k))
  (at level 100, m at next level, right associativity) : flow_scope.
Notation "m ;; k" := (bind m (fun _ => k))
  (at level 100, right associativity) : flow_scope.
Open Scope flow_scope.

Definition emit (e : Event) (s : State) : State :=
  {| n_do := n_do s; n_choose := n_choose s; n_string := n_string s;
     trace := trace s ++ [e] |}.

Section Outside.
Variable env : Env.

(** [oc.client.Do(req)]. *)
Definition client_Do (req : Request) : M (error + Response) :=
  fun s =>
    (Continue (http_answer env (n_do s)),
     {| n_do := S (n_do s); n_choose := n_choose s; n_string := n_string s;
        trace := trace s ++ [EvDo req] |}).

(** [prompt.Choose(prompt, list)]. *)
Definition prompt_Choose (prompt : string) (list : list string) : M nat :=
  fun s =>
    (Continue (choose_answer env (n_choose s)),
     {| n_do := n_do s; n_choose := S (n_choose s); n_string := n_string s;
        trace := trace s ++ [EvChoose prompt list] |}).

(** [prompt.StringRequired(prompt)]. *)
Definition prompt_StringRequired (prompt : string) : M string :=
  fun s =>
    (Continue (string_answer env (n_string s)),
     {| n_do := n_do s; n_choose := n_choose s; n_string := S (n_string s);
        trace := trace s ++ [EvStringRequired prompt] |}).

(** [time.Sleep(d)]. *)
Definition time_Sleep (d : Z) : M unit :=
  fun s => (Continue tt, emit (EvSleep d) s).

(** [fmt.Println(line)]. *)
Definition fmt_Println (line : string) : M unit :=
  fun s => (Continue tt, emit (EvPrintln line) s).

(** [http.NewRequest(method, url, body)]: fails when the URL does not
    parse. *)
Definition http_NewRequest (method url : string) (body : Payload)
  : error + Request :=
  match url_Parse env url with
  | inl e => inl e
  | inr _ => inr {| rq_method := method; rq_url := url; rq_query := [];
                    rq_header := []; rq_body := body |}
  end.
End Outside.

(** [time.Second], in nanoseconds. *)
Definition time_Second : Z := 1000000000.

(** [ioutil.ReadAll(res.Body)]: what was read, and the error of reading. *)
Definition ioutil_ReadAll (res : Response) : json * option error :=
  (res_json res, res_read_err res).

(** [goquery.NewDocumentFromResponse(res)]: the parsed document, or the
    error of reading the body. *)
Definition goquery_NewDocumentFromResponse (res : Response) : error + Document :=
  match res_read_err res with
  | Some e => inl e
  | None => inr (res_doc res)
  end.

(** [if err != nil { return samlAssertion, errors.Wrap(err, message) }]
    after a call that yields a value or an error. *)
Definition check {A : Type} (r : error + A) (samlAssertion message : string) : M A :=
  match r with
  | inl e => return_ samlAssertion (errors_Wrap (Some e) message)
  | inr a => ret a
  end.

(** [list[i]]: an index out of range panics. *)
Definition index {A : Type} (l : list A) (i : nat) : M A :=
  match nth_error l i with
  | Some a => ret a
  | None => panic "index out of range"
  end.

(** [x.f] on a pointer that is nil when the call failed. *)
Definition deref {A : Type} (r : error + A) : M A :=
  match r with
  | inl _ => panic "invalid memory address or nil pointer dereference"
  | inr a => ret a
  end.

(** ** The flow *)

Definition IdentifierDuoMfa : string := "DUO WEB".
Definition IdentifierSmsMfa : string := "OKTA SMS".
Definition IdentifierTotpMfa : string := "GOOGLE TOKEN:SOFTWARE:TOTP".

(** The map [supportedMfaOptions], by its three entries. *)
Definition supportedMfaOptions : list (string * string) :=
  [ (IdentifierDuoMfa, "DUO MFA authentication");
    (IdentifierSmsMfa, "SMS MFA authentication");
    (IdentifierTotpMfa, "TOTP MFA authentication") ].

(** [parseMfaIdentifer(json, arrayPosition)]. *)
Definition parseMfaIdentifer (json : json) (arrayPosition : nat) : string :=
  let mfaProvider :=
    json_String (gjson_Get json
      ("_embedded.factors." ++ itoa arrayPosition ++ ".provider")) in
  let factorType :=
    strings_ToUpper (json_String (gjson_Get json
      ("_embedded.factors." ++ itoa arrayPosition ++ ".factorType"))) in
  mfaProvider ++ " " ++ factorType.

(** The body of the loop of lines 117-124: the label of one factor. *)
Definition mfaOptionLabel (identifier : string) : string :=
  match assoc identifier supportedMfaOptions with
  | Some val => val
  | None => "UNSUPPORTED: " ++ identifier
  end.

(** The loop of lines 117-124: [mfaOptions] after the loop. *)
Definition mfaOptionLabels (resp : json) : list string :=
  map (fun i => mfaOptionLabel (parseMfaIdentifer resp i))
      (seq 0 (length (json_Array (gjson_Get resp "_embedded.factors")))).

Definition json_header (req : Request) : Request :=
  Header_Add (Header_Add req "Content-Type" "application/json")
             "Accept" "application/json".

Definition form_header (req : Request) : Request :=
  Header_Add req "Content-Type" "application/x-www-form-urlencoded".

Section Flow.
Variable env : Env.

(** The loop of lines 306-336.  It yields [duoTxCookie] when the loop
    is left by [break]; [fuel] bounds the number of rounds. *)
Fixpoint pollLoop (fuel : nat) (duoSubmitURL : string) (duoForm : Values)
  : M string :=
  match fuel with
  | O => out_of_fuel
  | S fuel' =>
      time_Sleep (3 * time_Second) ;;
      req <- check (http_NewRequest env "POST" duoSubmitURL (Form duoForm))
                   "" "error building authentication request" ;;
      let req := form_header req in
      r <- client_Do env req ;;
      res <- check r "" "error retrieving verify response" ;;
      let '(body, err) := ioutil_ReadAll res in
      let resp := body in
      let duoTxResult := json_String (gjson_Get resp "response.result") in
      let duoTxCookie := json_String (gjson_Get resp "response.cookie") in
      fmt_Println (json_String (gjson_Get resp "response.status")) ;;
      if String.eqb duoTxResult "FAILURE" then
        return_ "" (errors_Wrap err "failed to authenticate device")
      else if String.eqb duoTxResult "SUCCESS" then
        ret duoTxCookie
      else
        pollLoop fuel' duoSubmitURL duoForm
  end.

(** Lines 182-378, the case [IdentifierDuoMfa] of the switch.  [resp]
    is the body of the verify response; the case yields the body that
    [resp] holds when it ends. *)
Definition duoCase (fuel : nat) (oktaOrgHost stateToken factorID oktaVerify : string)
           (resp : json) : M json :=
  let duoHost :=
    json_String (gjson_Get resp "_embedded.factor._embedded.verification.host") in
  let duoSignature :=
    json_String (gjson_Get resp "_embedded.factor._embedded.verification.signature") in
  let duoSiguatres := strings_Split duoSignature ":" in
  let duoCallback :=
    json_String (gjson_Get resp
      "_embedded.factor._embedded.verification._links.complete.href") in
  (* initiate duo mfa to get sid *)
  let duoSubmitURL := "https://" ++ duoHost ++ "/frame/web/v1/auth" in
  let duoForm := [] in
  let duoForm := Values_Add duoForm "parent"
                   ("https://" ++ oktaOrgHost ++ "/signin/verify/duo/web") in
  let duoForm := Values_Add duoForm "java_version" "" in
  let duoForm := Values_Add duoForm "java_version" "" in
  let duoForm := Values_Add duoForm "flash_version" "" in
  let duoForm := Values_Add duoForm "screen_resolution_width" "3008" in
  let duoForm := Values_Add duoForm "screen_resolution_height" "1692" in
  let duoForm := Values_Add duoForm "color_depth" "24" in
  req <- check (http_NewRequest env "POST" duoSubmitURL (Form duoForm))
               "" "error building authentication request" ;;
  tx <- index duoSiguatres 0 ;;
  let req := Query_Add req "tx" tx in
  let req := form_header req in
  r <- client_Do env req ;;
  res <- check r "" "error retrieving verify response" ;;
  (* try to extract sid *)
  doc <- check (goquery_NewDocumentFromResponse res) "" "error parsing document" ;;
  let err := @None error in
  let '(duoSID, ok) := Attr (Find_input_named doc "sid") "value" in
  if negb ok then
    return_ "" (errors_Wrap err "unable to locate saml response")
  else
  let duoSID := html_UnescapeString env duoSID in
  (* prompt for mfa type *)
  let duoMfaOptions := ["Passcode"; "Duo Push"] in
  duoMfaOption <- prompt_Choose env "Select a DUO MFA Option" duoMfaOptions ;;
  chosen <- index duoMfaOptions duoMfaOption ;;
  token <- (if String.eqb chosen "Passcode"
            then prompt_StringRequired env "Enter passcode"
            else ret "") ;;
  (* send mfa auth request *)
  let duoSubmitURL := "https://" ++ duoHost ++ "/frame/prompt" in
  let duoForm := [] in
  let duoForm := Values_Add duoForm "sid" duoSID in
  let duoForm := Values_Add duoForm "device" "phone1" in
  let duoForm := Values_Add duoForm "factor" chosen in
  let duoForm := Values_Add duoForm "out_of_date" "false" in
  let duoForm := if String.eqb chosen "Passcode"
                 then Values_Add duoForm "passcode" token
                 else duoForm in
  req <- check (http_NewRequest env "POST" duoSubmitURL (Form duoForm))
               "" "error building authentication request" ;;
  let req := form_header req in
  r <- client_Do env req ;;
  res <- check r "" "error retrieving verify response" ;;
  let '(body, err) := ioutil_ReadAll res in
  let resp := body in
  let duoTxStat := json_String (gjson_Get resp "stat") in
  let duoTxID := json_String (gjson_Get resp "response.txid") in
  if negb (String.eqb duoTxStat "OK") then
    return_ "" (errors_Wrap err "error authenticating mfa device")
  else
  (* get duo cookie *)
  let duoSubmitURL := "https://" ++ duoHost ++ "/frame/status" in
  let duoForm := [] in
  let duoForm := Values_Add duoForm "sid" duoSID in
  let duoForm := Values_Add duoForm "txid" duoTxID in
  req <- check (http_NewRequest env "POST" duoSubmitURL (Form duoForm))
               "" "error building authentication request" ;;
  let req := form_header req in
  r <- client_Do env req ;;
  res <- check r "" "error retrieving verify response" ;;
  let '(body, err) := ioutil_ReadAll res in
  let resp := body in
  let duoTxResult := json_String (gjson_Get resp "response.result") in
  let duoTxCookie := json_String (gjson_Get resp "response.cookie") in
  fmt_Println (json_String (gjson_Get resp "response.status")) ;;
  duoTxCookie <- (if negb (String.eqb duoTxResult "SUCCESS")
                  then pollLoop fuel duoSubmitURL duoForm
                  else ret duoTxCookie) ;;
  (* callback to okta with cookie *)
  let oktaForm := [] in
  let oktaForm := Values_Add oktaForm "id" factorID in
  let oktaForm := Values_Add oktaForm "stateToken" stateToken in
  app <- index duoSiguatres 1 ;;
  let oktaForm := Values_Add oktaForm "sig_response" (duoTxCookie ++ ":" ++ app) in
  req <- check (http_NewRequest env "POST" duoCallback (Form oktaForm))
               "" "error building authentication request" ;;
  let req := form_header req in
  r <- client_Do env req ;;
  _ <- check r "" "error retrieving verify response" ;;
  (* extract okta session token *)
  let verifyReq := {| StateToken := stateToken; PassCode := "" |} in
  req <- check (http_NewRequest env "POST" oktaVerify (JsonVerify verifyReq))
               "" "error building verify request" ;;
  let req := Header_Add (json_header req) "X-Okta-XsrfToken" "" in
  r <- client_Do env req ;;
  res <- check r "" "error retrieving verify response" ;;
  let '(body, err) := ioutil_ReadAll res in
  ret body.

(** Lines 160-179, the case [IdentifierSmsMfa, IdentifierTotpMfa] of
    the switch; it yields the body that [resp] holds when it ends. *)
Definition smsTotpCase (stateToken oktaVerify : string) : M json :=
  verifyCode <- prompt_StringRequired env "Enter verification code" ;;
  let tokenReq := {| StateToken := stateToken; PassCode := verifyCode |} in
  req <- check (http_NewRequest env "POST" oktaVerify (JsonVerify tokenReq))
               "" "error building token post request" ;;
  let req := json_header req in
  r <- client_Do env req ;;
  res <- check r "" "error retrieving token post response" ;;
  let '(body, err) := ioutil_ReadAll res in
  ret body.

(** Lines 115-127: the factor is chosen; [mfaOption] after them. *)
Definition chooseMfaOption (resp : json) : M nat :=
  (* choose an mfa option if there are multiple enabled *)
  let mfaOptions := mfaOptionLabels resp in
  if (1 <? length mfaOptions)%nat
  then prompt_Choose env "Select which MFA option to use" mfaOptions
  else ret 0%nat.

(** Lines 129-379: the chosen factor is verified.  The block yields
    the body that [resp] holds when it ends. *)
Definition verifyMfaOption (fuel : nat) (oktaOrgHost stateToken : string)
           (resp : json) (err : option error) (mfaOption : nat) : M json :=
  let factorID :=
    json_String (gjson_Get resp
      ("_embedded.factors." ++ itoa mfaOption ++ ".id")) in
  let oktaVerify :=
    json_String (gjson_Get resp
      ("_embedded.factors." ++ itoa mfaOption ++ "._links.verify.href")) in
  let mfaIdentifer := parseMfaIdentifer resp mfaOption in
  match assoc mfaIdentifer supportedMfaOptions with
  | None => return_ "" (errors_Wrap err "unsupported mfa provider")
  | Some _ =>
      (* get signature & callback *)
      let verifyReq := {| StateToken := stateToken; PassCode := "" |} in
      req <- check (http_NewRequest env "POST" oktaVerify (JsonVerify verifyReq))
                   "" "error building verify request" ;;
      let req := json_header req in
      r <- client_Do env req ;;
      res <- check r "" "error retrieving verify response" ;;
      let '(body, err) := ioutil_ReadAll res in
      let resp := body in
      if (String.eqb mfaIdentifer IdentifierSmsMfa
          || String.eqb mfaIdentifer IdentifierTotpMfa)%bool then
        smsTotpCase stateToken oktaVerify
      else if String.eqb mfaIdentifer IdentifierDuoMfa then
        duoCase fuel oktaOrgHost stateToken factorID oktaVerify resp
      else
        ret resp
  end.

(** Lines 114-380, the body of [if authStatus == "MFA_REQUIRED"].
    [resp] is the body of the authentication response and [err] the
    error of reading it. *)
Definition mfaRequired (fuel : nat) (oktaOrgHost stateToken : string)
           (resp : json) (err : option error) : M json :=
  mfaOption <- chooseMfaOption resp ;;
  verifyMfaOption fuel oktaOrgHost stateToken resp err mfaOption.

(** Lines 382-413: the session token is exchanged and the assertion is
    read from the answer. *)
Definition sessionRedirect (oktaOrgHost oktaEntryURL : string) (resp : json)
  : M Empty_set :=
  let oktaSessionToken := json_String (gjson_Get resp "sessionToken") in
  (* now call saml endpoint *)
  let oktaSessionRedirectURL :=
    "https://" ++ oktaOrgHost ++ "/login/sessionCookieRedirect" in
  req <- check (http_NewRequest env "GET" oktaSessionRedirectURL NoBody)
               "" "error building authentication request" ;;
  let req := Query_Add req "checkAccountSetupComplete" "true" in
  let req := Query_Add req "token" oktaSessionToken in
  let req := Query_Add req "redirectUrl" oktaEntryURL in
  r <- client_Do env req ;;
  res <- check r "" "error retrieving verify response" ;;
  (* try to extract SAMLResponse *)
  doc <- check (goquery_NewDocumentFromResponse res) "" "error parsing document" ;;
  let err := @None error in
  let '(samlAssertion, ok) := Attr (Find_input_named doc "SAMLResponse") "value" in
  if negb ok then
    return_ samlAssertion (errors_Wrap err "unable to locate saml response")
  else
    return_ samlAssertion None.

(** [OktaClient.Authenticate(loginDetails)], lines 79-414. *)
Definition Authenticate (fuel : nat) (loginDetails : LoginDetails) : M Empty_set :=
  let samlAssertion := "" in
  let oktaEntryURL := "https://" ++ Hostname loginDetails in
  oktaURL <- deref (url_Parse env oktaEntryURL) ;;
  let oktaOrgHost := Host oktaURL in
  (* authenticate via okta api *)
  let authReq := {| auth_Username := Username loginDetails;
                    auth_Password := Password loginDetails |} in
  let authSubmitURL := "https://" ++ oktaOrgHost ++ "/api/v1/authn" in
  req <- check (http_NewRequest env "POST" authSubmitURL (JsonAuth authReq))
               samlAssertion "error building authentication request" ;;
  let req := json_header req in
  r <- client_Do env req ;;
  res <- check r samlAssertion "error retrieving auth response" ;;
  let '(body, err) := ioutil_ReadAll res in
  let resp := body in
  let stateToken := json_String (gjson_Get resp "stateToken") in
  let authStatus := json_String (gjson_Get resp "status") in
  (* mfa required *)
  resp <- (if String.eqb authStatus "MFA_REQUIRED"
           then mfaRequired fuel oktaOrgHost stateToken resp err
           else ret resp) ;;
  sessionRedirect oktaOrgHost oktaEntryURL resp.
End Flow.

(** A call of [Authenticate] from the start: how it ends, and what it
    did to the outside. *)
Definition run (m : M Empty_set) : Result * list Event :=
  match m init_state with
  | (Stop r, s) => (r, trace s)
  | (Continue e, _) => match e return Result * list Event with end
  end.

(** The requests of a trace, in order. *)
Fixpoint requests (tr : list Event) : list Request :=
  match tr with
  | [] => []
  | EvDo req :: rest => req :: requests rest
  | _ :: rest => requests rest
  end.


(** ** The vocabulary of the properties *)

(** Whether a byte occurs in a string. *)
Fixpoint has_byte (c : ascii) (s : string) : bool :=
  match s with
  | EmptyString => false
  | String c' rest => (Ascii.eqb c' c || has_byte c rest)%bool
  end.

(** The fields of one factor of the list [_embedded.factors]. *)
Definition factor_provider (f : json) : string :=
  json_String (gjson_Get f "provider").

Definition factor_factorType (f : json) : string :=
  json_String (gjson_Get f "factorType").

(** The identifier the code computes for a factor: the provider as it
    is, a space, the factor type in upper case. *)
Definition factor_identifier (f : json) : string :=
  factor_provider f ++ " " ++ strings_ToUpper (factor_factorType f).

(** The identifier as section 4.2 of the specification words it: the
    upper case of the whole of "<provider> <factorType>". *)
Definition spec_identifier (provider factorType : string) : string :=
  strings_ToUpper (provider ++ " " ++ factorType).

(** The verify link of the factor at index [i] (line 130). *)
Definition factor_verify_href (resp : json) (i : nat) : string :=
  json_String (gjson_Get resp
    ("_embedded.factors." ++ itoa i ++ "._links.verify.href")).

(** The fields read from the responses. *)
Definition auth_status (res : Response) : string :=
  json_String (gjson_Get (res_json res) "status").

Definition auth_stateToken (res : Response) : string :=
  json_String (gjson_Get (res_json res) "stateToken").

Definition session_token (res : Response) : string :=
  json_String (gjson_Get (res_json res) "sessionToken").

Definition duo_signature (res : Response) : string :=
  json_String (gjson_Get (res_json res)
    "_embedded.factor._embedded.verification.signature").

Definition poll_result (res : Response) : string :=
  json_String (gjson_Get (res_json res) "response.result").

Definition poll_cookie (res : Response) : string :=
  json_String (gjson_Get (res_json res) "response.cookie").

Definition poll_status (res : Response) : string :=
  json_String (gjson_Get (res_json res) "response.status").

(** The state token of a call: the one of the answer to its first
    request. *)
Definition first_state_token (env : Env) : string :=
  match http_answer env 0 with
  | inr res => auth_stateToken res
  | inl _ => ""
  end.

(** *** The requests of the flow *)

Definition entryURL (login : LoginDetails) : string :=
  "https://" ++ Hostname login.

Definition redirectURL (oktaOrgHost : string) : string :=
  "https://" ++ oktaOrgHost ++ "/login/sessionCookieRedirect".

Definition json_headers : Values :=
  [("Content-Type", "application/json"); ("Accept", "application/json")].

(** The credential submission (lines 87-101). *)
Definition authRequest (oktaOrgHost : string) (login : LoginDetails) : Request :=
  {| rq_method := "POST";
     rq_url := "https://" ++ oktaOrgHost ++ "/api/v1/authn";
     rq_query := [];
     rq_header := json_headers;
     rq_body := JsonAuth {| auth_Username := Username login;
                            auth_Password := Password login |} |}.

(** A verify call (lines 138-150 and 161-173). *)
Definition verifyCall (url stateToken passCode : string) : Request :=
  {| rq_method := "POST"; rq_url := url; rq_query := [];
     rq_header := json_headers;
     rq_body := JsonVerify {| StateToken := stateToken; PassCode := passCode |} |}.

(** The verify call that ends the Duo case (lines 359-372). *)
Definition reverifyCall (url stateToken : string) : Request :=
  {| rq_method := "POST"; rq_url := url; rq_query := [];
     rq_header := (json_headers ++ [("X-Okta-XsrfToken", "")])%list;
     rq_body := JsonVerify {| StateToken := stateToken; PassCode := "" |} |}.

(** The request that opens the Duo case (lines 190-211). *)
Definition duoAuthCall (duoHost oktaOrgHost tx : string) : Request :=
  {| rq_method := "POST";
     rq_url := "https://" ++ duoHost ++ "/frame/web/v1/auth";
     rq_query := [("tx", tx)];
     rq_header := [("Content-Type", "application/x-www-form-urlencoded")];
     rq_body := Form [("parent", "https://" ++ oktaOrgHost ++ "/signin/verify/duo/web");
                      ("java_version", ""); ("java_version", "");
                      ("flash_version", "");
                      ("screen_resolution_width", "3008");
                      ("screen_resolution_height", "1692");
                      ("color_depth", "24")] |}.

(** A form posted as it is: the requests to [/frame/prompt] and to
    [/frame/status], and the callback. *)
Definition statusRequest (url : string) (form : Values) : Request :=
  {| rq_method := "POST"; rq_url := url; rq_query := [];
     rq_header := [("Content-Type", "application/x-www-form-urlencoded")];
     rq_body := Form form |}.

(** The form of the callback (lines 340-343). *)
Definition callbackForm (factorID stateToken sig_response : string) : Values :=
  [("id", factorID); ("stateToken", stateToken); ("sig_response", sig_response)].

(** The request of the session redirect (lines 385-397). *)
Definition redirectCall (oktaOrgHost oktaSessionToken oktaEntryURL : string)
  : Request :=
  {| rq_method := "GET";
     rq_url := redirectURL oktaOrgHost;
     rq_query := [("checkAccountSetupComplete", "true");
                  ("token", oktaSessionToken);
                  ("redirectUrl", oktaEntryURL)];
     rq_header := [];
     rq_body := NoBody |}.

(** The requests a call of [Authenticate] can issue, each with the place
    it has among the requests of the call. *)
Inductive issued (env : Env) (login : LoginDetails) : nat -> Request -> Prop :=
| is_auth host : issued env login 0 (authRequest host login)
| is_verify n url code :
    issued env login n (verifyCall url (first_state_token env) code)
| is_reverify n url :
    issued env login n (reverifyCall url (first_state_token env))
| is_duo_auth res1 tx duoHost host :
    http_answer env 1 = inr res1 ->
    nth_error (strings_Split (duo_signature res1) ":") 0 = Some tx ->
    issued env login 2 (duoAuthCall duoHost host tx)
| is_duo_form n url form :
    Values_Get form "stateToken" = None ->
    Values_Get form "sig_response" = None ->
    issued env login n (statusRequest url form)
| is_callback n res1 res app url factorID :
    http_answer env 1 = inr res1 ->
    nth_error (strings_Split (duo_signature res1) ":") 1 = Some app ->
    http_answer env n = inr res ->
    poll_result res = "SUCCESS" ->
    issued env login (S n)
      (statusRequest url
         (callbackForm factorID (first_state_token env)
            (poll_cookie res ++ ":" ++ app)))
| is_redirect n host token :
    issued env login n (redirectCall host token (entryURL login)).

(** Whether a request carries the state token [st] where it carries one:
    a verify call in its body, the callback in its form. *)
Definition carries_state_token (st : string) (req : Request) : bool :=
  match rq_body req with
  | JsonVerify v => String.eqb (StateToken v) st
  | Form f =>
      match Values_Get f "stateToken" with
      | Some v => String.eqb v st
      | None =>
          match Values_Get f "sig_response" with
          | Some _ => false
          | None => true
          end
      end
  | _ => true
  end.

(** *** States of a call *)

Definition count_choose (tr : list Event) : nat :=
  length (filter (fun e => match e with EvChoose _ _ => true | _ => false end) tr).

Definition count_string (tr : list Event) : nat :=
  length (filter (fun e => match e with EvStringRequired _ => true | _ => false end) tr).

Definition count_sleep (tr : list Event) : nat :=
  length (filter (fun e => match e with EvSleep _ => true | _ => false end) tr).

(** The state of a call that has done [tr] since it began. *)
Definition state_after (tr : list Event) : State :=
  {| n_do := length (requests tr); n_choose := count_choose tr;
     n_string := count_string tr; trace := tr |}.

(** The index the selection of lines 115-127 ends with, in a call that
    has not prompted before. *)
Definition chosen_option (env : Env) (resp : json) : nat :=
  if (1 <? length (mfaOptionLabels resp))%nat then choose_answer env 0 else 0.

(** What the selection of lines 115-127 does to the outside. *)
Definition selection_events (resp : json) : list Event :=
  if (1 <? length (mfaOptionLabels resp))%nat
  then [EvChoose "Select which MFA option to use" (mfaOptionLabels resp)]
  else [].

(** One round of the poll loop: the sleep, the request, the line
    printed. *)
Definition poll_round (url : string) (form : Values) (res : Response) (s : State)
  : State :=
  {| n_do := S (n_do s); n_choose := n_choose s; n_string := n_string s;
     trace := trace s ++ [EvSleep (3 * time_Second);
                          EvDo (statusRequest url form);
                          EvPrintln (poll_status res)] |}.

(** What a run of the poll loop leaves: [k] requests, all the same, and,
    when the loop is left by [break], the cookie of the last answer. *)
Definition poll_post (env : Env) (url : string) (form : Values)
           (s : State) (r : Step string) (s' : State) : Prop :=
  exists (k : nat) (evs : list Event),
    trace s' = (trace s ++ evs)%list /\
    requests evs = repeat (statusRequest url form) k /\
    n_do s' = n_do s + k /\
    n_choose s' = n_choose s /\
    n_string s' = n_string s /\
    match r with
    | Continue cookie =>
        exists k' res, k = S k' /\
          http_answer env (n_do s + k') = inr res /\
          poll_result res = "SUCCESS" /\
          cookie = poll_cookie res
    | Stop _ => True
    end.

(** *** A logic of requests

    [keeps good m s Q]: from the state [s], the statement [m] only adds
    to the trace, every request it issues is [good] at its place, and
    [Q] holds of its value and state when it falls through. *)
Section RequestLogic.
Variable good : nat -> Request -> Prop.

Definition ext (s s' : State) : Prop :=
  exists evs,
    trace s' = (trace s ++ evs)%list /\
    n_do s' = n_do s + length (requests evs) /\
    forall n req, nth_error (requests evs) n = Some req -> good (n_do s + n) req.

Definition keeps {A : Type} (m : M A) (s : State) (Q : A -> State -> Prop) : Prop :=
  match m s with
  | (Continue a, s') => ext s s' /\ Q a s'
  | (Stop _, s') => ext s s'
  end.
End RequestLogic.

(** ** Scripted outsides

    Concrete outsides for the scenarios of section 8: the answers of the
    servers and of the user are read from lists.  The raw text of the
    objects and arrays is not read in these scenarios and is left empty. *)

(** A URL parser for the scenarios: every URL parses, and its host is
    what stands between the scheme and the first slash. *)
Definition scripted_url_Parse (url : string) : error + URL :=
  inr {| Host := hd "" (split_on "/" (substring 8 (String.length url - 8) url)) |}.

Definition scripted (answers : list (error + Response)) (choices : list nat)
           (texts : list string) : Env :=
  {| url_Parse := scripted_url_Parse;
     html_UnescapeString := fun s => s;
     http_answer := fun n => nth n answers (inl (ErrBase "EOF"));
     choose_answer := fun n => nth n choices 0;
     string_answer := fun n => nth n texts "" |}.

Definition obj (members : list (string * json)) : json := JObject "" members.

Definition json_response (j : json) : error + Response :=
  inr {| res_json := j; res_doc := []; res_read_err := None |}.

Definition html_response (doc : Document) : error + Response :=
  inr {| res_json := JNull; res_doc := doc; res_read_err := None |}.

Definition hidden_input (name value : string) : Element :=
  {| el_tag := "input";
     el_attrs := [("type", "hidden"); ("name", name); ("value", value)] |}.

Definition login_x : LoginDetails :=
  {| Username := "user"; Password := "secret"; Hostname := "x.okta.com" |}.

Definition a_factor (id provider factorType href : string) : json :=
  obj [("id", JString id); ("provider", JString provider);
       ("factorType", JString factorType);
       ("_links", obj [("verify", obj [("href", JString href)])])].

Definition mfa_required (factors : list json) : json :=
  obj [("status", JString "MFA_REQUIRED"); ("stateToken", JString "st1");
       ("_embedded", obj [("factors", JArray "" factors)])].

Definition saml_page_response : Response :=
  {| res_json := JNull;
     res_doc := [hidden_input "SAMLResponse" "YXNzZXJ0aW9u"];
     res_read_err := None |}.

Definition saml_page : error + Response := inr saml_page_response.

(** Scenario A: no factor is required. *)
Definition success_response : Response :=
  {| res_json := obj [("status", JString "SUCCESS"); ("sessionToken", JString "tok1")];
     res_doc := []; res_read_err := None |}.

Definition scenario_A : Env :=
  scripted [inr success_response; saml_page] [] [].

(** Scenario A with a page that has no [SAMLResponse] input. *)
Definition empty_page_response : Response :=
  {| res_json := JNull;
     res_doc := [{| el_tag := "html"; el_attrs := [] |};
                 {| el_tag := "body"; el_attrs := [] |}];
     res_read_err := None |}.

Definition scenario_no_assertion : Env :=
  scripted [inr success_response; inr empty_page_response] [] [].

Definition mfa_response (factors : list json) : Response :=
  {| res_json := mfa_required factors; res_doc := []; res_read_err := None |}.

Definition challenge_response : Response :=
  {| res_json := obj [("status", JString "MFA_CHALLENGE")];
     res_doc := []; res_read_err := None |}.

Definition token_response : Response :=
  {| res_json := obj [("sessionToken", JString "tok2")];
     res_doc := []; res_read_err := None |}.

Definition sms_factor : json := a_factor "f1" "OKTA" "sms" "https://x/verify".

(** Scenario B: one SMS factor. *)
Definition scenario_B : Env :=
  scripted [inr (mfa_response [sms_factor]);
            inr challenge_response;
            inr token_response;
            saml_page] [] ["123456"].

(** A factor whose type is spelled with a long s, U+017F, which is the
    bytes 197 and 191 in UTF-8; its upper case is the letter S. *)
Definition long_s_factor : json :=
  a_factor "f1" "OKTA" (String "197" (String "191" "ms")) "https://x/verify".

(** Scenario B with the factor type spelled with a long s. *)
Definition scenario_long_s : Env :=
  scripted [inr (mfa_response [long_s_factor]);
            inr challenge_response;
            inr token_response;
            saml_page] [] ["123456"].

(** Scenario C: one factor, of a provider that is not supported. *)
Definition unknown_factor : json :=
  a_factor "f1" "UNKNOWN" "custom" "https://x/verify".

Definition scenario_C : Env :=
  scripted [inr (mfa_response [unknown_factor])] [] [].

(** Two factors, the user picks the second. *)
Definition totp_factor : json :=
  a_factor "f2" "GOOGLE" "token:software:totp" "https://x/verify2".

Definition scenario_two_factors : Env :=
  scripted [inr (mfa_response [sms_factor; totp_factor]);
            inr challenge_response;
            inr token_response;
            saml_page] [1] ["123456"].

(** A factor whose provider is spelled in lower case. *)
Definition lower_case_factor : json := a_factor "f1" "okta" "sms" "https://x/verify".

(** The answer to the verify call of a Duo factor. *)
Definition duo_verify (signature : string) : Response :=
  {| res_json :=
       obj [("_embedded", obj [("factor", obj [("_embedded", obj [("verification",
         obj [("host", JString "duo.example");
              ("signature", JString signature);
              ("_links",
               obj [("complete", obj [("href", JString "https://x/callback")])])
             ])])])])];
     res_doc := []; res_read_err := None |}.

(** An answer of [/frame/status]. *)
Definition duo_status (result cookie : string) : Response :=
  {| res_json :=
       obj [("stat", JString "OK");
            ("response", obj [("result", JString result); ("cookie", JString cookie);
                              ("status", JString "Pushed a login request")])];
     res_doc := []; res_read_err := None |}.

(** A Duo push: the verify answer carries [signature], and the answers
    of [/frame/status] are [statuses], the first of them to the request
    of lines 278-291 and the others to the rounds of the poll loop. *)
Definition scenario_duo (signature : string) (statuses : list Response) : Env :=
  scripted ([json_response (mfa_required [a_factor "f1" "DUO" "web" "https://x/verify"]);
             inr (duo_verify signature);
             html_response [hidden_input "sid" "SID"];
             json_response (obj [("stat", JString "OK");
                                 ("response", obj [("txid", JString "TX1")])])]
            ++ map inr statuses
            ++ [json_response (obj []);
                json_response (obj [("sessionToken", JString "tok3")]);
                saml_page])%list
           [1] [].

(** The push is approved at the third answer of [/frame/status]. *)
Definition scenario_push_approved : Env :=
  scenario_duo "AAA:BBB"
    [duo_status "WAITING" "c1"; duo_status "WAITING" "c2"; duo_status "SUCCESS" "c3"].

(** The push is denied at the second answer of [/frame/status]. *)
Definition scenario_push_denied : Env :=
  scenario_duo "AAA:BBB" [duo_status "WAITING" "c1"; duo_status "FAILURE" "c2"].

(** The signature has no colon; the push is approved at once. *)
Definition scenario_no_colon : Env :=
  scenario_duo "AAA" [duo_status "SUCCESS" "c1"].


(** ** The ends of a call

    The vocabulary of the properties that hold of every way a call can
    end, of the branches of the flow that stop early, and the outsides
    that show them. *)

(** Every request before the [n]-th was answered. *)
Definition answered (env : Env) (n : nat) : Prop :=
  forall k, k < n -> exists res, http_answer env k = inr res.

(** Where the cause of a returned error comes from: a URL that does not
    parse, a request that is not answered, or a body that is not read
    whole. *)
Definition origin (env : Env) (cause : error) : Prop :=
  (exists url, url_Parse env url = inl cause) \/
  (exists n, http_answer env n = inl cause) \/
  (exists n res, http_answer env n = inr res /\ res_read_err res = Some cause).

(** What holds of the way a call ends after [n] requests. *)
Definition outcome_ok (env : Env) (r : Result) (n : nat) : Prop :=
  (forall k, S k < n -> exists res, http_answer env k = inr res) /\
  (forall k e, n = S k -> http_answer env k = inl e ->
     exists msg, r = Returned "" (Some (ErrWrap msg e))) /\
  (forall saml e, r = Returned saml (Some e) ->
     saml = "" /\ exists msg cause, e = ErrWrap msg cause /\ origin env cause) /\
  (forall saml err, r = Returned saml err -> saml <> "" ->
     err = None /\
     exists k res, n = S k /\ http_answer env k = inr res /\
       res_read_err res = None /\
       Attr (Find_input_named (res_doc res) "SAMLResponse") "value" = (saml, true)).

Definition ends (env : Env) {A : Type} (m : M A) (s : State)
           (Q : A -> State -> Prop) : Prop :=
  answered env (n_do s) ->
  match m s with
  | (Continue a, s') => answered env (n_do s') /\ Q a s'
  | (Stop r, s') => outcome_ok env r (n_do s')
  end.

Definition scenario_unreachable : Env := scripted [] [] [].

Definition scenario_bad_hostname : Env :=
  {| url_Parse := fun _ => inl (ErrBase "invalid character in host name");
     html_UnescapeString := fun s => s;
     http_answer := fun _ => inl (ErrBase "EOF");
     choose_answer := fun _ => 0;
     string_answer := fun _ => "" |}.

Definition healthy (env : Env) : Prop :=
  (forall url, exists u, url_Parse env url = inr u) /\
  (forall n, exists res, http_answer env n = inr res /\ res_read_err res = None).

(** No factor at position [i]: the list is absent, or shorter. *)
Definition no_factor_at (resp : json) (i : nat) : Prop :=
  gjson_Get resp "_embedded.factors" = JNull \/
  exists raw fs, gjson_Get resp "_embedded.factors" = JArray raw fs /\ length fs <= i.

Definition no_factors_response : Response :=
  {| res_json := obj [("status", JString "MFA_REQUIRED"); ("stateToken", JString "st1")];
     res_doc := []; res_read_err := None |}.

Definition scenario_no_factors : Env := scripted [inr no_factors_response] [] [].

(** The id of the factor at index [i] (line 129). *)
Definition factor_id_at (resp : json) (i : nat) : string :=
  json_String (gjson_Get resp ("_embedded.factors." ++ itoa i ++ ".id")).

(** The state of a call after one more request. *)
Definition after_request (req : Request) (s : State) : State :=
  {| n_do := S (n_do s); n_choose := n_choose s; n_string := n_string s;
     trace := trace s ++ [EvDo req] |}.

(** An outside whose [/frame/status] never settles. *)
Definition never_settles (env : Env) (from : nat) : Prop :=
  forall n, from <= n ->
    exists res, http_answer env n = inr res /\
                poll_result res <> "SUCCESS" /\ poll_result res <> "FAILURE".

Definition always_waiting : Env :=
  {| url_Parse := scripted_url_Parse;
     html_UnescapeString := fun s => s;
     http_answer := fun _ => inr (duo_status "WAITING" "");
     choose_answer := fun _ => 1;
     string_answer := fun _ => "" |}.

(** Every sleep of a trace lasts three seconds. *)
Definition sleeps_three_seconds (tr : list Event) : Prop :=
  forall d, In (EvSleep d) tr -> d = (3 * time_Second)%Z.

(** What the rounds of a poll loop of [fuel] rounds at most add to a
    trace. *)
Definition poll_rounds (url : string) (form : Values) (fuel : nat)
           (evs : list Event) : Prop :=
  length (requests evs) <= count_sleep evs /\
  count_sleep evs <= fuel /\
  sleeps_three_seconds evs /\
  (forall req, In req (requests evs) -> req = statusRequest url form) /\
  count_choose evs = 0 /\ count_string evs = 0.

(** What the Duo case reads from the body of the verify answer. *)
Definition duoHost_of (resp : json) : string :=
  json_String (gjson_Get resp "_embedded.factor._embedded.verification.host").

Definition duoTx_of (resp : json) : string :=
  hd "" (strings_Split
           (json_String (gjson_Get resp
              "_embedded.factor._embedded.verification.signature")) ":").

(** The form posted to [/frame/prompt] (lines 247-254). *)
Definition duoPromptForm (sid factor passcode : string) : Values :=
  ([("sid", sid); ("device", "phone1"); ("factor", factor); ("out_of_date", "false")]
   ++ if String.eqb factor "Passcode" then [("passcode", passcode)] else [])%list.

(** The form posted to [/frame/status] (lines 280-282). *)
Definition duoStatusForm (sid txid : string) : Values :=
  [("sid", sid); ("txid", txid)].

(** The callback URL the Duo case reads from the body of the verify
    answer (line 187). *)
Definition duoCallback_of (resp : json) : string :=
  json_String (gjson_Get resp
    "_embedded.factor._embedded.verification._links.complete.href").

(** The answers of [/frame/status] from the request at place [n] on:
    [k] of them say neither [SUCCESS] nor [FAILURE], and the next one,
    [res], says [SUCCESS]. *)
Definition settles_after (env : Env) (n k : nat) (res : Response) : Prop :=
  (forall j, j < k ->
     exists w, http_answer env (n + j) = inr w /\
               poll_result w <> "SUCCESS" /\ poll_result w <> "FAILURE") /\
  http_answer env (n + k) = inr res /\
  poll_result res = "SUCCESS".

(** A statement that neither panics nor runs out of fuel. *)
Definition returns_or_continues {A : Type} (r : Step A) : Prop :=
  match r with
  | Continue _ => True
  | Stop (Returned _ _) => True
  | Stop _ => False
  end.

(** An outside whose transport is healthy and whose server lists one
    factor that is not supported. *)
Definition healthy_unsupported : Env :=
  {| url_Parse := scripted_url_Parse;
     html_UnescapeString := fun s => s;
     http_answer := fun _ => inr (mfa_response [unknown_factor]);
     choose_answer := fun _ => 0;
     string_answer := fun _ => "" |}.

(** The body of the first answer breaks off while it is read. *)
Definition truncated_response : Response :=
  {| res_json := mfa_required [unknown_factor]; res_doc := [];
     res_read_err := Some (ErrBase "unexpected EOF") |}.

Definition scenario_truncated : Env := scripted [inr truncated_response] [] [].

Definition duo_factor : json := a_factor "f1" "DUO" "web" "https://x/verify".

(** The Duo frame has no [sid] input. *)
Definition scenario_duo_no_sid : Env :=
  scripted [inr (mfa_response [duo_factor]); inr (duo_verify "AAA:BBB");
            inr empty_page_response] [1] [].

Definition sid_page_response : Response :=
  {| res_json := JNull; res_doc := [hidden_input "sid" "SID"]; res_read_err := None |}.

Definition prompt_denied_response : Response :=
  {| res_json := obj [("stat", JString "FAIL")]; res_doc := []; res_read_err := None |}.

(** The user picks [Passcode] and Duo rejects the code. *)
Definition scenario_duo_prompt_denied : Env :=
  scripted [inr (mfa_response [duo_factor]); inr (duo_verify "AAA:BBB");
            inr sid_page_response; inr prompt_denied_response] [0] ["987654"].

(** The state of a call when it enters the Duo case. *)
Definition duo_entry_state : State :=
  state_after [EvDo (authRequest "x.okta.com" login_x);
               EvDo (verifyCall "https://x/verify" "st1" "")].

(** ** Splitting and paths *)

(** [strings.ToUpper] beyond ASCII: the long s becomes [S], the small e
    with acute (195 169) becomes the capital one (195 137), the sharp s
    (195 159) has no upper case of one rune and stays, and a byte that is
    not UTF-8 comes out as U+FFFD (239 191 189). *)
Lemma strings_ToUpper_beyond_ascii :
  strings_ToUpper (String "197" (String "191" "ms")) = "SMS" /\
  strings_ToUpper (String "195" (String "169" "t")) = String "195" (String "137" "T") /\
  strings_ToUpper (String "195" (String "159" "")) = String "195" (String "159" "") /\
  strings_ToUpper (String "255" "a") = String "239" (String "191" (String "189" "A")).
Proof. vm_compute. repeat split. Qed.

(** On text that is all ASCII, [strings.ToUpper] works byte by byte. *)
Lemma strings_ToUpper_ascii (s : string) :
  isASCII s = true -> strings_ToUpper s = toUpperASCII s.
Proof. unfold strings_ToUpper. now intros ->. Qed.

Lemma split_on_nonempty (sep : ascii) (s : string) : split_on sep s <> [].
Proof.
  induction s as [|c rest IH]; simpl; [discriminate|].
  destruct (Ascii.eqb c sep); [discriminate|].
  destruct (split_on sep rest); discriminate.
Qed.

Lemma split_on_none (sep : ascii) (s : string) :
  has_byte sep s = false -> split_on sep s = [s].
Proof.
  induction s as [|c rest IH]; simpl; intros H; [reflexivity|].
  apply orb_false_iff in H as [Hc Hrest].
  rewrite Hc, (IH Hrest). reflexivity.
Qed.

Lemma split_on_app (sep : ascii) (a b : string) :
  split_on sep (a ++ String sep b) = (split_on sep a ++ split_on sep b)%list.
Proof.
  induction a as [|c rest IH]; simpl.
  - rewrite Ascii.eqb_refl. reflexivity.
  - destruct (Ascii.eqb c sep); [now rewrite IH|].
    rewrite IH. destruct (split_on sep rest) eqn:E; [|reflexivity].
    now apply split_on_nonempty in E.
Qed.

Lemma strings_Split_pair (a b : string) :
  has_byte ":" a = false -> has_byte ":" b = false ->
  strings_Split (a ++ ":" ++ b) ":" = [a; b].
Proof.
  intros Ha Hb. unfold strings_Split.
  change (a ++ ":" ++ b) with (a ++ String ":" b).
  now rewrite split_on_app, (split_on_none _ _ Ha), (split_on_none _ _ Hb).
Qed.

Lemma strings_Split_hd (s : string) :
  nth_error (strings_Split s ":") 0 = Some (hd "" (strings_Split s ":")).
Proof.
  unfold strings_Split. pose proof (split_on_nonempty ":" s) as H.
  destruct (split_on ":" s); [congruence|reflexivity].
Qed.

Lemma has_byte_uint (c : ascii) (d : Decimal.uint) :
  (nat_of_ascii c < 48 \/ 57 < nat_of_ascii c)%nat ->
  has_byte c (NilEmpty.string_of_uint d) = false.
Proof.
  intros Hc.
  induction d; cbn [NilEmpty.string_of_uint has_byte]; try reflexivity;
    rewrite IHd, orb_false_r; apply Ascii.eqb_neq; intros <-;
    vm_compute in Hc; lia.
Qed.

Lemma itoa_no_dot (n : nat) : has_byte "." (itoa n) = false.
Proof. apply has_byte_uint. left. vm_compute. lia. Qed.

Lemma itoa_nonempty (n : nat) : itoa n <> "".
Proof.
  unfold itoa. pose proof (Unsigned.to_of (Nat.to_uint n)) as Hd.
  rewrite Unsigned.of_to in Hd. rewrite Hd. unfold Decimal.unorm.
  destruct (Decimal.nzhead (Nat.to_uint n)); discriminate.
Qed.

Lemma parse_uint_itoa (n : nat) : parse_uint (itoa n) = Some n.
Proof.
  pose proof (itoa_nonempty n) as Hne.
  unfold parse_uint. destruct (itoa n) eqn:E; [congruence|].
  rewrite <- E. unfold itoa. rewrite NilEmpty.usu. simpl.
  now rewrite Unsigned.of_to.
Qed.

(** The path of a field of the factor at index [i] leads into the
    [i]-th element of the factor list. *)
Lemma gjson_Get_factor (resp : json) (i : nat) (field raw : string) (fs : list json) :
  gjson_Get resp "_embedded.factors" = JArray raw fs ->
  gjson_Get resp ("_embedded.factors." ++ itoa i ++ String "." field)
  = gjson_Get (nth i fs JNull) field.
Proof.
  unfold gjson_Get. intros H.
  change ("_embedded.factors." ++ itoa i ++ String "." field)
    with ("_embedded.factors" ++ String "." (itoa i ++ String "." field)).
  rewrite !split_on_app, !fold_left_app, H.
  rewrite (@split_on_none "." (itoa i) (itoa_no_dot i)).
  cbn [fold_left json_child]. now rewrite parse_uint_itoa.
Qed.

Lemma parseMfaIdentifer_factor (resp : json) (i : nat) (raw : string) (fs : list json) :
  gjson_Get resp "_embedded.factors" = JArray raw fs ->
  parseMfaIdentifer resp i = factor_identifier (nth i fs JNull).
Proof.
  intros H. unfold parseMfaIdentifer.
  change (".provider") with (String "." "provider").
  change (".factorType") with (String "." "factorType").
  now rewrite !(@gjson_Get_factor resp i _ raw fs H).
Qed.

Lemma factor_verify_href_factor (resp : json) (i : nat) (raw : string) (fs : list json) :
  gjson_Get resp "_embedded.factors" = JArray raw fs ->
  factor_verify_href resp i
  = json_String (gjson_Get (nth i fs JNull) "_links.verify.href").
Proof.
  intros H. unfold factor_verify_href.
  change ("._links.verify.href") with (String "." "_links.verify.href").
  now rewrite (@gjson_Get_factor resp i _ raw fs H).
Qed.

Lemma map_nth_seq {A B : Type} (g : A -> B) (d : A) (l : list A) :
  map (fun i => g (nth i l d)) (seq 0 (length l)) = map g l.
Proof.
  induction l as [|a l IH]; [reflexivity|].
  cbn [length seq map nth]. f_equal.
  rewrite <- seq_shift, map_map. exact IH.
Qed.

Lemma mfaOptionLabels_factors (resp : json) (raw : string) (fs : list json) :
  gjson_Get resp "_embedded.factors" = JArray raw fs ->
  mfaOptionLabels resp = map (fun f => mfaOptionLabel (factor_identifier f)) fs.
Proof.
  intros H. unfold mfaOptionLabels. rewrite H. cbn [json_Array].
  rewrite <- (map_nth_seq (fun f => mfaOptionLabel (factor_identifier f)) JNull fs).
  apply map_ext. intros i. now rewrite (@parseMfaIdentifer_factor resp i raw fs H).
Qed.

(** ** Traces and the poll loop *)

Lemma requests_app (a b : list Event) :
  requests (a ++ b) = (requests a ++ requests b)%list.
Proof.
  induction a as [|e a IH]; [reflexivity|].
  destruct e; simpl; now rewrite IH.
Qed.

Lemma snd_run (m : M Empty_set) : snd (run m) = trace (snd (m init_state)).
Proof. unfold run. destruct (m init_state) as [[[]|r] s]. reflexivity. Qed.

Lemma run_stop (m : M Empty_set) (r : Result) (s : State) :
  m init_state = (Stop r, s) -> run m = (r, trace s).
Proof. unfold run. now intros ->. Qed.

(** One round of the poll loop, when the request is answered. *)
Lemma pollLoop_round (env : Env) (url : string) (form : Values) (u : URL)
      (fuel : nat) (s : State) (res : Response) :
  url_Parse env url = inr u ->
  http_answer env (n_do s) = inr res ->
  pollLoop env (S fuel) url form s =
  if String.eqb (poll_result res) "FAILURE" then
    (Stop (Returned "" (errors_Wrap (res_read_err res) "failed to authenticate device")),
     poll_round url form res s)
  else if String.eqb (poll_result res) "SUCCESS" then
    (Continue (poll_cookie res), poll_round url form res s)
  else pollLoop env fuel url form (poll_round url form res s).
Proof.
  intros Hurl Hres. cbn [pollLoop].
  unfold bind, time_Sleep, check, http_NewRequest, client_Do, fmt_Println.
  rewrite Hurl. unfold ret at 1.
  cbn beta iota delta [emit n_do n_choose n_string trace].
  rewrite Hres. cbn beta iota delta [ioutil_ReadAll].
  unfold poll_round, poll_result, poll_cookie, poll_status, statusRequest,
    form_header, Header_Add, Values_Add, return_, ret, emit.
  cbn [n_do n_choose n_string trace rq_method rq_url rq_query rq_header rq_body app].
  rewrite <- !app_assoc. cbn [app].
  destruct (String.eqb _ "FAILURE"); [reflexivity|].
  destruct (String.eqb _ "SUCCESS"); reflexivity.
Qed.

(** Whatever the answers and the fuel, a run of the poll loop repeats
    one request, and leaves by [break] only with the cookie of an answer
    whose result is [SUCCESS]. *)
Lemma pollLoop_spec (env : Env) (url : string) (form : Values) (fuel : nat) :
  forall s r s',
    pollLoop env fuel url form s = (r, s') -> poll_post env url form s r s'.
Proof.
  induction fuel as [|fuel IH]; intros s r s' H.
  - injection H as <- <-. exists 0, []. rewrite app_nil_r, Nat.add_0_r.
    now repeat split.
  - cbn [pollLoop] in H.
    unfold bind, time_Sleep, check, http_NewRequest, client_Do, fmt_Println in H.
    destruct (url_Parse env url) as [e|u].
    + injection H as <- <-. exists 0, [EvSleep (3 * time_Second)].
      cbn [emit trace n_do n_choose n_string requests repeat].
      rewrite Nat.add_0_r. now repeat split.
    + unfold ret at 1 in H.
      cbn beta iota delta [emit n_do n_choose n_string trace] in H.
      destruct (http_answer env (n_do s)) as [e|res] eqn:Hres.
      * injection H as <- <-.
        exists 1, [EvSleep (3 * time_Second); EvDo (statusRequest url form)].
        cbn [trace n_do n_choose n_string]. rewrite <- app_assoc.
        repeat split; auto. lia.
      * unfold ret at 1 in H. cbn beta iota delta [ioutil_ReadAll] in H.
        fold (poll_result res) (poll_cookie res) (poll_status res) in H.
        set (s1 := emit _ _) in H.
        assert (Hs1 : trace s1 = (trace s ++ [EvSleep (3 * time_Second);
                         EvDo (statusRequest url form);
                         EvPrintln (poll_status res)])%list
                      /\ n_do s1 = S (n_do s) /\ n_choose s1 = n_choose s
                      /\ n_string s1 = n_string s).
        { subst s1. cbn [emit trace n_do n_choose n_string].
          rewrite <- !app_assoc. now repeat split. }
        clearbody s1. destruct Hs1 as (Ht & Hd & Hc & Hn).
        destruct (String.eqb (poll_result res) "FAILURE").
        { injection H as <- <-. exists 1, [EvSleep (3 * time_Second);
            EvDo (statusRequest url form); EvPrintln (poll_status res)].
          rewrite Ht, Hd, Hc, Hn, Nat.add_1_r. now repeat split. }
        destruct (String.eqb_spec (poll_result res) "SUCCESS") as [Hok|_].
        { injection H as <- <-. exists 1, [EvSleep (3 * time_Second);
            EvDo (statusRequest url form); EvPrintln (poll_status res)].
          rewrite Ht, Hd, Hc, Hn, Nat.add_1_r. repeat split; auto.
          exists 0, res. rewrite Nat.add_0_r. now repeat split. }
        apply IH in H. destruct H as (k & evs & Ht' & Hr & Hd' & Hc' & Hn' & Hk).
        exists (S k), ([EvSleep (3 * time_Second);
            EvDo (statusRequest url form); EvPrintln (poll_status res)] ++ evs)%list.
        rewrite Ht', Ht, Hd', Hd, Hc', Hc, Hn', Hn, <- app_assoc.
        split; [reflexivity|].
        split; [cbn [app requests repeat]; now rewrite Hr|].
        split; [lia|]. split; [reflexivity|]. split; [reflexivity|].
        destruct r as [cookie|]; [|exact I].
        destruct Hk as (k' & res' & -> & Ha & Hsucc & Hcookie).
        exists (S k'), res'. repeat split; auto.
        replace (n_do s + S k') with (S (n_do s) + k') by lia. now rewrite <- Hd.
Qed.

(** ** The rules of the logic of requests *)

Section RequestRules.
Variable env : Env.
Variable good : nat -> Request -> Prop.

Lemma ext_refl (s : State) : ext good s s.
Proof.
  exists []. rewrite app_nil_r, Nat.add_0_r. repeat split.
  intros [|n] req H; discriminate.
Qed.

Lemma ext_trans (s1 s2 s3 : State) :
  ext good s1 s2 -> ext good s2 s3 -> ext good s1 s3.
Proof.
  intros (e1 & Ht1 & Hn1 & Hg1) (e2 & Ht2 & Hn2 & Hg2).
  exists (e1 ++ e2)%list.
  rewrite Ht2, Ht1, Hn2, Hn1, requests_app, length_app, <- app_assoc.
  repeat split; [lia|].
  intros n req H.
  destruct (Nat.lt_ge_cases n (length (requests e1))) as [Hlt|Hge].
  - rewrite nth_error_app1 in H by exact Hlt. now apply Hg1.
  - rewrite nth_error_app2 in H by exact Hge. apply Hg2 in H.
    rewrite Hn1 in H.
    now replace (n_do s1 + n)
      with (n_do s1 + length (requests e1) + (n - length (requests e1))) by lia.
Qed.

Lemma ext_quiet (s s' : State) (e : Event) :
  requests [e] = [] -> trace s' = (trace s ++ [e])%list -> n_do s' = n_do s ->
  ext good s s'.
Proof.
  intros He Ht Hn. exists [e]. rewrite He. cbn [length]. rewrite Nat.add_0_r.
  repeat split; auto. intros [|n] req H; discriminate.
Qed.

Lemma keeps_ret {A : Type} (a : A) (s : State) (Q : A -> State -> Prop) :
  Q a s -> keeps good (ret a) s Q.
Proof. intros H. split; [apply ext_refl|exact H]. Qed.

Lemma keeps_return {A : Type} (x : string) (e : option error) (s : State)
      (Q : A -> State -> Prop) :
  keeps good (return_ x e) s Q.
Proof. apply ext_refl. Qed.

Lemma keeps_panic {A : Type} (msg : string) (s : State) (Q : A -> State -> Prop) :
  keeps good (panic msg) s Q.
Proof. apply ext_refl. Qed.

Lemma keeps_bind {A B : Type} (m : M A) (k : A -> M B) (s : State)
      (Q : B -> State -> Prop) :
  keeps good m s (fun a s' => keeps good (k a) s' Q) -> keeps good (bind m k) s Q.
Proof.
  unfold keeps, bind. destruct (m s) as [[a|r] s1]; [|auto].
  intros [H1 H2]. destruct (k a s1) as [[b|r] s2].
  - destruct H2 as [H2 H3]. split; [eapply ext_trans; eauto|exact H3].
  - eapply ext_trans; eauto.
Qed.

Lemma keeps_post {A : Type} (m : M A) (s : State) (Q1 Q2 : A -> State -> Prop) :
  keeps good m s Q1 -> (forall a s', Q1 a s' -> Q2 a s') -> keeps good m s Q2.
Proof.
  unfold keeps. destruct (m s) as [[a|r] s']; [|auto].
  intros [H1 H2] H. split; auto.
Qed.

Lemma keeps_check {A : Type} (r : error + A) (x msg : string) (s : State)
      (Q : A -> State -> Prop) :
  (forall a, r = inr a -> Q a s) -> keeps good (check r x msg) s Q.
Proof.
  intros H. destruct r as [e|a]; [apply keeps_return|]. apply keeps_ret; auto.
Qed.

Lemma keeps_index {A : Type} (l : list A) (i : nat) (s : State)
      (Q : A -> State -> Prop) :
  (forall a, nth_error l i = Some a -> Q a s) -> keeps good (index l i) s Q.
Proof.
  intros H. unfold index. destruct (nth_error l i); [|apply keeps_panic].
  apply keeps_ret; auto.
Qed.

Lemma keeps_deref {A : Type} (r : error + A) (s : State) (Q : A -> State -> Prop) :
  (forall a, r = inr a -> Q a s) -> keeps good (deref r) s Q.
Proof.
  intros H. destruct r as [e|a]; [apply keeps_panic|]. apply keeps_ret; auto.
Qed.

Lemma keeps_Do (req : Request) (s : State) (Q : error + Response -> State -> Prop) :
  good (n_do s) req ->
  (forall s', n_do s' = S (n_do s) -> Q (http_answer env (n_do s)) s') ->
  keeps good (client_Do env req) s Q.
Proof.
  intros Hg HQ. split; [|now apply HQ].
  exists [EvDo req]. cbn [trace n_do requests length]. repeat split; [lia|].
  intros [|[|n]] r H; try discriminate. injection H as <-. now rewrite Nat.add_0_r.
Qed.

Lemma keeps_Choose (prompt : string) (options : list string) (s : State)
      (Q : nat -> State -> Prop) :
  (forall a s', n_do s' = n_do s -> Q a s') ->
  keeps good (prompt_Choose env prompt options) s Q.
Proof.
  intros HQ. split; [|now apply HQ].
  now apply ext_quiet with (e := EvChoose prompt options).
Qed.

Lemma keeps_StringRequired (prompt : string) (s : State) (Q : string -> State -> Prop) :
  (forall a s', n_do s' = n_do s -> Q a s') ->
  keeps good (prompt_StringRequired env prompt) s Q.
Proof.
  intros HQ. split; [|now apply HQ].
  now apply ext_quiet with (e := EvStringRequired prompt).
Qed.

Lemma keeps_Sleep (d : Z) (s : State) (Q : unit -> State -> Prop) :
  (forall s', n_do s' = n_do s -> Q tt s') -> keeps good (time_Sleep d) s Q.
Proof.
  intros HQ. split; [|now apply HQ]. now apply ext_quiet with (e := EvSleep d).
Qed.

Lemma keeps_Println (line : string) (s : State) (Q : unit -> State -> Prop) :
  (forall s', n_do s' = n_do s -> Q tt s') -> keeps good (fmt_Println line) s Q.
Proof.
  intros HQ. split; [|now apply HQ]. now apply ext_quiet with (e := EvPrintln line).
Qed.

Lemma keeps_pollLoop (fuel : nat) (url : string) (form : Values) (s : State)
      (Q : string -> State -> Prop) :
  (forall n, n_do s <= n -> good n (statusRequest url form)) ->
  (forall s' n' res,
      n_do s' = S n' -> n_do s <= n' ->
      http_answer env n' = inr res -> poll_result res = "SUCCESS" ->
      Q (poll_cookie res) s') ->
  keeps good (pollLoop env fuel url form) s Q.
Proof.
  intros Hg HQ. unfold keeps.
  destruct (pollLoop env fuel url form s) as [r s'] eqn:E.
  apply pollLoop_spec in E.
  destruct E as (k & evs & Ht & Hr & Hd & _ & _ & Hk).
  assert (Hext : ext good s s').
  { exists evs. rewrite Hr, repeat_length. repeat split; auto.
    intros n req H. apply nth_error_In, repeat_spec in H. subst req.
    apply Hg. lia. }
  destruct r as [cookie|]; [|exact Hext].
  split; [exact Hext|].
  destruct Hk as (k' & res & -> & Ha & Hs & ->).
  apply HQ with (n' := n_do s + k'); auto; lia.
Qed.
End RequestRules.

Lemma http_NewRequest_inr (env : Env) (method url : string) (body : Payload)
      (req : Request) :
  http_NewRequest env method url body = inr req ->
  req = {| rq_method := method; rq_url := url; rq_query := [];
           rq_header := []; rq_body := body |}.
Proof.
  unfold http_NewRequest. destruct (url_Parse env url); [discriminate|].
  now intros [= <-].
Qed.

(** One step of the logic, by the shape of the statement. *)
Ltac keeps_step :=
  lazymatch goal with
  | |- keeps _ (bind _ _) _ _ => apply keeps_bind
  | |- keeps _ (ret _) _ _ => apply keeps_ret
  | |- keeps _ (return_ _ _) _ _ => apply keeps_return
  | |- keeps _ (check (http_NewRequest _ _ _ _) _ _) _ _ =>
      let H := fresh "Hreq" in
      apply keeps_check; intros ? H; apply http_NewRequest_inr in H; subst
  | |- keeps _ (check _ _ _) _ _ => apply keeps_check; intros ? ?
  | |- keeps _ (index _ _) _ _ => apply keeps_index; intros ? ?
  | |- keeps _ (deref _) _ _ => apply keeps_deref; intros ? ?
  | |- keeps _ (client_Do _ _) _ _ =>
      let H := fresh "Hdo" in apply keeps_Do; [ | intros ? H]
  | |- keeps _ (prompt_Choose _ _ _) _ _ =>
      let H := fresh "Hdo" in apply keeps_Choose; intros ? ? H
  | |- keeps _ (prompt_StringRequired _ _) _ _ =>
      let H := fresh "Hdo" in apply keeps_StringRequired; intros ? ? H
  | |- keeps _ (time_Sleep _) _ _ =>
      let H := fresh "Hdo" in apply keeps_Sleep; intros ? H
  | |- keeps _ (fmt_Println _) _ _ =>
      let H := fresh "Hdo" in apply keeps_Println; intros ? H
  | |- keeps _ (pollLoop _ _ _ _) _ _ =>
      apply keeps_pollLoop; [intros ? ? | intros ? ? ? ? ? ? ?]
  | |- keeps _ (if ?b then _ else _) _ _ => destruct b eqn:?
  | |- keeps _ (match ?x with _ => _ end) _ _ => destruct x eqn:?
  end.

(** The places of the requests, made explicit. *)
Ltac positions :=
  unfold ioutil_ReadAll in *;
  repeat match goal with
         | H : (_, _) = (_, _) |- _ => injection H as ? ?; subst
         end;
  repeat match goal with
         | H : n_do _ = _ |- _ => try rewrite H in *; clear H
         end.

(** ** Every request of a call is one of the requests of the flow *)

Section Issued.
Variable env : Env.
Variable login : LoginDetails.

Lemma sessionRedirect_keeps (host : string) (resp : json) (s : State) :
  keeps (issued env login)
        (sessionRedirect env host (entryURL login) resp) s (fun _ _ => True).
Proof.
  unfold sessionRedirect. repeat keeps_step. apply is_redirect.
Qed.

Lemma smsTotpCase_keeps (url : string) (s : State) :
  keeps (issued env login)
        (smsTotpCase env (first_state_token env) url) s (fun _ _ => True).
Proof.
  unfold smsTotpCase. repeat keeps_step; auto. apply is_verify.
Qed.

Lemma duoCase_keeps (fuel : nat) (host factorID url : string) (res1 : Response)
      (s : State) :
  n_do s = 2 ->
  http_answer env 1 = inr res1 ->
  keeps (issued env login)
        (duoCase env fuel host (first_state_token env) factorID url (res_json res1))
        s (fun _ _ => True).
Proof.
  intros Hs Hres1. unfold duoCase. cbv zeta.
  fold (duo_signature res1).
  repeat keeps_step; auto; positions.
  all: try (apply is_duo_form; reflexivity).
  all: try apply is_reverify.
  all: try (eapply is_duo_auth; eassumption).
  all: try (eapply is_callback; try eassumption).
  all: match goal with
       | H : negb (_ =? "SUCCESS") = false |- _ =>
           apply negb_false_iff, String.eqb_eq in H; exact H
       end.
Qed.

Lemma verifyMfaOption_keeps (fuel : nat) (host : string) (resp : json)
      (err : option error) (mfaOption : nat) (s : State) :
  n_do s = 1 ->
  keeps (issued env login)
        (verifyMfaOption env fuel host (first_state_token env) resp err mfaOption)
        s (fun _ _ => True).
Proof.
  intros Hs. unfold verifyMfaOption. cbv zeta.
  repeat keeps_step; auto.
  - apply is_verify.
  - apply smsTotpCase_keeps.
  - unfold ioutil_ReadAll in *.
    match goal with H : (_, _) = (_, _) |- _ => injection H as <- <- end.
    rewrite Hs in *. apply duoCase_keeps; assumption.
Qed.

Lemma mfaRequired_keeps (fuel : nat) (host : string) (resp : json)
      (err : option error) (s : State) :
  n_do s = 1 ->
  keeps (issued env login)
        (mfaRequired env fuel host (first_state_token env) resp err)
        s (fun _ _ => True).
Proof.
  intros Hs. unfold mfaRequired, chooseMfaOption. cbv zeta.
  repeat keeps_step; apply verifyMfaOption_keeps; congruence.
Qed.

Lemma Authenticate_keeps (fuel : nat) :
  keeps (issued env login) (Authenticate env fuel login) init_state (fun _ _ => True).
Proof.
  unfold Authenticate. cbv zeta. fold (entryURL login).
  repeat keeps_step; auto using sessionRedirect_keeps.
  - apply is_auth.
  - cbn [n_do init_state] in *. unfold ioutil_ReadAll in *.
    match goal with H : (_, _) = (_, _) |- _ => injection H as <- <- end.
    match goal with
    | H : http_answer env 0 = inr ?res |- _ =>
        replace (json_String (gjson_Get (res_json res) "stateToken"))
          with (first_state_token env)
          by (unfold first_state_token; now rewrite H)
    end.
    eapply keeps_post; [apply mfaRequired_keeps; assumption|].
    intros. apply sessionRedirect_keeps.
Qed.
End Issued.

(** Every request of a call of [Authenticate] is one of the requests of
    the flow, at its place, whatever the outside answers. *)
Lemma Authenticate_requests (env : Env) (fuel : nat) (login : LoginDetails)
      (n : nat) (req : Request) :
  nth_error (requests (snd (run (Authenticate env fuel login)))) n = Some req ->
  issued env login n req.
Proof.
  pose proof (Authenticate_keeps env login fuel) as H.
  unfold keeps, run in *.
  destruct (Authenticate env fuel login init_state) as [[[]|r] s'].
  destruct H as (evs & Ht & _ & Hg). cbn [snd]. rewrite Ht.
  cbn [init_state trace app].
  intros Hn. apply Hg in Hn. exact Hn.
Qed.

(** ** The paths of the flow *)

Section Paths.
Variable env : Env.
Variable login : LoginDetails.
Variables (u u' : URL).
Hypothesis Hentry : url_Parse env (entryURL login) = inr u.
Hypothesis Hauthn : url_Parse env ("https://" ++ Host u ++ "/api/v1/authn") = inr u'.
Variable res0 : Response.
Hypothesis Hres0 : http_answer env 0 = inr res0.

Lemma Authenticate_after_first (fuel : nat) :
  Authenticate env fuel login init_state
  = bind (if String.eqb (auth_status res0) "MFA_REQUIRED"
          then mfaRequired env fuel (Host u) (auth_stateToken res0)
                 (res_json res0) (res_read_err res0)
          else ret (res_json res0))
      (sessionRedirect env (Host u) (entryURL login))
      (state_after [EvDo (authRequest (Host u) login)]).
Proof.
  unfold Authenticate. fold (entryURL login).
  unfold bind at 1. unfold deref. rewrite Hentry. unfold ret at 1.
  unfold bind at 1. unfold check at 1, http_NewRequest at 1.
  rewrite Hauthn. unfold ret at 1.
  unfold bind at 1. unfold client_Do at 1. cbn [n_do init_state]. rewrite Hres0.
  unfold bind at 1. unfold check at 1, ret at 1.
  reflexivity.
Qed.

Lemma Authenticate_not_mfa (fuel : nat) :
  auth_status res0 <> "MFA_REQUIRED" ->
  Authenticate env fuel login init_state
  = sessionRedirect env (Host u) (entryURL login) (res_json res0)
      (state_after [EvDo (authRequest (Host u) login)]).
Proof.
  intros Hst. rewrite Authenticate_after_first.
  apply String.eqb_neq in Hst. rewrite Hst. reflexivity.
Qed.

Lemma Authenticate_mfa (fuel : nat) :
  auth_status res0 = "MFA_REQUIRED" ->
  Authenticate env fuel login init_state
  = bind (verifyMfaOption env fuel (Host u) (auth_stateToken res0)
            (res_json res0) (res_read_err res0)
            (chosen_option env (res_json res0)))
      (sessionRedirect env (Host u) (entryURL login))
      (state_after (EvDo (authRequest (Host u) login)
                    :: selection_events (res_json res0))).
Proof.
  intros Hst. rewrite Authenticate_after_first.
  apply String.eqb_eq in Hst. rewrite Hst.
  unfold mfaRequired, chooseMfaOption, chosen_option, selection_events.
  unfold bind. cbv zeta.
  destruct (1 <? length (mfaOptionLabels (res_json res0)))%nat; reflexivity.
Qed.
End Paths.

Lemma sessionRedirect_answered (env : Env) (host entry : string) (resp : json)
      (s : State) (u : URL) (res : Response) :
  url_Parse env (redirectURL host) = inr u ->
  http_answer env (n_do s) = inr res ->
  res_read_err res = None ->
  sessionRedirect env host entry resp s
  = (Stop (Returned
             (fst (Attr (Find_input_named (res_doc res) "SAMLResponse") "value"))
             None),
     {| n_do := S (n_do s); n_choose := n_choose s; n_string := n_string s;
        trace := trace s ++
          [EvDo (redirectCall host (json_String (gjson_Get resp "sessionToken"))
                   entry)] |}).
Proof.
  intros Hu Hres Herr. unfold sessionRedirect, redirectURL in *. cbv zeta.
  unfold bind at 1. unfold check at 1, http_NewRequest at 1. rewrite Hu.
  unfold ret at 1.
  unfold bind at 1. unfold client_Do at 1. rewrite Hres.
  unfold bind at 1. unfold check at 1, ret at 1.
  unfold bind at 1. unfold check at 1, goquery_NewDocumentFromResponse.
  rewrite Herr. unfold ret at 1.
  destruct (Attr (Find_input_named (res_doc res) "SAMLResponse") "value")
    as [v [|]]; reflexivity.
Qed.

Lemma sessionRedirect_trace (env : Env) (host entry : string) (resp : json)
      (s : State) (u : URL) :
  url_Parse env (redirectURL host) = inr u ->
  trace (snd (sessionRedirect env host entry resp s))
  = (trace s ++
     [EvDo (redirectCall host (json_String (gjson_Get resp "sessionToken")) entry)])%list.
Proof.
  intros Hu. unfold sessionRedirect, redirectURL in *. cbv zeta.
  unfold bind at 1. unfold check at 1, http_NewRequest at 1. rewrite Hu.
  unfold ret at 1.
  unfold bind at 1. unfold client_Do at 1.
  destruct (http_answer env (n_do s)) as [e|res]; [reflexivity|].
  unfold bind at 1. unfold check at 1, ret at 1.
  unfold bind at 1. unfold check at 1, goquery_NewDocumentFromResponse.
  destruct (res_read_err res); [reflexivity|]. unfold ret at 1.
  destruct (Attr (Find_input_named (res_doc res) "SAMLResponse") "value")
    as [v [|]]; reflexivity.
Qed.

Lemma verifyMfaOption_unsupported (env : Env) (fuel : nat) (host st : string)
      (resp : json) (err : option error) (i : nat) (s : State) :
  assoc (parseMfaIdentifer resp i) supportedMfaOptions = None ->
  verifyMfaOption env fuel host st resp err i s
  = (Stop (Returned "" (errors_Wrap err "unsupported mfa provider")), s).
Proof. intros H. unfold verifyMfaOption. cbv zeta. now rewrite H. Qed.

Lemma verifyMfaOption_sms_totp (env : Env) (fuel : nat) (host st : string)
      (resp : json) (err : option error) (i : nat) (s : State)
      (uv : URL) (res1 res2 : Response) :
  parseMfaIdentifer resp i = IdentifierSmsMfa \/
  parseMfaIdentifer resp i = IdentifierTotpMfa ->
  url_Parse env (factor_verify_href resp i) = inr uv ->
  http_answer env (n_do s) = inr res1 ->
  http_answer env (S (n_do s)) = inr res2 ->
  verifyMfaOption env fuel host st resp err i s
  = (Continue (res_json res2),
     {| n_do := S (S (n_do s)); n_choose := n_choose s; n_string := S (n_string s);
        trace := trace s ++
          [EvDo (verifyCall (factor_verify_href resp i) st "");
           EvStringRequired "Enter verification code";
           EvDo (verifyCall (factor_verify_href resp i) st
                   (string_answer env (n_string s)))] |}).
Proof.
  intros Hid Hu H1 H2. unfold verifyMfaOption. cbv zeta.
  fold (factor_verify_href resp i).
  assert (Hsup : exists l,
             assoc (parseMfaIdentifer resp i) supportedMfaOptions = Some l)
    by (destruct Hid as [-> | ->]; eexists; reflexivity).
  destruct Hsup as [l ->].
  assert (Hsel : (String.eqb (parseMfaIdentifer resp i) IdentifierSmsMfa
                  || String.eqb (parseMfaIdentifer resp i) IdentifierTotpMfa)%bool
                 = true)
    by (destruct Hid as [-> | ->]; reflexivity).
  rewrite Hsel.
  unfold smsTotpCase.
  unfold bind, check, http_NewRequest, client_Do, prompt_StringRequired.
  rewrite Hu. unfold ret.
  cbn beta iota delta [ioutil_ReadAll n_do n_choose n_string trace].
  rewrite H1.
  cbn beta iota delta [ioutil_ReadAll n_do n_choose n_string trace].
  rewrite H2.
  cbn beta iota delta [ioutil_ReadAll n_do n_choose n_string trace].
  rewrite <- !app_assoc. reflexivity.
Qed.


(** *** The Duo case up to the callback *)

Lemma keeps_trace {A : Type} (m : M A) (s : State) :
  keeps (fun _ _ => True) m s (fun _ _ => True) ->
  exists evs, trace (snd (m s)) = (trace s ++ evs)%list.
Proof.
  unfold keeps. destruct (m s) as [[a|r] s']; cbn [snd].
  - intros [(evs & Ht & _) _]. now exists evs.
  - intros (evs & Ht & _). now exists evs.
Qed.

(** A request that is sent stays in the trace, whatever follows. *)
Lemma bind_Do_trace {B : Type} (env : Env) (req : Request)
      (k : error + Response -> M B) (s : State) :
  (forall r s', keeps (fun _ _ => True) (k r) s' (fun _ _ => True)) ->
  exists evs,
    trace (snd (bind (client_Do env req) k s)) = (trace s ++ EvDo req :: evs)%list.
Proof.
  intros Hk. unfold bind at 1. unfold client_Do at 1.
  pose proof (Hk (http_answer env (n_do s))
                {| n_do := S (n_do s); n_choose := n_choose s;
                   n_string := n_string s; trace := trace s ++ [EvDo req] |}) as H.
  apply keeps_trace in H. destruct H as [evs Ht].
  exists evs. rewrite Ht. cbn [trace]. now rewrite <- app_assoc.
Qed.

Lemma bind_trace {A B : Type} (m : M A) (k : A -> M B) (s : State) :
  (forall a s', keeps (fun _ _ => True) (k a) s' (fun _ _ => True)) ->
  exists evs, trace (snd (bind m k s)) = (trace (snd (m s)) ++ evs)%list.
Proof.
  intros Hk. unfold bind. destruct (m s) as [[a|r] s1]; cbn [snd].
  - apply keeps_trace, Hk.
  - exists []. now rewrite app_nil_r.
Qed.

Ltac follows := intros; repeat keeps_step; auto.

Lemma pollLoop_until_success (env : Env) (url : string) (form : Values) (u : URL)
      (res : Response) :
  url_Parse env url = inr u ->
  forall k fuel s,
    k < fuel ->
    settles_after env (n_do s) k res ->
    exists s',
      pollLoop env fuel url form s = (Continue (poll_cookie res), s') /\
      exists evs,
        trace s' = (trace s ++ evs)%list /\
        requests evs = repeat (statusRequest url form) (S k).
Proof.
  intros Hu. induction k as [|k IH]; intros fuel s Hfuel (Hwait & Hres & Hok).
  - destruct fuel as [|fuel]; [lia|]. rewrite Nat.add_0_r in Hres.
    rewrite (@pollLoop_round env url form u fuel s res Hu Hres), Hok. cbn [String.eqb Ascii.eqb Bool.eqb].
    eexists. split; [reflexivity|]. eexists. split; [reflexivity|]. reflexivity.
  - destruct fuel as [|fuel]; [lia|].
    destruct (Hwait 0) as (w & Hw & Hns & Hnf); [lia|]. rewrite Nat.add_0_r in Hw.
    rewrite (@pollLoop_round env url form u fuel s w Hu Hw).
    apply String.eqb_neq in Hns, Hnf. rewrite Hns, Hnf.
    destruct (IH fuel (poll_round url form w s)) as (s' & Hrun & evs & Ht & Hreq).
    + lia.
    + unfold settles_after. cbn [poll_round n_do].
      split; [|split; [|exact Hok]].
      * intros j Hj. destruct (Hwait (S j)) as (w' & Hw' & H'); [lia|].
        exists w'. split; [|exact H'].
        now replace (S (n_do s) + j) with (n_do s + S j) by lia.
      * now replace (S (n_do s) + k) with (n_do s + S k) by lia.
    + exists s'. split; [exact Hrun|].
      exists ([EvSleep (3 * time_Second); EvDo (statusRequest url form);
               EvPrintln (poll_status w)] ++ evs)%list.
      split.
      * rewrite Ht. cbn [poll_round trace]. now rewrite <- app_assoc.
      * rewrite requests_app, Hreq. reflexivity.
Qed.

Lemma settles_after_next (env : Env) (n k : nat) (res : Response) :
  settles_after env n (S k) res ->
  (exists w, http_answer env n = inr w /\
             poll_result w <> "SUCCESS" /\ poll_result w <> "FAILURE") /\
  settles_after env (S n) k res.
Proof.
  intros (Hwait & Hres & Hok). split.
  - destruct (Hwait 0) as (w & Hw & H); [lia|]. rewrite Nat.add_0_r in Hw. eauto.
  - split; [|split; [|exact Hok]].
    + intros j Hj. destruct (Hwait (S j)) as (w & Hw & H); [lia|].
      exists w. split; [|exact H].
      now replace (S n + j) with (n + S j) by lia.
    + now replace (S n + k) with (n + S k) by lia.
Qed.

(** The Duo case sends its first request as soon as the URL of the Duo
    host parses, with the first piece of the signature as [tx]. *)
Lemma duoCase_sends_tx (env : Env) (fuel : nat) (host st fid href : string)
      (resp : json) (s : State) (u : URL) :
  url_Parse env ("https://" ++ duoHost_of resp ++ "/frame/web/v1/auth") = inr u ->
  exists evs,
    trace (snd (duoCase env fuel host st fid href resp s))
    = (trace s ++ EvDo (duoAuthCall (duoHost_of resp) host (duoTx_of resp)) :: evs)%list.
Proof.
  intros Hu. unfold duoCase. cbv zeta. fold (duoHost_of resp).
  unfold bind at 1. unfold check at 1, http_NewRequest at 1. rewrite Hu.
  unfold ret at 1.
  unfold bind at 1. unfold index at 1. rewrite strings_Split_hd. unfold ret at 1.
  apply bind_Do_trace. follows.
Qed.

(** The Duo case up to the callback: when the frame has a [sid], the
    prompt form is accepted, and the answers of [/frame/status] settle
    on [SUCCESS] after [k] others, the case sends the request that
    opens it, the prompt form, the status form [S k] times, and then
    the callback with the cookie of the last answer and the second
    piece of the signature. *)
Lemma duoCase_sends_callback
      (env : Env) (fuel : nat) (host st fid href : string) (resp : json)
      (s : State) (u up us uc : URL) (res2 res3 resS : Response)
      (sid factor a b : string) (k : nat) :
  strings_Split
    (json_String (gjson_Get resp "_embedded.factor._embedded.verification.signature"))
    ":" = [a; b] ->
  url_Parse env ("https://" ++ duoHost_of resp ++ "/frame/web/v1/auth") = inr u ->
  http_answer env (n_do s) = inr res2 ->
  res_read_err res2 = None ->
  Attr (Find_input_named (res_doc res2) "sid") "value" = (sid, true) ->
  nth_error ["Passcode"; "Duo Push"] (choose_answer env (n_choose s)) = Some factor ->
  url_Parse env ("https://" ++ duoHost_of resp ++ "/frame/prompt") = inr up ->
  http_answer env (S (n_do s)) = inr res3 ->
  json_String (gjson_Get (res_json res3) "stat") = "OK" ->
  url_Parse env ("https://" ++ duoHost_of resp ++ "/frame/status") = inr us ->
  settles_after env (S (S (n_do s))) k resS ->
  k <= fuel ->
  url_Parse env (duoCallback_of resp) = inr uc ->
  exists evs1 evs2,
    trace (snd (duoCase env fuel host st fid href resp s))
    = (trace s ++ evs1 ++
       EvDo (statusRequest (duoCallback_of resp)
               (callbackForm fid st (poll_cookie resS ++ ":" ++ b))) :: evs2)%list /\
    requests evs1
    = (duoAuthCall (duoHost_of resp) host a
       :: statusRequest ("https://" ++ duoHost_of resp ++ "/frame/prompt")
            (duoPromptForm (html_UnescapeString env sid) factor
               (string_answer env (n_string s)))
       :: repeat (statusRequest ("https://" ++ duoHost_of resp ++ "/frame/status")
                    (duoStatusForm (html_UnescapeString env sid)
                       (json_String (gjson_Get (res_json res3) "response.txid"))))
            (S k))%list.
Proof.
  intros Hsplit Hu Hres2 Herr Hsid Hopt Hup Hres3 Hstat Hus Hset Hfuel Huc.
  unfold duoCase. cbv zeta.
  fold (duoHost_of resp) (duoCallback_of resp). rewrite Hsplit.
  unfold bind at 1. unfold check at 1, http_NewRequest at 1. rewrite Hu.
  unfold ret at 1.
  unfold bind at 1. unfold index at 1. cbn [nth_error]. unfold ret at 1.
  unfold bind at 1. unfold client_Do at 1. rewrite Hres2.
  unfold bind at 1. unfold check at 1, ret at 1.
  unfold bind at 1. unfold check at 1, goquery_NewDocumentFromResponse.
  rewrite Herr. unfold ret at 1. rewrite Hsid. cbn [negb].
  unfold bind at 1. unfold prompt_Choose at 1. cbn [n_choose n_do n_string trace].
  unfold bind at 1. unfold index at 1. rewrite Hopt. unfold ret at 1.
  apply String.eqb_eq in Hstat.
  unfold duoPromptForm.
  set (token := if String.eqb factor "Passcode"
                then prompt_StringRequired env "Enter passcode" else ret "").
  set (s2 := {| n_do := S (n_do s); n_choose := S (n_choose s);
                n_string := n_string s;
                trace := (trace s ++ [EvDo _]) ++ [EvChoose _ _] |}).
  assert (Htoken : exists s3 evs,
             token s2 = (Continue (if String.eqb factor "Passcode"
                                   then string_answer env (n_string s) else ""), s3) /\
             n_do s3 = S (n_do s) /\
             trace s3 = (trace s2 ++ evs)%list /\ requests evs = []).
  { subst token. destruct (String.eqb factor "Passcode").
    - eexists. exists [EvStringRequired "Enter passcode"]. repeat split.
    - exists s2, []. rewrite app_nil_r. repeat split. }
  destruct Htoken as (s3 & evs3 & Htok & Hdo3 & Ht3 & Hr3).
  unfold bind at 1. rewrite Htok. clearbody token. clear Htok.
  unfold bind at 1. unfold check at 1, http_NewRequest at 1. rewrite Hup.
  unfold ret at 1.
  unfold bind at 1. unfold client_Do at 1. rewrite Hdo3, Hres3.
  unfold bind at 1. unfold check at 1, ret at 1.
  cbn beta iota delta [ioutil_ReadAll]. rewrite Hstat. cbn [negb].
  unfold bind at 1. unfold check at 1, http_NewRequest at 1. rewrite Hus.
  unfold ret at 1.
  unfold bind at 1. unfold client_Do at 1. cbn [n_do n_choose n_string trace].
  destruct k as [|k].
  - destruct Hset as (_ & HresS & Hok). rewrite Nat.add_0_r in HresS. rewrite HresS.
    unfold bind at 1. unfold check at 1, ret at 1.
    cbn beta iota delta [ioutil_ReadAll].
    unfold bind at 1. unfold fmt_Println at 1.
    change (json_String (gjson_Get (res_json resS) "response.result"))
      with (poll_result resS).
    change (json_String (gjson_Get (res_json resS) "response.cookie"))
      with (poll_cookie resS).
    rewrite Hok, String.eqb_refl. cbn [negb].
    unfold bind at 1. unfold ret at 1.
    unfold bind at 1. unfold index at 1. cbn [nth_error]. unfold ret at 1.
    unfold bind at 1. unfold check at 1, http_NewRequest at 1. rewrite Huc.
    unfold ret at 1.
    match goal with
    | |- context [bind (client_Do env ?req) ?K ?st] =>
        destruct (@bind_Do_trace _ env req K st) as [evs2 Ht2]; [follows|]
    end.
    match type of Ht2 with ?l = _ => set (L := l) in * end.
    cbn [emit trace] in Ht2. rewrite Ht3 in Ht2. subst s2. cbn [trace] in Ht2.
    rewrite <- !app_assoc in Ht2. cbn [app] in Ht2.
    match type of Ht2 with
    | _ = (trace s ++ ?x :: ?y :: evs3 ++ ?p :: ?q :: ?r :: _ :: evs2)%list =>
        exists (x :: y :: evs3 ++ [p; q; r])%list, evs2
    end.
    split.
    + rewrite Ht2. cbn [app]. rewrite <- app_assoc. reflexivity.
    + cbn [requests]. rewrite requests_app, Hr3. cbn [requests app repeat].
      unfold form_header, Header_Add, Values_Add, Query_Add, duoAuthCall,
        statusRequest, duoStatusForm.
      cbn [rq_method rq_url rq_query rq_header rq_body app].
      destruct (String.eqb factor "Passcode"); reflexivity.
  - apply settles_after_next in Hset.
    destruct Hset as ((w & Hw & Hns & Hnf) & Hset). rewrite Hw.
    unfold bind at 1. unfold check at 1, ret at 1.
    cbn beta iota delta [ioutil_ReadAll].
    unfold bind at 1. unfold fmt_Println at 1.
    change (json_String (gjson_Get (res_json w) "response.result"))
      with (poll_result w).
    apply String.eqb_neq in Hns. rewrite Hns. cbn [negb].
    unfold bind at 1.
    match goal with
    | |- context [pollLoop env fuel ?url ?form ?st] =>
        destruct (@pollLoop_until_success env url form us resS Hus k fuel st)
          as (s5 & Hrun & evs5 & Ht5 & Hr5); [lia|exact Hset|]
    end.
    rewrite Hrun.
    unfold bind at 1. unfold index at 1. cbn [nth_error]. unfold ret at 1.
    unfold bind at 1. unfold check at 1, http_NewRequest at 1. rewrite Huc.
    unfold ret at 1.
    match goal with
    | |- context [bind (client_Do env ?req) ?K ?st] =>
        destruct (@bind_Do_trace _ env req K st) as [evs2 Ht2]; [follows|]
    end.
    match type of Ht2 with ?l = _ => set (L := l) in * end.
    rewrite Ht5 in Ht2. cbn [emit trace] in Ht2. rewrite Ht3 in Ht2. subst s2.
    cbn [trace] in Ht2. rewrite <- !app_assoc in Ht2. cbn [app] in Ht2.
    match type of Ht2 with
    | _ = (trace s ++ ?x :: ?y :: evs3 ++ ?p :: ?q :: ?r :: evs5 ++ _ :: evs2)%list =>
        exists (x :: y :: evs3 ++ [p; q; r] ++ evs5)%list, evs2
    end.
    split.
    + rewrite Ht2. cbn [app]. rewrite <- !app_assoc. reflexivity.
    + cbn [requests]. rewrite !requests_app, Hr3, Hr5. cbn [requests app repeat].
      unfold form_header, Header_Add, Values_Add, Query_Add, duoAuthCall,
        statusRequest, duoStatusForm.
      cbn [rq_method rq_url rq_query rq_header rq_body app].
      destruct (String.eqb factor "Passcode"); reflexivity.
Qed.

(** The verify request of a Duo factor is followed by the Duo case. *)
Lemma verifyMfaOption_duo (env : Env) (fuel : nat) (host st : string)
      (resp : json) (err : option error) (i : nat) (s : State)
      (uv : URL) (res1 : Response) :
  parseMfaIdentifer resp i = IdentifierDuoMfa ->
  url_Parse env (factor_verify_href resp i) = inr uv ->
  http_answer env (n_do s) = inr res1 ->
  verifyMfaOption env fuel host st resp err i s
  = duoCase env fuel host st (factor_id_at resp i) (factor_verify_href resp i)
      (res_json res1)
      (after_request (verifyCall (factor_verify_href resp i) st "") s).
Proof.
  intros Hid Hu Hres. unfold verifyMfaOption. cbv zeta.
  fold (factor_verify_href resp i) (factor_id_at resp i). rewrite Hid.
  cbn [assoc supportedMfaOptions]. rewrite String.eqb_refl.
  unfold bind at 1. unfold check at 1, http_NewRequest at 1. rewrite Hu.
  unfold ret at 1.
  unfold bind at 1. unfold client_Do at 1. rewrite Hres.
  unfold bind at 1. unfold check at 1, ret at 1.
  reflexivity.
Qed.

Lemma selection_quiet (resp : json) :
  requests (selection_events resp) = [] /\
  count_string (selection_events resp) = 0.
Proof.
  unfold selection_events.
  destruct (1 <? length (mfaOptionLabels resp))%nat; now split.
Qed.

(** The run of a call that verifies a Duo factor: the credential
    submission, the selection, the verify request, and then the Duo
    case and what follows it. *)
Lemma Authenticate_duo_trace (env : Env) (fuel : nat) (login : LoginDetails)
      (u u' uv : URL) (res0 res1 : Response) :
  url_Parse env (entryURL login) = inr u ->
  url_Parse env ("https://" ++ Host u ++ "/api/v1/authn") = inr u' ->
  http_answer env 0 = inr res0 ->
  auth_status res0 = "MFA_REQUIRED" ->
  parseMfaIdentifer (res_json res0) (chosen_option env (res_json res0))
  = IdentifierDuoMfa ->
  url_Parse env (factor_verify_href (res_json res0) (chosen_option env (res_json res0)))
  = inr uv ->
  http_answer env 1 = inr res1 ->
  let i := chosen_option env (res_json res0) in
  let s2 :=
    after_request (verifyCall (factor_verify_href (res_json res0) i)
                     (auth_stateToken res0) "")
      (state_after (EvDo (authRequest (Host u) login)
                    :: selection_events (res_json res0))) in
  n_do s2 = 2 /\
  n_choose s2 = count_choose (selection_events (res_json res0)) /\
  n_string s2 = 0 /\
  requests (trace s2)
  = [authRequest (Host u) login;
     verifyCall (factor_verify_href (res_json res0) i) (auth_stateToken res0) ""] /\
  exists evs,
    snd (run (Authenticate env fuel login))
    = (trace (snd (duoCase env fuel (Host u) (auth_stateToken res0)
                     (factor_id_at (res_json res0) i)
                     (factor_verify_href (res_json res0) i) (res_json res1) s2))
       ++ evs)%list.
Proof.
  intros Hu Hu' Hres0 Hst Hid Huv Hres1 i s2.
  destruct (selection_quiet (res_json res0)) as [Hq Hs].
  assert (Hdo : n_do s2 = 2).
  { subst s2. cbn [after_request state_after n_do requests]. now rewrite Hq. }
  split; [exact Hdo|]. split; [reflexivity|]. split.
  { subst s2. cbn [after_request state_after n_string]. exact Hs. }
  split.
  { subst s2. cbn [after_request state_after trace].
    rewrite requests_app. cbn [requests]. now rewrite Hq. }
  rewrite snd_run.
  rewrite (@Authenticate_mfa env login u u' Hu Hu' res0 Hres0 fuel Hst).
  fold i.
  match goal with
  | |- context [bind ?m ?k ?s] =>
      destruct (@bind_trace _ _ m k s) as [evs Ht];
        [intros; unfold sessionRedirect; follows|]
  end.
  exists evs. rewrite Ht.
  rewrite (@verifyMfaOption_duo env fuel (Host u) (auth_stateToken res0)
             (res_json res0) (res_read_err res0) i _ uv res1 Hid Huv).
  - reflexivity.
  - cbn [state_after n_do requests]. now rewrite Hq.
Qed.

(** A factor type spelled with a long s is the SMS factor: the call runs
    the SMS case. *)
Lemma long_s_factor_runs_sms_case :
  parseMfaIdentifer (mfa_required [long_s_factor]) 0 = IdentifierSmsMfa /\
  run (Authenticate scenario_long_s 0 login_x)
  = (Returned "YXNzZXJ0aW9u" None,
     [EvDo (authRequest "x.okta.com" login_x);
      EvDo (verifyCall "https://x/verify" "st1" "");
      EvStringRequired "Enter verification code";
      EvDo (verifyCall "https://x/verify" "st1" "123456");
      EvDo (redirectCall "x.okta.com" "tok2" "https://x.okta.com")]).
Proof. vm_compute. split; reflexivity. Qed.


(** ** The properties of the flow *)

(** C1, as the code runs.  When the answer to the credential submission
    is read whole, says [MFA_REQUIRED], and the identifier of the chosen
    factor is not in [supportedMfaOptions], [Authenticate] returns at
    line 134 without a further request: the trace holds the credential
    submission and the selection only.  What it returns is the empty
    assertion with the nil error, not an "unsupported mfa provider"
    error: [errors.Wrap] is given the nil error of line 106. *)
Theorem unsupported_mfa_returns_nil_error
        (env : Env) (fuel : nat) (login : LoginDetails) (u u' : URL)
        (res0 : Response) :
  url_Parse env (entryURL login) = inr u ->
  url_Parse env ("https://" ++ Host u ++ "/api/v1/authn") = inr u' ->
  http_answer env 0 = inr res0 ->
  res_read_err res0 = None ->
  auth_status res0 = "MFA_REQUIRED" ->
  assoc (parseMfaIdentifer (res_json res0) (chosen_option env (res_json res0)))
        supportedMfaOptions = None ->
  run (Authenticate env fuel login)
  = (Returned "" None,
     EvDo (authRequest (Host u) login) :: selection_events (res_json res0)).
Proof.
  intros Hu Hu' Hres Herr Hst Hid.
  apply run_stop with
    (s := state_after (EvDo (authRequest (Host u) login)
                       :: selection_events (res_json res0))).
  rewrite (@Authenticate_mfa env login u u' Hu Hu' res0 Hres fuel Hst).
  unfold bind. rewrite verifyMfaOption_unsupported by exact Hid.
  rewrite Herr. reflexivity.
Qed.

Lemma unsupported_mfa_returns_nil_error_witness :
  run (Authenticate scenario_C 0 login_x)
  = (Returned "" None, [EvDo (authRequest "x.okta.com" login_x)]).
Proof.
  apply (@unsupported_mfa_returns_nil_error scenario_C 0 login_x
           {| Host := "x.okta.com" |} {| Host := "x.okta.com" |}
           (mfa_response [unknown_factor])); reflexivity.
Defined.

(** C2 fails as stated: the identifier is not the upper case of the
    whole of "<provider> <factorType>".  For a factor whose provider is
    spelled [okta] the code computes [okta SMS], where the upper case of
    the whole is [OKTA SMS]. *)
Lemma identifier_keeps_provider_case :
  gjson_Get (mfa_required [lower_case_factor]) "_embedded.factors"
  = JArray "" [lower_case_factor] /\
  parseMfaIdentifer (mfa_required [lower_case_factor]) 0 = "okta SMS" /\
  spec_identifier (factor_provider lower_case_factor)
                  (factor_factorType lower_case_factor) = "OKTA SMS" /\
  parseMfaIdentifer (mfa_required [lower_case_factor]) 0
  <> spec_identifier (factor_provider lower_case_factor)
                     (factor_factorType lower_case_factor).
Proof. repeat split. discriminate. Qed.

(** C2, amended.  For every factor of the factor list, the identifier is
    the provider as the server spells it, a space, and the upper case of
    the factor type as [strings.ToUpper] gives it, rune by rune; it is a
    function of these two strings.  An identifier that is not in
    [supportedMfaOptions] is rendered as ["UNSUPPORTED: " ++ identifier],
    and choosing it ends the call at once, with the empty assertion and
    without a request. *)
Theorem identifier_is_provider_and_upper_factorType
        (resp : json) (raw : string) (fs : list json) (i : nat) :
  gjson_Get resp "_embedded.factors" = JArray raw fs ->
  i < length fs ->
  let f := nth i fs JNull in
  let identifier := factor_provider f ++ " " ++ strings_ToUpper (factor_factorType f) in
  parseMfaIdentifer resp i = identifier /\
  (assoc identifier supportedMfaOptions = None ->
   nth_error (mfaOptionLabels resp) i = Some ("UNSUPPORTED: " ++ identifier) /\
   forall env fuel host st err s, exists e,
     verifyMfaOption env fuel host st resp err i s = (Stop (Returned "" e), s)).
Proof.
  intros Hfs Hi f identifier.
  assert (Hid : parseMfaIdentifer resp i = identifier)
    by exact (@parseMfaIdentifer_factor resp i raw fs Hfs).
  split; [exact Hid|]. intros Hnone. split.
  - rewrite (mfaOptionLabels_factors resp Hfs), nth_error_map.
    rewrite (nth_error_nth' fs JNull Hi). cbn [option_map].
    fold f. unfold mfaOptionLabel. fold identifier.
    change (factor_identifier f) with identifier. now rewrite Hnone.
  - intros env fuel host st err s. eexists.
    apply verifyMfaOption_unsupported. now rewrite Hid.
Qed.

Lemma identifier_is_provider_and_upper_factorType_witness :
  parseMfaIdentifer (mfa_required [unknown_factor]) 0 = "UNKNOWN CUSTOM" /\
  nth_error (mfaOptionLabels (mfa_required [unknown_factor])) 0
  = Some "UNSUPPORTED: UNKNOWN CUSTOM" /\
  exists e,
    verifyMfaOption scenario_C 0 "x.okta.com" "st1" (mfa_required [unknown_factor])
      None 0 init_state
    = (Stop (Returned "" e), init_state).
Proof.
  destruct (@identifier_is_provider_and_upper_factorType
              (mfa_required [unknown_factor]) "" [unknown_factor] 0
              eq_refl (le_n 1)) as [Hid Hrest].
  destruct (Hrest eq_refl) as [Hlabel Hsel].
  split; [exact Hid|]. split; [exact Hlabel|].
  exact (Hsel scenario_C 0 "x.okta.com" "st1" None init_state).
Defined.

(** C3, as the code runs.  When no factor is required and the page of
    the session redirect is read whole, [Authenticate] returns the
    [value] attribute of the first [input] named [SAMLResponse], with the
    nil error.  When the page has no such input, [Authenticate] stops
    there, without a retry; but what it returns is the empty assertion
    with the nil error, not an error: [errors.Wrap] is given the nil
    error of line 403. *)
Theorem missing_assertion_returns_nil_error
        (env : Env) (fuel : nat) (login : LoginDetails) (u u' ur : URL)
        (res0 res1 : Response) :
  url_Parse env (entryURL login) = inr u ->
  url_Parse env ("https://" ++ Host u ++ "/api/v1/authn") = inr u' ->
  url_Parse env (redirectURL (Host u)) = inr ur ->
  http_answer env 0 = inr res0 ->
  auth_status res0 <> "MFA_REQUIRED" ->
  http_answer env 1 = inr res1 ->
  res_read_err res1 = None ->
  run (Authenticate env fuel login)
  = (Returned (fst (Attr (Find_input_named (res_doc res1) "SAMLResponse") "value"))
              None,
     [EvDo (authRequest (Host u) login);
      EvDo (redirectCall (Host u) (session_token res0) (entryURL login))]) /\
  (Find_input_named (res_doc res1) "SAMLResponse" = [] ->
   fst (run (Authenticate env fuel login)) = Returned "" None).
Proof.
  intros Hu Hu' Hur Hres0 Hst Hres1 Herr.
  assert (Hrun : run (Authenticate env fuel login)
    = (Returned (fst (Attr (Find_input_named (res_doc res1) "SAMLResponse") "value"))
                None,
       [EvDo (authRequest (Host u) login);
        EvDo (redirectCall (Host u) (session_token res0) (entryURL login))])).
  { unfold run.
    rewrite (@Authenticate_not_mfa env login u u' Hu Hu' res0 Hres0 fuel Hst).
    rewrite (@sessionRedirect_answered env (Host u) (entryURL login) (res_json res0)
               (state_after [EvDo (authRequest (Host u) login)])
               ur res1 Hur Hres1 Herr).
    reflexivity. }
  split; [exact Hrun|].
  intros Hnone. rewrite Hrun, Hnone. reflexivity.
Qed.

Lemma missing_assertion_returns_nil_error_witness :
  run (Authenticate scenario_no_assertion 0 login_x)
  = (Returned "" None,
     [EvDo (authRequest "x.okta.com" login_x);
      EvDo (redirectCall "x.okta.com" "tok1" "https://x.okta.com")]) /\
  fst (run (Authenticate scenario_no_assertion 0 login_x)) = Returned "" None.
Proof.
  destruct (@missing_assertion_returns_nil_error scenario_no_assertion 0 login_x
              {| Host := "x.okta.com" |} {| Host := "x.okta.com" |}
              {| Host := "x.okta.com" |} success_response empty_page_response
              eq_refl eq_refl eq_refl eq_refl
              ltac:(discriminate) eq_refl eq_refl) as [Hrun Hnone].
  split; [exact Hrun|exact (Hnone eq_refl)].
Defined.

(** C6.  When the status of the answer to the credential submission is
    not [MFA_REQUIRED], the call goes from that answer straight to the
    exchange of the session token (lines 382-413), having done nothing
    but the credential submission.  In scenario A, where that answer
    carries the status [SUCCESS] and the session token [tok1] and the
    page of the redirect has an input [SAMLResponse] of value
    [YXNzZXJ0aW9u], the call returns [YXNzZXJ0aW9u]. *)
Theorem no_mfa_goes_to_session_token
        (env : Env) (fuel : nat) (login : LoginDetails) (u u' : URL)
        (res0 : Response) :
  url_Parse env (entryURL login) = inr u ->
  url_Parse env ("https://" ++ Host u ++ "/api/v1/authn") = inr u' ->
  http_answer env 0 = inr res0 ->
  auth_status res0 <> "MFA_REQUIRED" ->
  Authenticate env fuel login init_state
  = sessionRedirect env (Host u) (entryURL login) (res_json res0)
      (state_after [EvDo (authRequest (Host u) login)]) /\
  (forall raw ur res1 e rest,
      res_json res0 = JObject raw [("status", JString "SUCCESS");
                                   ("sessionToken", JString "tok1")] ->
      url_Parse env (redirectURL (Host u)) = inr ur ->
      http_answer env 1 = inr res1 ->
      res_read_err res1 = None ->
      Find_input_named (res_doc res1) "SAMLResponse" = e :: rest ->
      assoc "value" (el_attrs e) = Some "YXNzZXJ0aW9u" ->
      run (Authenticate env fuel login)
      = (Returned "YXNzZXJ0aW9u" None,
         [EvDo (authRequest (Host u) login);
          EvDo (redirectCall (Host u) "tok1" (entryURL login))])).
Proof.
  intros Hu Hu' Hres0 Hst.
  pose proof (@Authenticate_not_mfa env login u u' Hu Hu' res0 Hres0 fuel Hst) as Heq.
  split; [exact Heq|].
  intros raw ur res1 e rest Hjson Hur Hres1 Herr Hfind Hval.
  unfold run. rewrite Heq.
  rewrite (@sessionRedirect_answered env (Host u) (entryURL login) (res_json res0)
             (state_after [EvDo (authRequest (Host u) login)])
             ur res1 Hur Hres1 Herr).
  rewrite Hfind, Hjson. cbn [Attr]. rewrite Hval. reflexivity.
Qed.

Lemma no_mfa_goes_to_session_token_witness :
  Authenticate scenario_A 0 login_x init_state
  = sessionRedirect scenario_A "x.okta.com" "https://x.okta.com"
      (res_json success_response)
      (state_after [EvDo (authRequest "x.okta.com" login_x)]) /\
  run (Authenticate scenario_A 0 login_x)
  = (Returned "YXNzZXJ0aW9u" None,
     [EvDo (authRequest "x.okta.com" login_x);
      EvDo (redirectCall "x.okta.com" "tok1" "https://x.okta.com")]).
Proof.
  destruct (@no_mfa_goes_to_session_token scenario_A 0 login_x
              {| Host := "x.okta.com" |} {| Host := "x.okta.com" |}
              success_response eq_refl eq_refl eq_refl
              ltac:(discriminate)) as [Heq Hrun].
  split; [exact Heq|].
  exact (Hrun "" {| Host := "x.okta.com" |} saml_page_response
              (hidden_input "SAMLResponse" "YXNzZXJ0aW9u") []
              eq_refl eq_refl eq_refl eq_refl eq_refl eq_refl).
Defined.

(** C7.  In every call, whatever the outside answers, the state token of
    the answer to the credential submission is the one every verify call
    carries in its body, the completion callback carries in its form, and
    the final verify call of the Duo case carries again; no request
    carries another. *)
Theorem state_token_threaded (env : Env) (fuel : nat) (login : LoginDetails) :
  forallb (carries_state_token (first_state_token env))
          (requests (snd (run (Authenticate env fuel login)))) = true.
Proof.
  apply forallb_forall. intros req Hin.
  apply In_nth_error in Hin as [n Hn].
  apply Authenticate_requests in Hn.
  destruct Hn; unfold carries_state_token;
    cbn [rq_body statusRequest verifyCall reverifyCall duoAuthCall redirectCall
         authRequest StateToken].
  - reflexivity.
  - apply String.eqb_refl.
  - apply String.eqb_refl.
  - reflexivity.
  - now rewrite H, H0.
  - cbn. apply String.eqb_refl.
  - reflexivity.
Qed.

(** C5.  When the signature of the answer to the Duo verify call is
    [a ++ ":" ++ b], with no colon in [a] nor in [b], it splits into the
    transaction signature [a] and the application signature [b]; a
    request that carries a [tx] query parameter carries [a]; and a
    request whose form has a [sig_response] field comes right after an
    answer of [/frame/status] whose result is [SUCCESS], and the field
    is the cookie of that answer, a colon, and [b].

    These requests are sent.  When the chosen factor is the Duo factor
    and the URLs of the verify call and of the Duo host parse, the third
    request of the call is the one that opens the Duo case, with [a] as
    its [tx].  When, further, the Duo frame has a [sid], the prompt form
    is accepted, and [/frame/status] says [SUCCESS] after [k] other
    answers, with [k] within the bound of the poll loop, the requests of
    the call are the credential submission, the verify call, the request
    with [tx], the prompt form, the status form [S k] times, and then
    the callback, whose [sig_response] is the cookie of the last status
    answer, a colon, and [b]. *)
Theorem duo_signature_split_and_callback
        (env : Env) (fuel : nat) (login : LoginDetails)
        (res1 : Response) (a b : string) :
  http_answer env 1 = inr res1 ->
  duo_signature res1 = a ++ ":" ++ b ->
  has_byte ":" a = false ->
  has_byte ":" b = false ->
  strings_Split (duo_signature res1) ":" = [a; b] /\
  (forall req v,
      In req (requests (snd (run (Authenticate env fuel login)))) ->
      Values_Get (rq_query req) "tx" = Some v -> v = a) /\
  (forall n req f v,
      nth_error (requests (snd (run (Authenticate env fuel login)))) n = Some req ->
      rq_body req = Form f ->
      Values_Get f "sig_response" = Some v ->
      exists n' res,
        n = S n' /\ http_answer env n' = inr res /\
        poll_result res = "SUCCESS" /\
        v = poll_cookie res ++ ":" ++ b) /\
  (forall (u u' uv ud : URL) (res0 : Response),
      url_Parse env (entryURL login) = inr u ->
      url_Parse env ("https://" ++ Host u ++ "/api/v1/authn") = inr u' ->
      http_answer env 0 = inr res0 ->
      auth_status res0 = "MFA_REQUIRED" ->
      let i := chosen_option env (res_json res0) in
      let duoHost := duoHost_of (res_json res1) in
      parseMfaIdentifer (res_json res0) i = IdentifierDuoMfa ->
      url_Parse env (factor_verify_href (res_json res0) i) = inr uv ->
      url_Parse env ("https://" ++ duoHost ++ "/frame/web/v1/auth") = inr ud ->
      nth_error (requests (snd (run (Authenticate env fuel login)))) 2
      = Some (duoAuthCall duoHost (Host u) a) /\
      Values_Get (rq_query (duoAuthCall duoHost (Host u) a)) "tx" = Some a /\
      forall (up us uc : URL) (res2 res3 resS : Response) (sid factor : string)
             (k : nat),
        http_answer env 2 = inr res2 ->
        res_read_err res2 = None ->
        Attr (Find_input_named (res_doc res2) "sid") "value" = (sid, true) ->
        nth_error ["Passcode"; "Duo Push"]
          (choose_answer env (count_choose (selection_events (res_json res0))))
        = Some factor ->
        url_Parse env ("https://" ++ duoHost ++ "/frame/prompt") = inr up ->
        http_answer env 3 = inr res3 ->
        json_String (gjson_Get (res_json res3) "stat") = "OK" ->
        url_Parse env ("https://" ++ duoHost ++ "/frame/status") = inr us ->
        settles_after env 4 k resS ->
        k <= fuel ->
        url_Parse env (duoCallback_of (res_json res1)) = inr uc ->
        let callback :=
          statusRequest (duoCallback_of (res_json res1))
            (callbackForm (factor_id_at (res_json res0) i) (auth_stateToken res0)
               (poll_cookie resS ++ ":" ++ b)) in
        Values_Get (callbackForm (factor_id_at (res_json res0) i)
                      (auth_stateToken res0) (poll_cookie resS ++ ":" ++ b))
          "sig_response" = Some (poll_cookie resS ++ ":" ++ b) /\
        exists rest,
          requests (snd (run (Authenticate env fuel login)))
          = ([authRequest (Host u) login;
              verifyCall (factor_verify_href (res_json res0) i)
                (auth_stateToken res0) "";
              duoAuthCall duoHost (Host u) a;
              statusRequest ("https://" ++ duoHost ++ "/frame/prompt")
                (duoPromptForm (html_UnescapeString env sid) factor
                   (string_answer env 0))]
             ++ repeat (statusRequest ("https://" ++ duoHost ++ "/frame/status")
                          (duoStatusForm (html_UnescapeString env sid)
                             (json_String (gjson_Get (res_json res3)
                                             "response.txid"))))
                  (S k)
             ++ callback :: rest)%list).
Proof.
  intros Hres1 Hsig Ha Hb.
  assert (Hsplit : strings_Split (duo_signature res1) ":" = [a; b])
    by (rewrite Hsig; now apply strings_Split_pair).
  split; [exact Hsplit|]. split; [|split].
  - intros req v Hin Htx. apply In_nth_error in Hin as [n Hn].
    apply Authenticate_requests in Hn.
    destruct Hn; try discriminate Htx.
    rewrite Hres1 in H. injection H as <-. rewrite Hsplit in H0.
    cbn in H0, Htx. congruence.
  - intros n req f v Hn Hbody Hv.
    apply Authenticate_requests in Hn.
    destruct Hn; try discriminate Hbody; injection Hbody as <-.
    + discriminate Hv.
    + congruence.
    + rewrite Hres1 in H. injection H as <-. rewrite Hsplit in H0.
      cbn in H0, Hv. injection H0 as <-. injection Hv as <-.
      exists n, res. auto.
  - intros u u' uv ud res0 Hu Hu' Hres0 Hst i duoHost Hid Huv Hud.
    destruct (@Authenticate_duo_trace env fuel login u u' uv res0 res1
                Hu Hu' Hres0 Hst Hid Huv Hres1)
      as (Hdo & Hch & Hstr & Hreq & evs & Hrun).
    fold i in Hdo, Hch, Hstr, Hreq, Hrun.
    set (s2 := after_request _ _) in *.
    assert (Htx : duoTx_of (res_json res1) = a).
    { unfold duoTx_of. fold (duo_signature res1). now rewrite Hsplit. }
    split; [|split; [reflexivity|]].
    + rewrite Hrun.
      destruct (@duoCase_sends_tx env fuel (Host u) (auth_stateToken res0)
                  (factor_id_at (res_json res0) i)
                  (factor_verify_href (res_json res0) i) (res_json res1) s2 ud Hud)
        as [evs1 Ht].
      rewrite Ht, Htx, !requests_app, Hreq. reflexivity.
    + intros up us uc res2 res3 resS sid factor k
             Hres2 Herr Hsid Hopt Hup Hres3 Hstat Hus Hset Hfuel Huc callback.
      split; [reflexivity|].
      destruct (@duoCase_sends_callback env fuel (Host u) (auth_stateToken res0)
                  (factor_id_at (res_json res0) i)
                  (factor_verify_href (res_json res0) i) (res_json res1) s2
                  ud up us uc res2 res3 resS sid factor a b k)
        as (evs1 & evs2 & Ht & Hr);
        try assumption; try (rewrite Hdo; assumption);
        try (rewrite Hch; exact Hopt).
      exists (requests evs2 ++ requests evs)%list.
      rewrite Hrun, Ht, !requests_app, Hreq, Hr, Hstr.
      cbn [requests app]. rewrite <- !app_assoc. reflexivity.
Qed.

Lemma duo_signature_split_and_callback_witness :
  strings_Split (duo_signature (duo_verify "AAA:BBB")) ":" = ["AAA"; "BBB"] /\
  (forall req v,
      In req (requests (snd (run (Authenticate scenario_push_approved 2 login_x)))) ->
      Values_Get (rq_query req) "tx" = Some v -> v = "AAA") /\
  (forall n req f v,
      nth_error (requests (snd (run (Authenticate scenario_push_approved 2 login_x)))) n
      = Some req ->
      rq_body req = Form f ->
      Values_Get f "sig_response" = Some v ->
      exists n' res,
        n = S n' /\ http_answer scenario_push_approved n' = inr res /\
        poll_result res = "SUCCESS" /\
        v = poll_cookie res ++ ":" ++ "BBB") /\
  nth_error (requests (snd (run (Authenticate scenario_push_approved 2 login_x)))) 2
  = Some (duoAuthCall "duo.example" "x.okta.com" "AAA") /\
  nth_error (requests (snd (run (Authenticate scenario_push_approved 2 login_x)))) 7
  = Some (statusRequest "https://x/callback" (callbackForm "f1" "st1" "c3:BBB")).
Proof.
  destruct (@duo_signature_split_and_callback scenario_push_approved 2 login_x
              (duo_verify "AAA:BBB") "AAA" "BBB" eq_refl eq_refl eq_refl eq_refl)
    as (Hsplit & Htxs & Hsig & Hsent).
  split; [exact Hsplit|]. split; [exact Htxs|]. split; [exact Hsig|].
  destruct (Hsent {| Host := "x.okta.com" |} {| Host := "x.okta.com" |}
              {| Host := "x" |} {| Host := "duo.example" |}
              (mfa_response [a_factor "f1" "DUO" "web" "https://x/verify"])
              eq_refl eq_refl eq_refl eq_refl eq_refl eq_refl eq_refl)
    as (Htx & _ & Hcb).
  split; [exact Htx|].
  assert (Hset : settles_after scenario_push_approved 4 2 (duo_status "SUCCESS" "c3")).
  { split; [|split; reflexivity].
    intros [|[|j]] Hj; [| |lia]; eexists; (split; [reflexivity|]);
      split; discriminate. }
  destruct (Hcb {| Host := "duo.example" |} {| Host := "duo.example" |}
              {| Host := "x" |}
              {| res_json := JNull; res_doc := [hidden_input "sid" "SID"];
                 res_read_err := None |}
              {| res_json := obj [("stat", JString "OK");
                                  ("response", obj [("txid", JString "TX1")])];
                 res_doc := []; res_read_err := None |}
              (duo_status "SUCCESS" "c3") "SID" "Duo Push" 2
              eq_refl eq_refl eq_refl eq_refl eq_refl eq_refl eq_refl eq_refl
              Hset (le_n 2) eq_refl)
    as (_ & rest & Hreq).
  rewrite Hreq. reflexivity.
Defined.

(** C4, as the code runs.  With the answers of [/frame/status] scripted
    as [WAITING], [WAITING], [SUCCESS], the call sleeps twice, sends the
    cookie of the third answer to the callback and succeeds.  With
    [WAITING], [FAILURE], the call sleeps once and stops after the second
    answer, without a further request; but what it returns is the empty
    assertion with the nil error, not a device-authentication error:
    [errors.Wrap] is given the nil error of line 321.  A round whose
    result is neither [SUCCESS] nor [FAILURE] is followed by another
    round. *)
Theorem duo_poll_scripted :
  (forall k,
      fst (run (Authenticate scenario_push_approved (2 + k) login_x))
      = Returned "YXNzZXJ0aW9u" None /\
      count_sleep (snd (run (Authenticate scenario_push_approved (2 + k) login_x))) = 2 /\
      map rq_url (requests (snd (run (Authenticate scenario_push_approved (2 + k) login_x))))
      = ["https://x.okta.com/api/v1/authn"; "https://x/verify";
         "https://duo.example/frame/web/v1/auth"; "https://duo.example/frame/prompt";
         "https://duo.example/frame/status"; "https://duo.example/frame/status";
         "https://duo.example/frame/status"; "https://x/callback";
         "https://x/verify"; "https://x.okta.com/login/sessionCookieRedirect"] /\
      In (statusRequest "https://x/callback" (callbackForm "f1" "st1" "c3:BBB"))
         (requests (snd (run (Authenticate scenario_push_approved (2 + k) login_x))))) /\
  (forall k,
      fst (run (Authenticate scenario_push_denied (1 + k) login_x))
      = Returned "" None /\
      count_sleep (snd (run (Authenticate scenario_push_denied (1 + k) login_x))) = 1 /\
      map rq_url (requests (snd (run (Authenticate scenario_push_denied (1 + k) login_x))))
      = ["https://x.okta.com/api/v1/authn"; "https://x/verify";
         "https://duo.example/frame/web/v1/auth"; "https://duo.example/frame/prompt";
         "https://duo.example/frame/status"; "https://duo.example/frame/status"]) /\
  (forall env url form u fuel s res,
      url_Parse env url = inr u ->
      http_answer env (n_do s) = inr res ->
      poll_result res <> "SUCCESS" ->
      poll_result res <> "FAILURE" ->
      pollLoop env (S fuel) url form s
      = pollLoop env fuel url form (poll_round url form res s)).
Proof.
  split; [|split].
  - intros k. vm_compute. repeat split. do 7 right. left. reflexivity.
  - intros k. vm_compute. repeat split.
  - intros env url form u fuel s res Hu Hres Hs Hf.
    rewrite (@pollLoop_round env url form u fuel s res Hu Hres).
    apply String.eqb_neq in Hs, Hf. now rewrite Hf, Hs.
Qed.

Lemma duo_poll_scripted_witness :
  fst (run (Authenticate scenario_push_denied 1 login_x)) = Returned "" None /\
  count_sleep (snd (run (Authenticate scenario_push_approved 2 login_x))) = 2 /\
  pollLoop scenario_push_approved 2 "https://duo.example/frame/status"
           [("sid", "SID"); ("txid", "TX1")]
           {| n_do := 5; n_choose := 1; n_string := 0; trace := [] |}
  = pollLoop scenario_push_approved 1 "https://duo.example/frame/status"
      [("sid", "SID"); ("txid", "TX1")]
      (poll_round "https://duo.example/frame/status" [("sid", "SID"); ("txid", "TX1")]
         (duo_status "WAITING" "c2")
         {| n_do := 5; n_choose := 1; n_string := 0; trace := [] |}).
Proof.
  destruct duo_poll_scripted as (Hok & Hko & Hnext).
  split; [exact (proj1 (Hko 0))|].
  split; [exact (proj1 (proj2 (Hok 0)))|].
  apply (Hnext scenario_push_approved "https://duo.example/frame/status"
           [("sid", "SID"); ("txid", "TX1")] {| Host := "duo.example" |} 1
           {| n_do := 5; n_choose := 1; n_string := 0; trace := [] |}
           (duo_status "WAITING" "c2")); [reflexivity|reflexivity| |];
    vm_compute; discriminate.
Defined.

(** C10, as the code runs.  Element 0 of the split signature always
    exists.  Element 1 does not exist when the signature has no colon:
    the access of line 343 is then out of range and the call panics, as
    it does for the signature [AAA] once the push is approved. *)
Theorem duo_signature_without_colon_panics :
  (forall sig, nth_error (strings_Split sig ":") 0 <> None) /\
  (forall sig, has_byte ":" sig = false -> nth_error (strings_Split sig ":") 1 = None) /\
  (forall fuel,
      fst (run (Authenticate scenario_no_colon fuel login_x))
      = Panicked "index out of range").
Proof.
  split; [|split].
  - intros sig. unfold strings_Split.
    pose proof (split_on_nonempty ":" sig) as Hne.
    destruct (split_on ":" sig); [congruence|discriminate].
  - intros sig Hsig. unfold strings_Split. now rewrite (split_on_none _ _ Hsig).
  - intros fuel. vm_compute. reflexivity.
Qed.

Lemma duo_signature_without_colon_panics_witness :
  nth_error (strings_Split "AAA" ":") 0 <> None /\
  nth_error (strings_Split "AAA" ":") 1 = None /\
  fst (run (Authenticate scenario_no_colon 0 login_x)) = Panicked "index out of range".
Proof.
  destruct duo_signature_without_colon_panics as (H0 & H1 & Hrun).
  split; [exact (H0 "AAA")|]. split; [exact (H1 "AAA" eq_refl)|exact (Hrun 0)].
Defined.

(** C8.  When the answer to the credential submission says
    [MFA_REQUIRED] and lists the factors [fs], the selection of lines
    115-127 calls [prompt.Choose] exactly when there is more than one
    factor.  When it does, the options are the labels of the factors, one
    per factor and in the order of the list, and the factor verified is
    the one the user picks; otherwise nothing is asked and the factor
    verified is the one at index 0. *)
Theorem chooser_iff_several_factors
        (env : Env) (fuel : nat) (login : LoginDetails) (u u' : URL)
        (res0 : Response) (raw : string) (fs : list json) :
  url_Parse env (entryURL login) = inr u ->
  url_Parse env ("https://" ++ Host u ++ "/api/v1/authn") = inr u' ->
  http_answer env 0 = inr res0 ->
  auth_status res0 = "MFA_REQUIRED" ->
  gjson_Get (res_json res0) "_embedded.factors" = JArray raw fs ->
  length (map (fun f => mfaOptionLabel (factor_identifier f)) fs) = length fs /\
  (1 < length fs ->
   Authenticate env fuel login init_state
   = bind (verifyMfaOption env fuel (Host u) (auth_stateToken res0)
             (res_json res0) (res_read_err res0) (choose_answer env 0))
       (sessionRedirect env (Host u) (entryURL login))
       (state_after
          [EvDo (authRequest (Host u) login);
           EvChoose "Select which MFA option to use"
             (map (fun f => mfaOptionLabel (factor_identifier f)) fs)])) /\
  (length fs <= 1 ->
   Authenticate env fuel login init_state
   = bind (verifyMfaOption env fuel (Host u) (auth_stateToken res0)
             (res_json res0) (res_read_err res0) 0)
       (sessionRedirect env (Host u) (entryURL login))
       (state_after [EvDo (authRequest (Host u) login)])).
Proof.
  intros Hu Hu' Hres0 Hst Hfs.
  pose proof (@Authenticate_mfa env login u u' Hu Hu' res0 Hres0 fuel Hst) as Heq.
  unfold chosen_option, selection_events in Heq.
  rewrite (mfaOptionLabels_factors (res_json res0) Hfs) in Heq.
  rewrite length_map in *.
  split; [reflexivity|]. split; intros Hlen.
  - apply Nat.ltb_lt in Hlen. now rewrite Hlen in Heq.
  - apply Nat.ltb_ge in Hlen. now rewrite Hlen in Heq.
Qed.

Lemma chooser_iff_several_factors_witness :
  Authenticate scenario_two_factors 0 login_x init_state
  = bind (verifyMfaOption scenario_two_factors 0 "x.okta.com" "st1"
            (mfa_required [sms_factor; totp_factor]) None 1)
      (sessionRedirect scenario_two_factors "x.okta.com" "https://x.okta.com")
      (state_after
         [EvDo (authRequest "x.okta.com" login_x);
          EvChoose "Select which MFA option to use"
            ["SMS MFA authentication"; "TOTP MFA authentication"]]) /\
  Authenticate scenario_B 0 login_x init_state
  = bind (verifyMfaOption scenario_B 0 "x.okta.com" "st1"
            (mfa_required [sms_factor]) None 0)
      (sessionRedirect scenario_B "x.okta.com" "https://x.okta.com")
      (state_after [EvDo (authRequest "x.okta.com" login_x)]).
Proof.
  split.
  - exact (proj1 (proj2 (@chooser_iff_several_factors scenario_two_factors 0 login_x
             {| Host := "x.okta.com" |} {| Host := "x.okta.com" |}
             (mfa_response [sms_factor; totp_factor]) "" [sms_factor; totp_factor]
             eq_refl eq_refl eq_refl eq_refl eq_refl)) (le_n 2)).
  - exact (proj2 (proj2 (@chooser_iff_several_factors scenario_B 0 login_x
             {| Host := "x.okta.com" |} {| Host := "x.okta.com" |}
             (mfa_response [sms_factor]) "" [sms_factor]
             eq_refl eq_refl eq_refl eq_refl eq_refl)) (le_n 1)).
Defined.

(** C9.  When the chosen factor is the SMS or the TOTP factor and the
    requests are answered, the call issues the verify call with the state
    token only, whatever its answer asks for the verification code, and
    issues the verify call with the state token and the code; these are
    its only two verify calls, and the session token of the redirect is
    the one of the answer to the second. *)
Theorem sms_totp_two_verify_calls
        (env : Env) (fuel : nat) (login : LoginDetails) (u u' uv ur : URL)
        (res0 res1 res2 : Response) :
  url_Parse env (entryURL login) = inr u ->
  url_Parse env ("https://" ++ Host u ++ "/api/v1/authn") = inr u' ->
  http_answer env 0 = inr res0 ->
  auth_status res0 = "MFA_REQUIRED" ->
  parseMfaIdentifer (res_json res0) (chosen_option env (res_json res0))
  = IdentifierSmsMfa \/
  parseMfaIdentifer (res_json res0) (chosen_option env (res_json res0))
  = IdentifierTotpMfa ->
  url_Parse env (factor_verify_href (res_json res0)
                   (chosen_option env (res_json res0))) = inr uv ->
  http_answer env 1 = inr res1 ->
  http_answer env 2 = inr res2 ->
  url_Parse env (redirectURL (Host u)) = inr ur ->
  snd (run (Authenticate env fuel login))
  = (EvDo (authRequest (Host u) login) :: selection_events (res_json res0) ++
     [EvDo (verifyCall (factor_verify_href (res_json res0)
                          (chosen_option env (res_json res0)))
                       (auth_stateToken res0) "");
      EvStringRequired "Enter verification code";
      EvDo (verifyCall (factor_verify_href (res_json res0)
                          (chosen_option env (res_json res0)))
                       (auth_stateToken res0) (string_answer env 0));
      EvDo (redirectCall (Host u) (session_token res2) (entryURL login))])%list.
Proof.
  intros Hu Hu' Hres0 Hst Hid Huv Hres1 Hres2 Hur.
  rewrite snd_run.
  rewrite (@Authenticate_mfa env login u u' Hu Hu' res0 Hres0 fuel Hst).
  set (s := state_after _).
  assert (Hs : n_do s = 1 /\ n_string s = 0).
  { subst s. unfold state_after, selection_events, count_string.
    destruct (1 <? length (mfaOptionLabels (res_json res0)))%nat; now split. }
  destruct Hs as [Hdo Hstr].
  unfold bind at 1.
  rewrite (@verifyMfaOption_sms_totp env fuel (Host u) (auth_stateToken res0)
             (res_json res0) (res_read_err res0) _ s uv res1 res2 Hid Huv)
    by (rewrite Hdo; assumption).
  cbn beta iota.
  rewrite (@sessionRedirect_trace env (Host u) (entryURL login) (res_json res2)
             _ ur Hur).
  cbn [trace]. rewrite Hstr. subst s. cbn [state_after trace].
  rewrite <- app_assoc. reflexivity.
Qed.

Lemma sms_totp_two_verify_calls_witness :
  snd (run (Authenticate scenario_B 0 login_x))
  = [EvDo (authRequest "x.okta.com" login_x);
     EvDo (verifyCall "https://x/verify" "st1" "");
     EvStringRequired "Enter verification code";
     EvDo (verifyCall "https://x/verify" "st1" "123456");
     EvDo (redirectCall "x.okta.com" "tok2" "https://x.okta.com")].
Proof.
  apply (@sms_totp_two_verify_calls scenario_B 0 login_x
           {| Host := "x.okta.com" |} {| Host := "x.okta.com" |}
           {| Host := "x" |} {| Host := "x.okta.com" |}
           (mfa_response [sms_factor]) challenge_response token_response);
    try reflexivity.
  left. reflexivity.
Defined.

(** ** How a call ends

    A second logic over the flow: [ends env m s Q] says that, from a state
    in which every request so far was answered, the statement [m] either
    goes on to a state where this still holds and [Q] holds of its value,
    or stops in a way that is [outcome_ok]. *)

(** *** The rules of the logic of ends *)

Section EndRules.
Variable env : Env.

Lemma stop_ok (r : Result) (n : nat) :
  answered env n ->
  (forall saml e, r = Returned saml (Some e) ->
     saml = "" /\ exists msg cause, e = ErrWrap msg cause /\ origin env cause) ->
  (forall saml err, r = Returned saml err -> saml = "") ->
  outcome_ok env r n.
Proof.
  intros Hj Hc Hd. split; [|split; [|split]].
  - intros k Hk. apply Hj. lia.
  - intros k e -> He. destruct (Hj k (Nat.lt_succ_diag_r k)) as [res Hres]. congruence.
  - exact Hc.
  - intros saml err Hr Hne. apply Hd in Hr. contradiction.
Qed.

Lemma ends_ret {A : Type} (a : A) (s : State) (Q : A -> State -> Prop) :
  Q a s -> ends env (ret a) s Q.
Proof. intros H Hj. split; assumption. Qed.

Lemma ends_bind {A B : Type} (m : M A) (k : A -> M B) (s : State)
      (Q : B -> State -> Prop) :
  ends env m s (fun a s' => ends env (k a) s' Q) -> ends env (bind m k) s Q.
Proof.
  unfold ends, bind. intros H Hj. specialize (H Hj).
  destruct (m s) as [[a|r] s1]; [|exact H].
  destruct H as [Hj1 H]. exact (H Hj1).
Qed.

Lemma ends_post {A : Type} (m : M A) (s : State) (Q1 Q2 : A -> State -> Prop) :
  ends env m s Q1 -> (forall a s', Q1 a s' -> Q2 a s') -> ends env m s Q2.
Proof.
  unfold ends. intros H HQ Hj. specialize (H Hj).
  destruct (m s) as [[a|r] s']; [|exact H]. destruct H; split; auto.
Qed.

Lemma ends_return_nil {A : Type} (s : State) (Q : A -> State -> Prop) :
  ends env (return_ "" None) s Q.
Proof.
  intros Hj. apply stop_ok; [exact Hj| |]; intros saml e [= ]; auto.
Qed.

Lemma ends_return_wrap {A : Type} (err : option error) (msg : string) (s : State)
      (Q : A -> State -> Prop) :
  (forall e, err = Some e -> origin env e) ->
  ends env (return_ "" (errors_Wrap err msg)) s Q.
Proof.
  intros Ho Hj. apply stop_ok; [exact Hj| |].
  - intros saml e [= <- He]. split; [reflexivity|].
    destruct err as [c|]; [|discriminate]. injection He as <-.
    exists msg, c. split; [reflexivity|]. now apply Ho.
  - now intros saml e [= <- _].
Qed.

Lemma ends_panic {A : Type} (msg : string) (s : State) (Q : A -> State -> Prop) :
  ends env (panic msg) s Q.
Proof. intros Hj. apply stop_ok; [exact Hj| |]; intros saml e [= ]. Qed.

Lemma ends_out_of_fuel {A : Type} (s : State) (Q : A -> State -> Prop) :
  ends env out_of_fuel s Q.
Proof. intros Hj. apply stop_ok; [exact Hj| |]; intros saml e [= ]. Qed.

Lemma ends_NewRequest (method url : string) (body : Payload) (msg : string)
      (s : State) (Q : Request -> State -> Prop) :
  Q {| rq_method := method; rq_url := url; rq_query := [];
       rq_header := []; rq_body := body |} s ->
  ends env (check (http_NewRequest env method url body) "" msg) s Q.
Proof.
  intros HQ. unfold http_NewRequest.
  destruct (url_Parse env url) as [e|u] eqn:Hu; cbn [check].
  - apply ends_return_wrap with (err := Some e). intros e' [= <-].
    left. now exists url.
  - now apply ends_ret.
Qed.

Lemma ends_NewDocument (res : Response) (n : nat) (msg : string) (s : State)
      (Q : Document -> State -> Prop) :
  http_answer env n = inr res ->
  (res_read_err res = None -> Q (res_doc res) s) ->
  ends env (check (goquery_NewDocumentFromResponse res) "" msg) s Q.
Proof.
  intros Hres HQ. unfold goquery_NewDocumentFromResponse.
  destruct (res_read_err res) as [e|] eqn:He; cbn [check].
  - apply ends_return_wrap with (err := Some e). intros e' [= <-].
    right. right. now exists n, res.
  - apply ends_ret. now apply HQ.
Qed.

Lemma ends_index {A : Type} (l : list A) (i : nat) (s : State)
      (Q : A -> State -> Prop) :
  (forall a, nth_error l i = Some a -> Q a s) -> ends env (index l i) s Q.
Proof.
  intros H. unfold index. destruct (nth_error l i); [|apply ends_panic].
  apply ends_ret; auto.
Qed.

Lemma ends_deref {A : Type} (r : error + A) (s : State) (Q : A -> State -> Prop) :
  (forall a, r = inr a -> Q a s) -> ends env (deref r) s Q.
Proof.
  intros H. destruct r as [e|a]; [apply ends_panic|]. apply ends_ret; auto.
Qed.

Lemma ends_Do (req : Request) (msg : string) {B : Type} (k : Response -> M B)
      (s : State) (Q : B -> State -> Prop) :
  (forall res s1, http_answer env (n_do s) = inr res -> n_do s1 = S (n_do s) ->
                  ends env (k res) s1 Q) ->
  ends env (bind (client_Do env req) (fun r => bind (check r "" msg) k)) s Q.
Proof.
  intros Hk Hj. unfold bind at 1. unfold client_Do.
  destruct (http_answer env (n_do s)) as [e|res] eqn:Ha.
  - unfold bind, check, return_. cbn [n_do errors_Wrap].
    split; [|split; [|split]].
    + intros k0 Hk0. apply Hj. lia.
    + intros k0 e0 [= <-] He0. exists msg. congruence.
    + intros saml e0 [= <- <-]. split; [reflexivity|].
      exists msg, e. split; [reflexivity|]. right. left. now exists (n_do s).
    + intros saml err [= <- _] Hne. contradiction.
  - unfold bind at 1. unfold check, ret.
    match goal with |- context [k res ?s1] => specialize (Hk res s1 eq_refl eq_refl) end.
    apply Hk. cbn [n_do]. intros k0 Hk0.
    destruct (Nat.eq_dec k0 (n_do s)) as [->|Hne]; [now exists res|].
    apply Hj. lia.
Qed.

Lemma ends_Choose (prompt : string) (options : list string) (s : State)
      (Q : nat -> State -> Prop) :
  (forall a s', n_do s' = n_do s -> Q a s') ->
  ends env (prompt_Choose env prompt options) s Q.
Proof. intros HQ Hj. split; [exact Hj|]. now apply HQ. Qed.

Lemma ends_StringRequired (prompt : string) (s : State) (Q : string -> State -> Prop) :
  (forall a s', n_do s' = n_do s -> Q a s') ->
  ends env (prompt_StringRequired env prompt) s Q.
Proof. intros HQ Hj. split; [exact Hj|]. now apply HQ. Qed.

Lemma ends_Sleep (d : Z) (s : State) (Q : unit -> State -> Prop) :
  (forall s', n_do s' = n_do s -> Q tt s') -> ends env (time_Sleep d) s Q.
Proof. intros HQ Hj. split; [exact Hj|]. now apply HQ. Qed.

Lemma ends_Println (line : string) (s : State) (Q : unit -> State -> Prop) :
  (forall s', n_do s' = n_do s -> Q tt s') -> ends env (fmt_Println line) s Q.
Proof. intros HQ Hj. split; [exact Hj|]. now apply HQ. Qed.
End EndRules.

Lemma Attr_missing (sel : list Element) (name v : string) :
  Attr sel name = (v, false) -> v = "".
Proof.
  unfold Attr. destruct sel as [|e sel]; [now intros [= <-]|].
  destruct (assoc name (el_attrs e)); [discriminate|now intros [= <-]].
Qed.

Ltac ends_step :=
  lazymatch goal with
  | |- ends _ (bind (client_Do _ _) _) _ _ =>
      let Ha := fresh "Hans" in
      let Hn := fresh "Hdo" in
      apply ends_Do; intros ? ? Ha Hn
  | |- ends _ (bind _ _) _ _ => apply ends_bind
  | |- ends _ (ret _) _ _ => apply ends_ret
  | |- ends _ (return_ "" None) _ _ => apply ends_return_nil
  | |- ends _ (return_ "" (errors_Wrap _ _)) _ _ => apply ends_return_wrap; intros ? ?
  | |- ends _ (check (http_NewRequest _ _ _ _) _ _) _ _ => apply ends_NewRequest
  | |- ends _ (check (goquery_NewDocumentFromResponse _) _ _) _ _ =>
      eapply ends_NewDocument; [eassumption|intros ?]
  | |- ends _ (index _ _) _ _ => apply ends_index; intros ? ?
  | |- ends _ (deref _) _ _ => apply ends_deref; intros ? ?
  | |- ends _ (prompt_Choose _ _ _) _ _ =>
      let H := fresh "Hdo" in apply ends_Choose; intros ? ? H
  | |- ends _ (prompt_StringRequired _ _) _ _ =>
      let H := fresh "Hdo" in apply ends_StringRequired; intros ? ? H
  | |- ends _ (time_Sleep _) _ _ =>
      let H := fresh "Hdo" in apply ends_Sleep; intros ? H
  | |- ends _ (fmt_Println _) _ _ =>
      let H := fresh "Hdo" in apply ends_Println; intros ? H
  | |- ends _ out_of_fuel _ _ => apply ends_out_of_fuel
  | |- ends _ (if ?b then _ else _) _ _ => destruct b eqn:?
  | |- ends _ (match ?x with _ => _ end) _ _ => destruct x eqn:?
  end.

(** The origin of the error of a body that was read. *)
Ltac read_origin :=
  unfold ioutil_ReadAll in *;
  repeat match goal with
         | H : (_, _) = (_, _) |- _ => injection H as ? ?; subst
         end;
  try discriminate;
  right; right; eauto.

(** *** Every block of the flow ends well *)

Section Ends.
Variable env : Env.

Lemma sessionRedirect_ends (host entry : string) (resp : json) (s : State) :
  ends env (sessionRedirect env host entry resp) s (fun _ _ => True).
Proof.
  unfold sessionRedirect. cbv zeta.
  do 3 ends_step. ends_step. ends_step.
  destruct (Attr (Find_input_named (res_doc res) "SAMLResponse") "value")
    as [saml ok] eqn:Hattr.
  destruct ok; cbn [negb].
  - intros Hj. unfold return_. split; [|split; [|split]].
    + intros k Hk. apply Hj. lia.
    + intros k e Hk He. destruct (Hj k) as [r Hr]; [lia|congruence].
    + intros saml' e [= ].
    + intros saml' err [= <- <-] Hne. split; [reflexivity|].
      exists (n_do s), res. rewrite Hdo. auto.
  - apply Attr_missing in Hattr. subst saml. apply ends_return_nil.
Qed.

Lemma pollLoop_ends (fuel : nat) (url : string) (form : Values) :
  forall s, ends env (pollLoop env fuel url form) s (fun _ _ => True).
Proof.
  induction fuel as [|fuel IH]; intros s; cbn [pollLoop].
  - apply ends_out_of_fuel.
  - repeat ends_step; auto; read_origin.
Qed.

Lemma smsTotpCase_ends (st url : string) (s : State) :
  ends env (smsTotpCase env st url) s (fun _ _ => True).
Proof. unfold smsTotpCase. cbv zeta. repeat ends_step; auto. Qed.

Lemma duoCase_ends (fuel : nat) (host st factorID url : string) (resp : json)
      (s : State) :
  ends env (duoCase env fuel host st factorID url resp) s (fun _ _ => True).
Proof.
  unfold duoCase. cbv zeta.
  repeat first [ ends_step
               | eapply ends_post; [apply pollLoop_ends|intros ? ? _] ];
    auto; read_origin.
Qed.

Lemma verifyMfaOption_ends (fuel : nat) (host st : string) (resp : json)
      (err : option error) (mfaOption : nat) (s : State) :
  (forall e, err = Some e -> origin env e) ->
  ends env (verifyMfaOption env fuel host st resp err mfaOption) s (fun _ _ => True).
Proof.
  intros Herr. unfold verifyMfaOption. cbv zeta.
  repeat ends_step; auto using smsTotpCase_ends, duoCase_ends.
Qed.

Lemma Authenticate_ends (fuel : nat) (login : LoginDetails) :
  ends env (Authenticate env fuel login) init_state (fun _ _ => True).
Proof.
  unfold Authenticate, mfaRequired, chooseMfaOption. cbv zeta.
  repeat ends_step; auto using sessionRedirect_ends.
  all: eapply ends_post;
    [ apply verifyMfaOption_ends; intros; read_origin
    | intros; apply sessionRedirect_ends ].
Qed.
End Ends.

Lemma run_counts (env : Env) (fuel : nat) (login : LoginDetails) :
  n_do (snd (Authenticate env fuel login init_state))
  = length (requests (snd (run (Authenticate env fuel login)))).
Proof.
  pose proof (Authenticate_keeps env login fuel) as H.
  rewrite snd_run. unfold keeps in H.
  destruct (Authenticate env fuel login init_state) as [[[]|r] s'].
  destruct H as (evs & Ht & Hn & _). cbn [snd]. rewrite Ht, Hn. reflexivity.
Qed.

Lemma Authenticate_outcome (env : Env) (fuel : nat) (login : LoginDetails) :
  outcome_ok env (fst (run (Authenticate env fuel login)))
             (length (requests (snd (run (Authenticate env fuel login))))).
Proof.
  rewrite <- run_counts.
  pose proof (@Authenticate_ends env fuel login) as H.
  unfold ends, run in *.
  destruct (Authenticate env fuel login init_state) as [[[]|r] s'].
  apply H. intros k Hk. cbn in Hk. lia.
Qed.

(** X1. A request that gets no answer ends the call: it is the last request
    of the call, every request before it was answered, and the call returns
    the empty assertion with the transport's error wrapped in a message. *)
Theorem failed_request_ends_call
        (env : Env) (fuel : nat) (login : LoginDetails) (n : nat) (e : error) :
  http_answer env n = inl e ->
  n < length (requests (snd (run (Authenticate env fuel login)))) ->
  length (requests (snd (run (Authenticate env fuel login)))) = S n /\
  exists msg,
    fst (run (Authenticate env fuel login)) = Returned "" (Some (ErrWrap msg e)).
Proof.
  intros He Hn.
  destruct (Authenticate_outcome env fuel login) as (Ha & Hb & _).
  assert (Hlen : length (requests (snd (run (Authenticate env fuel login)))) = S n).
  { destruct (Nat.lt_ge_cases (S n)
                (length (requests (snd (run (Authenticate env fuel login))))))
      as [Hlt|Hge]; [|lia].
    destruct (Ha n Hlt) as [res Hres]. congruence. }
  split; [exact Hlen|]. exact (Hb n e Hlen He).
Qed.

Lemma failed_request_ends_call_witness :
  length (requests (snd (run (Authenticate scenario_unreachable 0 login_x)))) = 1 /\
  exists msg,
    fst (run (Authenticate scenario_unreachable 0 login_x))
    = Returned "" (Some (ErrWrap msg (ErrBase "EOF"))).
Proof.
  apply (@failed_request_ends_call scenario_unreachable 0 login_x 0 (ErrBase "EOF")).
  - reflexivity.
  - vm_compute. apply le_n.
Defined.

(** X2. Whenever [Authenticate] returns an error, the assertion it returns
    with it is empty, and the error wraps a cause that comes from the
    outside: a URL that does not parse, a request without an answer, or a
    body that could not be read whole. *)
Theorem error_comes_with_empty_assertion
        (env : Env) (fuel : nat) (login : LoginDetails) (saml : string) (e : error) :
  fst (run (Authenticate env fuel login)) = Returned saml (Some e) ->
  saml = "" /\ exists msg cause, e = ErrWrap msg cause /\ origin env cause.
Proof.
  destruct (Authenticate_outcome env fuel login) as (_ & _ & Hc & _). apply Hc.
Qed.

Lemma error_comes_with_empty_assertion_witness :
  "" = "" /\
  exists msg cause,
    ErrWrap "error retrieving auth response" (ErrBase "EOF") = ErrWrap msg cause /\
    origin scenario_unreachable cause.
Proof.
  apply (@error_comes_with_empty_assertion scenario_unreachable 0 login_x "").
  reflexivity.
Defined.

(** X3. When every URL parses, every request is answered and every body is
    read whole, [Authenticate] never returns an error, whatever the bodies
    say: an unsupported factor, a rejected device or a page without an
    assertion all end in a nil error. *)
Theorem healthy_transport_never_errors
        (env : Env) (fuel : nat) (login : LoginDetails) (saml : string)
        (err : option error) :
  healthy env ->
  fst (run (Authenticate env fuel login)) = Returned saml err ->
  err = None.
Proof.
  intros [Hurl Hans] Hr. destruct err as [e|]; [|reflexivity]. exfalso.
  destruct (Authenticate_outcome env fuel login) as (_ & _ & Hc & _).
  destruct (Hc _ _ Hr) as (_ & msg & cause & _ & Ho).
  destruct Ho as [[url Hu]|[[n Hn]|(n & res & Hn & Hread)]].
  - destruct (Hurl url) as [u Hu']. congruence.
  - destruct (Hans n) as (res & Hres & _). congruence.
  - destruct (Hans n) as (res' & Hres & Hnone). congruence.
Qed.

Lemma healthy_transport_never_errors_witness :
  healthy healthy_unsupported /\
  fst (run (Authenticate healthy_unsupported 0 login_x)) = Returned "" None /\
  @None error = None.
Proof.
  assert (H : healthy healthy_unsupported).
  { split.
    - intros url. eexists. reflexivity.
    - intros n. eexists. split; reflexivity. }
  split; [exact H|]. split; [reflexivity|].
  apply (@healthy_transport_never_errors healthy_unsupported 0 login_x "" None H).
  reflexivity.
Defined.

(** X4. A non-empty assertion is returned with a nil error only, every
    request of the call was answered, and the assertion is the [value] of
    the first input named [SAMLResponse] of the answer to the last
    request. *)
Theorem assertion_comes_from_the_last_page
        (env : Env) (fuel : nat) (login : LoginDetails) (saml : string)
        (err : option error) :
  fst (run (Authenticate env fuel login)) = Returned saml err ->
  saml <> "" ->
  err = None /\
  answered env (length (requests (snd (run (Authenticate env fuel login))))) /\
  exists k res,
    length (requests (snd (run (Authenticate env fuel login)))) = S k /\
    http_answer env k = inr res /\
    res_read_err res = None /\
    Attr (Find_input_named (res_doc res) "SAMLResponse") "value" = (saml, true).
Proof.
  intros Hr Hne.
  destruct (Authenticate_outcome env fuel login) as (Ha & _ & _ & Hd).
  destruct (Hd saml err Hr Hne) as (Herr & k & res & Hlen & Hres & Hread & Hattr).
  split; [exact Herr|]. split; [|now exists k, res].
  intros j Hj. rewrite Hlen in *.
  destruct (Nat.eq_dec j k) as [->|Hjk]; [now exists res|]. apply Ha. lia.
Qed.

Lemma assertion_comes_from_the_last_page_witness :
  @None error = None /\
  answered scenario_A (length (requests (snd (run (Authenticate scenario_A 0 login_x))))) /\
  exists k res,
    length (requests (snd (run (Authenticate scenario_A 0 login_x)))) = S k /\
    http_answer scenario_A k = inr res /\
    res_read_err res = None /\
    Attr (Find_input_named (res_doc res) "SAMLResponse") "value"
    = ("YXNzZXJ0aW9u", true).
Proof.
  apply (@assertion_comes_from_the_last_page scenario_A 0 login_x "YXNzZXJ0aW9u" None).
  - reflexivity.
  - discriminate.
Defined.

Lemma fold_json_child_null (path : list string) :
  fold_left json_child path JNull = JNull.
Proof. induction path; simpl; auto. Qed.

Lemma gjson_Get_factor_child (resp : json) (i : nat) (field : string) :
  gjson_Get resp ("_embedded.factors." ++ itoa i ++ String "." field)
  = gjson_Get (json_child (gjson_Get resp "_embedded.factors") (itoa i)) field.
Proof.
  unfold gjson_Get.
  change ("_embedded.factors." ++ itoa i ++ String "." field)
    with ("_embedded.factors" ++ String "." (itoa i ++ String "." field)).
  rewrite !split_on_app, !fold_left_app.
  now rewrite (@split_on_none "." (itoa i) (itoa_no_dot i)).
Qed.

Lemma no_factor_child (resp : json) (i : nat) :
  no_factor_at resp i ->
  json_child (gjson_Get resp "_embedded.factors") (itoa i) = JNull.
Proof.
  intros [-> | (raw & fs & -> & Hlen)]; [reflexivity|].
  cbn [json_child]. rewrite parse_uint_itoa. now apply nth_overflow.
Qed.

Lemma parseMfaIdentifer_missing (resp : json) (i : nat) :
  no_factor_at resp i -> parseMfaIdentifer resp i = " ".
Proof.
  intros H. unfold parseMfaIdentifer.
  change (".provider") with (String "." "provider").
  change (".factorType") with (String "." "factorType").
  rewrite !gjson_Get_factor_child, (no_factor_child H).
  unfold gjson_Get. now rewrite !fold_json_child_null.
Qed.

(** X5. [parseMfaIdentifer] at a position where the answer has no factor
    gives the identifier made of a single space, which is not supported
    and is labelled [UNSUPPORTED:] followed by two spaces. *)
Theorem identifier_of_missing_factor (resp : json) (i : nat) :
  no_factor_at resp i ->
  parseMfaIdentifer resp i = " " /\
  mfaOptionLabel (parseMfaIdentifer resp i) = "UNSUPPORTED:  " /\
  assoc (parseMfaIdentifer resp i) supportedMfaOptions = None.
Proof.
  intros H. rewrite (parseMfaIdentifer_missing H). repeat split.
Qed.

Lemma identifier_of_missing_factor_witness :
  parseMfaIdentifer (mfa_required [sms_factor]) 1 = " " /\
  mfaOptionLabel (parseMfaIdentifer (mfa_required [sms_factor]) 1) = "UNSUPPORTED:  " /\
  assoc (parseMfaIdentifer (mfa_required [sms_factor]) 1) supportedMfaOptions = None.
Proof.
  apply (@identifier_of_missing_factor (mfa_required [sms_factor]) 1).
  right. exists "", [sms_factor]. split; [reflexivity|apply le_n].
Defined.

(** X6. When the first answer says [MFA_REQUIRED] and lists no factor, the
    call asks nothing, sends no further request and returns the empty
    assertion with the error of reading the first body wrapped (nil when
    the body was read). *)
Theorem mfa_required_without_factors
        (env : Env) (fuel : nat) (login : LoginDetails) (u u' : URL)
        (res0 : Response) :
  url_Parse env (entryURL login) = inr u ->
  url_Parse env ("https://" ++ Host u ++ "/api/v1/authn") = inr u' ->
  http_answer env 0 = inr res0 ->
  auth_status res0 = "MFA_REQUIRED" ->
  no_factor_at (res_json res0) 0 ->
  run (Authenticate env fuel login)
  = (Returned "" (errors_Wrap (res_read_err res0) "unsupported mfa provider"),
     [EvDo (authRequest (Host u) login)]).
Proof.
  intros Hu Hu' Hres Hst Hno.
  assert (Hlen : length (mfaOptionLabels (res_json res0)) = 0).
  { unfold mfaOptionLabels. rewrite length_map, length_seq.
    destruct Hno as [-> | (raw & fs & -> & Hfs)]; [reflexivity|].
    cbn [json_Array]. lia. }
  apply run_stop with (s := state_after [EvDo (authRequest (Host u) login)]).
  rewrite (@Authenticate_mfa env login u u' Hu Hu' res0 Hres fuel Hst).
  unfold chosen_option, selection_events. rewrite Hlen. cbn [Nat.ltb Nat.leb].
  unfold bind. rewrite verifyMfaOption_unsupported; [reflexivity|].
  now rewrite (parseMfaIdentifer_missing Hno).
Qed.

Lemma mfa_required_without_factors_witness :
  run (Authenticate scenario_no_factors 0 login_x)
  = (Returned "" None, [EvDo (authRequest "x.okta.com" login_x)]).
Proof.
  apply (@mfa_required_without_factors scenario_no_factors 0 login_x
           {| Host := "x.okta.com" |} {| Host := "x.okta.com" |}
           no_factors_response); try reflexivity.
  left. reflexivity.
Defined.

(** X7. The error returned for an unsupported factor is the error of
    reading the first body (line 106), wrapped in [unsupported mfa
    provider]: the call fails there exactly when that body broke off. *)
Theorem unsupported_mfa_error_is_read_error
        (env : Env) (fuel : nat) (login : LoginDetails) (u u' : URL)
        (res0 : Response) :
  url_Parse env (entryURL login) = inr u ->
  url_Parse env ("https://" ++ Host u ++ "/api/v1/authn") = inr u' ->
  http_answer env 0 = inr res0 ->
  auth_status res0 = "MFA_REQUIRED" ->
  assoc (parseMfaIdentifer (res_json res0) (chosen_option env (res_json res0)))
        supportedMfaOptions = None ->
  fst (run (Authenticate env fuel login))
  = Returned "" (errors_Wrap (res_read_err res0) "unsupported mfa provider") /\
  (forall e, res_read_err res0 = Some e ->
     fst (run (Authenticate env fuel login))
     = Returned "" (Some (ErrWrap "unsupported mfa provider" e))).
Proof.
  intros Hu Hu' Hres Hst Hid.
  assert (H : fst (run (Authenticate env fuel login))
    = Returned "" (errors_Wrap (res_read_err res0) "unsupported mfa provider")).
  { unfold run.
    rewrite (@Authenticate_mfa env login u u' Hu Hu' res0 Hres fuel Hst).
    unfold bind. now rewrite verifyMfaOption_unsupported by exact Hid. }
  split; [exact H|]. intros e He. now rewrite H, He.
Qed.

Lemma unsupported_mfa_error_is_read_error_witness :
  fst (run (Authenticate scenario_truncated 0 login_x))
  = Returned "" (Some (ErrWrap "unsupported mfa provider" (ErrBase "unexpected EOF"))).
Proof.
  exact (proj2 (@unsupported_mfa_error_is_read_error scenario_truncated 0 login_x
                  {| Host := "x.okta.com" |} {| Host := "x.okta.com" |}
                  truncated_response eq_refl eq_refl eq_refl eq_refl eq_refl)
               (ErrBase "unexpected EOF") eq_refl).
Defined.

(** X8. When the entry URL does not parse, [Authenticate] panics on the nil
    URL of line 84 before any request is sent: the error of [url.Parse]
    is never looked at. *)
Theorem bad_hostname_panics (env : Env) (fuel : nat) (login : LoginDetails) (e : error) :
  url_Parse env (entryURL login) = inl e ->
  run (Authenticate env fuel login)
  = (Panicked "invalid memory address or nil pointer dereference", []).
Proof.
  intros He. unfold run, Authenticate. fold (entryURL login).
  unfold bind, deref. now rewrite He.
Qed.

Lemma bad_hostname_panics_witness :
  run (Authenticate scenario_bad_hostname 0 login_x)
  = (Panicked "invalid memory address or nil pointer dereference", []).
Proof.
  apply (@bad_hostname_panics scenario_bad_hostname 0 login_x
           (ErrBase "invalid character in host name")).
  reflexivity.
Defined.

(** The requests of a call begin with the credential submission to the
    host of the entry URL. *)
Lemma first_request (env : Env) (fuel : nat) (login : LoginDetails) (u : URL)
      (req : Request) :
  url_Parse env (entryURL login) = inr u ->
  nth_error (requests (snd (run (Authenticate env fuel login)))) 0 = Some req ->
  req = authRequest (Host u) login.
Proof.
  intros Hu. rewrite snd_run.
  destruct (url_Parse env ("https://" ++ Host u ++ "/api/v1/authn")) as [e|u'] eqn:Hu'.
  { unfold Authenticate. fold (entryURL login).
    unfold bind, deref, check, http_NewRequest. rewrite Hu. unfold ret at 1.
    rewrite Hu'. discriminate. }
  destruct (http_answer env 0) as [e|res0] eqn:Hres.
  { unfold Authenticate. fold (entryURL login).
    unfold bind, deref, check, http_NewRequest, client_Do.
    rewrite Hu. unfold ret at 1. rewrite Hu'. unfold ret at 1.
    cbn [n_do init_state]. rewrite Hres. cbn. now intros [= <-]. }
  rewrite (@Authenticate_after_first env login u u' Hu Hu' res0 Hres fuel).
  set (s1 := state_after _).
  assert (Hk : keeps (issued env login)
            (bind (if auth_status res0 =? "MFA_REQUIRED"
                   then mfaRequired env fuel (Host u) (auth_stateToken res0)
                          (res_json res0) (res_read_err res0)
                   else ret (res_json res0))
               (sessionRedirect env (Host u) (entryURL login))) s1 (fun _ _ => True)).
  { apply keeps_bind. destruct (auth_status res0 =? "MFA_REQUIRED").
    - replace (auth_stateToken res0) with (first_state_token env)
        by (unfold first_state_token; now rewrite Hres).
      eapply keeps_post; [apply mfaRequired_keeps; reflexivity|].
      intros. apply sessionRedirect_keeps.
    - apply keeps_ret. apply sessionRedirect_keeps. }
  unfold keeps in Hk.
  destruct (bind _ _ s1) as [[[]|r] s'].
  destruct Hk as (evs & Ht & _ & _). cbn [snd]. rewrite Ht.
  subst s1. cbn. now intros [= <-].
Qed.

(** X9. The user name and the password travel in the first request of a
    call only, which goes to [/api/v1/authn] of the entry host. *)
Theorem credentials_only_in_first_request
        (env : Env) (fuel : nat) (login : LoginDetails) (n : nat) (req : Request)
        (a : AuthRequest) :
  nth_error (requests (snd (run (Authenticate env fuel login)))) n = Some req ->
  rq_body req = JsonAuth a ->
  n = 0 /\
  exists u, url_Parse env (entryURL login) = inr u /\
            req = authRequest (Host u) login.
Proof.
  intros Hn Hbody.
  pose proof (@Authenticate_requests env fuel login n req Hn) as Hi.
  assert (Hz : n = 0) by (destruct Hi; try discriminate Hbody; reflexivity).
  split; [exact Hz|]. subst n.
  destruct (url_Parse env (entryURL login)) as [e|u] eqn:Hu.
  - unfold run, Authenticate in Hn. fold (entryURL login) in Hn.
    unfold bind, deref in Hn. rewrite Hu in Hn. discriminate.
  - exists u. split; [reflexivity|]. exact (@first_request env fuel login u req Hu Hn).
Qed.

Lemma credentials_only_in_first_request_witness :
  0 = 0 /\
  exists u, url_Parse scenario_B (entryURL login_x) = inr u /\
            authRequest "x.okta.com" login_x = authRequest (Host u) login_x.
Proof.
  apply (@credentials_only_in_first_request scenario_B 0 login_x 0
           (authRequest "x.okta.com" login_x)
           {| auth_Username := "user"; auth_Password := "secret" |});
    reflexivity.
Defined.

(** X10. Every request of a call has the headers of its body: JSON bodies
    are posted with JSON [Content-Type] and [Accept], forms are posted
    with the form [Content-Type] alone, and the only request without a
    body is the session redirect, which has no header. *)
Theorem headers_match_the_body
        (env : Env) (fuel : nat) (login : LoginDetails) (n : nat) (req : Request) :
  nth_error (requests (snd (run (Authenticate env fuel login)))) n = Some req ->
  match rq_body req with
  | JsonAuth _ | JsonVerify _ =>
      rq_method req = "POST" /\
      Values_Get (rq_header req) "Content-Type" = Some "application/json" /\
      Values_Get (rq_header req) "Accept" = Some "application/json"
  | Form _ =>
      rq_method req = "POST" /\
      rq_header req = [("Content-Type", "application/x-www-form-urlencoded")]
  | NoBody =>
      rq_header req = [] /\
      exists host token, req = redirectCall host token (entryURL login)
  end.
Proof.
  intros Hn. apply Authenticate_requests in Hn.
  destruct Hn; cbn; repeat split; eauto.
Qed.

Lemma headers_match_the_body_witness :
  rq_method (verifyCall "https://x/verify" "st1" "") = "POST" /\
  Values_Get (rq_header (verifyCall "https://x/verify" "st1" "")) "Content-Type"
  = Some "application/json" /\
  Values_Get (rq_header (verifyCall "https://x/verify" "st1" "")) "Accept"
  = Some "application/json".
Proof.
  exact (@headers_match_the_body scenario_B 0 login_x 1
           (verifyCall "https://x/verify" "st1" "") eq_refl).
Defined.

(** X11. A supported factor is one of the three identifiers; once its
    verify request is answered, SMS and TOTP go to the code prompt and
    Duo goes to the Duo case with the id of the factor and the body of
    the answer. *)
Theorem supported_factor_is_dispatched
        (env : Env) (fuel : nat) (host st : string) (resp : json)
        (err : option error) (i : nat) (s : State) (uv : URL) (res1 : Response)
        (label : string) :
  assoc (parseMfaIdentifer resp i) supportedMfaOptions = Some label ->
  url_Parse env (factor_verify_href resp i) = inr uv ->
  http_answer env (n_do s) = inr res1 ->
  (parseMfaIdentifer resp i = IdentifierSmsMfa \/
   parseMfaIdentifer resp i = IdentifierTotpMfa \/
   parseMfaIdentifer resp i = IdentifierDuoMfa) /\
  verifyMfaOption env fuel host st resp err i s
  = if (String.eqb (parseMfaIdentifer resp i) IdentifierSmsMfa
        || String.eqb (parseMfaIdentifer resp i) IdentifierTotpMfa)%bool
    then smsTotpCase env st (factor_verify_href resp i)
           (after_request (verifyCall (factor_verify_href resp i) st "") s)
    else duoCase env fuel host st (factor_id_at resp i) (factor_verify_href resp i)
           (res_json res1)
           (after_request (verifyCall (factor_verify_href resp i) st "") s).
Proof.
  intros Hsup Hu Hres.
  assert (Hid : parseMfaIdentifer resp i = IdentifierSmsMfa \/
                parseMfaIdentifer resp i = IdentifierTotpMfa \/
                parseMfaIdentifer resp i = IdentifierDuoMfa).
  { revert Hsup. unfold supportedMfaOptions. cbn [assoc].
    destruct (String.eqb_spec (parseMfaIdentifer resp i) IdentifierDuoMfa); [auto|].
    destruct (String.eqb_spec (parseMfaIdentifer resp i) IdentifierSmsMfa); [auto|].
    destruct (String.eqb_spec (parseMfaIdentifer resp i) IdentifierTotpMfa); [auto|].
    discriminate. }
  split; [exact Hid|].
  unfold verifyMfaOption. cbv zeta.
  fold (factor_verify_href resp i) (factor_id_at resp i). rewrite Hsup.
  unfold bind at 1. unfold check at 1, http_NewRequest at 1. rewrite Hu.
  unfold ret at 1.
  unfold bind at 1. unfold client_Do at 1. rewrite Hres.
  unfold bind at 1. unfold check at 1, ret at 1.
  cbn beta iota delta [ioutil_ReadAll].
  destruct (String.eqb (parseMfaIdentifer resp i) IdentifierSmsMfa
            || String.eqb (parseMfaIdentifer resp i) IdentifierTotpMfa)%bool eqn:Hsel;
    [reflexivity|].
  destruct Hid as [H|[H|H]]; rewrite H in Hsel |- *; try discriminate Hsel.
  reflexivity.
Qed.

Lemma supported_factor_is_dispatched_witness :
  (parseMfaIdentifer (mfa_required [sms_factor]) 0 = IdentifierSmsMfa \/
   parseMfaIdentifer (mfa_required [sms_factor]) 0 = IdentifierTotpMfa \/
   parseMfaIdentifer (mfa_required [sms_factor]) 0 = IdentifierDuoMfa) /\
  verifyMfaOption scenario_B 0 "x.okta.com" "st1" (mfa_required [sms_factor]) None 0
    (state_after [EvDo (authRequest "x.okta.com" login_x)])
  = smsTotpCase scenario_B "st1" "https://x/verify"
      (after_request (verifyCall "https://x/verify" "st1" "")
         (state_after [EvDo (authRequest "x.okta.com" login_x)])).
Proof.
  exact (@supported_factor_is_dispatched scenario_B 0 "x.okta.com" "st1"
           (mfa_required [sms_factor]) None 0
           (state_after [EvDo (authRequest "x.okta.com" login_x)])
           {| Host := "x" |} challenge_response "SMS MFA authentication"
           eq_refl eq_refl eq_refl).
Defined.

(** X12. The poll loop has no bound of its own: while [/frame/status]
    answers neither [SUCCESS] nor [FAILURE], every round sleeps once and
    sends one request, and no number of rounds ends the loop. *)
Theorem polling_has_no_bound
        (env : Env) (url : string) (form : Values) (u : URL) (fuel : nat) :
  url_Parse env url = inr u ->
  forall s,
    never_settles env (n_do s) ->
    fst (pollLoop env fuel url form s) = Stop OutOfFuel /\
    n_do (snd (pollLoop env fuel url form s)) = n_do s + fuel /\
    count_sleep (trace (snd (pollLoop env fuel url form s)))
    = count_sleep (trace s) + fuel.
Proof.
  intros Hu. induction fuel as [|fuel IH]; intros s Hns.
  - cbn. now rewrite !Nat.add_0_r.
  - destruct (Hns (n_do s) (le_n _)) as (res & Hres & Hs & Hf).
    rewrite (@pollLoop_round env url form u fuel s res Hu Hres).
    apply String.eqb_neq in Hs, Hf. rewrite Hf, Hs.
    destruct (IH (poll_round url form res s)) as (H1 & H2 & H3).
    { intros n Hn. apply Hns. cbn in Hn. lia. }
    rewrite H1, H2, H3. cbn [poll_round n_do trace].
    split; [reflexivity|]. split; [lia|].
    unfold count_sleep. rewrite filter_app, length_app. cbn. lia.
Qed.

Lemma polling_has_no_bound_witness :
  fst (pollLoop always_waiting 7 "https://duo.example/frame/status" [] init_state)
  = Stop OutOfFuel /\
  n_do (snd (pollLoop always_waiting 7 "https://duo.example/frame/status" []
               init_state)) = 0 + 7 /\
  count_sleep (trace (snd (pollLoop always_waiting 7
                             "https://duo.example/frame/status" [] init_state)))
  = count_sleep (trace init_state) + 7.
Proof.
  apply (@polling_has_no_bound always_waiting "https://duo.example/frame/status" []
           {| Host := "duo.example" |} 7 eq_refl init_state).
  intros n _. exists (duo_status "WAITING" "").
  split; [reflexivity|]. split; discriminate.
Defined.

Lemma poll_rounds_nil (url : string) (form : Values) (fuel : nat) :
  poll_rounds url form fuel [].
Proof.
  unfold poll_rounds. cbn. split; [lia|]. split; [lia|].
  split; [intros d []|]. split; [intros req []|]. now split.
Qed.

Lemma poll_rounds_cons (url : string) (form : Values) (fuel : nat)
      (tail rest : list Event) :
  (tail = [] \/ tail = [EvDo (statusRequest url form)] \/
   exists line, tail = [EvDo (statusRequest url form); EvPrintln line]) ->
  poll_rounds url form fuel rest ->
  poll_rounds url form (S fuel) (EvSleep (3 * time_Second) :: tail ++ rest).
Proof.
  intros Htail (H1 & H2 & H3 & H4 & H5 & H6). unfold poll_rounds.
  unfold count_sleep, count_choose, count_string in *.
  assert (Hform : (requests tail = [] \/ requests tail = [statusRequest url form]) /\
                  length (filter (fun e => match e with EvSleep _ => true | _ => false end) tail) = 0 /\
                  length (filter (fun e => match e with EvChoose _ _ => true | _ => false end) tail) = 0 /\
                  length (filter (fun e => match e with EvStringRequired _ => true | _ => false end) tail) = 0 /\
                  (forall d, ~ In (EvSleep d) tail)).
  { destruct Htail as [->|[->|[line ->]]]; cbn;
      repeat (split; [solve [auto]|]); intros d Hin;
      repeat (destruct Hin as [Hin|Hin]; try discriminate Hin); contradiction. }
  destruct Hform as (Hr & Hs & Hc & Hn & Hno).
  cbn [requests filter length]. rewrite requests_app, !filter_app, !length_app.
  rewrite Hs, Hc, Hn.
  split; [destruct Hr as [-> | ->]; cbn; lia|].
  split; [lia|].
  split.
  { intros d [[= <-]|Hin]; [reflexivity|].
    apply in_app_or in Hin as [Hin|Hin]; [now apply Hno in Hin|now apply H3]. }
  split.
  { intros req Hin. apply in_app_or in Hin as [Hin|Hin]; [|now apply H4].
    destruct Hr as [Hr|Hr]; rewrite Hr in Hin;
      [destruct Hin|destruct Hin as [<-|[]]; reflexivity]. }
  split; lia.
Qed.

(** X13. Whatever the outside answers, the poll loop adds to the trace at
    least one sleep for each request, every sleep lasts three seconds,
    every request is the status request, and nothing is asked of the
    user. *)
Theorem poll_sleeps_before_each_request
        (env : Env) (url : string) (form : Values) (fuel : nat) (s : State) :
  exists evs,
    trace (snd (pollLoop env fuel url form s)) = (trace s ++ evs)%list /\
    poll_rounds url form fuel evs.
Proof.
  revert s. induction fuel as [|fuel IH]; intros s.
  - exists []. cbn. rewrite app_nil_r. split; [reflexivity|apply poll_rounds_nil].
  - cbn [pollLoop].
    unfold bind, time_Sleep, check, http_NewRequest, client_Do, fmt_Println.
    destruct (url_Parse env url) as [e|u].
    { exists ([EvSleep (3 * time_Second)] ++ [] ++ [])%list. split; [reflexivity|].
      apply poll_rounds_cons; auto using poll_rounds_nil. }
    unfold ret at 1. cbn beta iota delta [emit n_do n_choose n_string trace].
    destruct (http_answer env (n_do s)) as [e|res].
    { exists (EvSleep (3 * time_Second) :: [EvDo (statusRequest url form)] ++ [])%list.
      split; [cbn; now rewrite <- app_assoc|].
      apply poll_rounds_cons; auto using poll_rounds_nil. }
    unfold ret at 1. cbn beta iota delta [ioutil_ReadAll].
    set (line := json_String (gjson_Get (res_json res) "response.status")).
    set (s1 := emit _ _).
    assert (Hs1 : trace s1 = (trace s ++ [EvSleep (3 * time_Second);
                     EvDo (statusRequest url form); EvPrintln line])%list).
    { subst s1. cbn [emit trace]. now rewrite <- !app_assoc. }
    assert (Hstop : exists evs, trace s1 = (trace s ++ evs)%list /\
                                poll_rounds url form (S fuel) evs).
    { exists (EvSleep (3 * time_Second)
              :: [EvDo (statusRequest url form); EvPrintln line] ++ [])%list.
      split; [exact Hs1|]. apply poll_rounds_cons; eauto using poll_rounds_nil. }
    destruct (String.eqb _ "FAILURE"); [exact Hstop|].
    destruct (String.eqb _ "SUCCESS"); [exact Hstop|].
    destruct (IH s1) as (evs & Ht & Hevs).
    exists (EvSleep (3 * time_Second)
            :: [EvDo (statusRequest url form); EvPrintln line] ++ evs)%list.
    split; [rewrite Ht, Hs1, <- app_assoc; reflexivity|].
    apply poll_rounds_cons; eauto.
Qed.

(** X14. When the Duo frame has no input named [sid], the Duo case stops
    after that one request and returns the empty assertion with a nil
    error. *)
Theorem duo_missing_sid_stops
        (env : Env) (fuel : nat) (host st fid href : string) (resp : json)
        (s : State) (u : URL) (res : Response) :
  url_Parse env ("https://" ++ duoHost_of resp ++ "/frame/web/v1/auth") = inr u ->
  http_answer env (n_do s) = inr res ->
  res_read_err res = None ->
  snd (Attr (Find_input_named (res_doc res) "sid") "value") = false ->
  duoCase env fuel host st fid href resp s
  = (Stop (Returned "" None),
     after_request (duoAuthCall (duoHost_of resp) host (duoTx_of resp)) s).
Proof.
  intros Hu Hres Herr Hsid. unfold duoCase. cbv zeta.
  fold (duoHost_of resp).
  unfold bind at 1. unfold check at 1, http_NewRequest at 1. rewrite Hu.
  unfold ret at 1.
  unfold bind at 1. unfold index at 1. rewrite strings_Split_hd. unfold ret at 1.
  unfold bind at 1. unfold client_Do at 1. rewrite Hres.
  unfold bind at 1. unfold check at 1, ret at 1.
  unfold bind at 1. unfold check at 1, goquery_NewDocumentFromResponse.
  rewrite Herr. unfold ret at 1.
  destruct (Attr (Find_input_named (res_doc res) "sid") "value") as [v ok].
  cbn [snd] in Hsid. subst ok. reflexivity.
Qed.

Lemma duo_missing_sid_stops_witness :
  duoCase scenario_duo_no_sid 0 "x.okta.com" "st1" "f1" "https://x/verify"
    (res_json (duo_verify "AAA:BBB")) duo_entry_state
  = (Stop (Returned "" None),
     after_request (duoAuthCall "duo.example" "x.okta.com" "AAA") duo_entry_state).
Proof.
  exact (@duo_missing_sid_stops scenario_duo_no_sid 0 "x.okta.com" "st1" "f1"
           "https://x/verify" (res_json (duo_verify "AAA:BBB")) duo_entry_state
           {| Host := "duo.example" |} empty_page_response
           eq_refl eq_refl eq_refl eq_refl).
Defined.

(** X15. When Duo's answer to the prompt form has a [stat] other than
    [OK], the Duo case stops after two requests, without polling; the
    passcode is asked for and sent only when [Passcode] was chosen, and
    the error returned is the error of reading that answer, wrapped. *)
Theorem duo_prompt_rejected
        (env : Env) (fuel : nat) (host st fid href : string) (resp : json)
        (s : State) (u u' : URL) (res2 res3 : Response) (sid factor : string) :
  url_Parse env ("https://" ++ duoHost_of resp ++ "/frame/web/v1/auth") = inr u ->
  url_Parse env ("https://" ++ duoHost_of resp ++ "/frame/prompt") = inr u' ->
  http_answer env (n_do s) = inr res2 ->
  res_read_err res2 = None ->
  Attr (Find_input_named (res_doc res2) "sid") "value" = (sid, true) ->
  nth_error ["Passcode"; "Duo Push"] (choose_answer env (n_choose s)) = Some factor ->
  http_answer env (S (n_do s)) = inr res3 ->
  json_String (gjson_Get (res_json res3) "stat") <> "OK" ->
  duoCase env fuel host st fid href resp s
  = (Stop (Returned "" (errors_Wrap (res_read_err res3)
                          "error authenticating mfa device")),
     {| n_do := S (S (n_do s));
        n_choose := S (n_choose s);
        n_string := if String.eqb factor "Passcode"
                    then S (n_string s) else n_string s;
        trace := trace s ++
          [EvDo (duoAuthCall (duoHost_of resp) host (duoTx_of resp));
           EvChoose "Select a DUO MFA Option" ["Passcode"; "Duo Push"]] ++
          (if String.eqb factor "Passcode"
           then [EvStringRequired "Enter passcode"] else []) ++
          [EvDo (statusRequest ("https://" ++ duoHost_of resp ++ "/frame/prompt")
                   (duoPromptForm (html_UnescapeString env sid) factor
                      (string_answer env (n_string s))))] |}).
Proof.
  intros Hu Hu' Hres2 Herr Hsid Hopt Hres3 Hstat. unfold duoCase. cbv zeta.
  fold (duoHost_of resp).
  unfold bind at 1. unfold check at 1, http_NewRequest at 1. rewrite Hu.
  unfold ret at 1.
  unfold bind at 1. unfold index at 1. rewrite strings_Split_hd. unfold ret at 1.
  unfold bind at 1. unfold client_Do at 1. rewrite Hres2.
  unfold bind at 1. unfold check at 1, ret at 1.
  unfold bind at 1. unfold check at 1, goquery_NewDocumentFromResponse.
  rewrite Herr. unfold ret at 1. rewrite Hsid. cbn [negb].
  unfold bind at 1. unfold prompt_Choose at 1. cbn [n_choose n_do n_string trace].
  unfold bind at 1. unfold index at 1. rewrite Hopt. unfold ret at 1.
  apply String.eqb_neq in Hstat.
  unfold duoPromptForm.
  destruct (String.eqb factor "Passcode").
  - unfold bind at 1. unfold prompt_StringRequired at 1.
    cbn [n_choose n_do n_string trace].
    unfold bind at 1. unfold check at 1, http_NewRequest at 1. rewrite Hu'.
    unfold ret at 1.
    unfold bind at 1. unfold client_Do at 1. cbn [n_choose n_do n_string trace].
    rewrite Hres3.
    unfold bind at 1. unfold check at 1, ret at 1.
    cbn beta iota delta [ioutil_ReadAll]. rewrite Hstat. cbn [negb].
    unfold return_. rewrite <- !app_assoc. reflexivity.
  - unfold bind at 1. unfold ret at 1.
    unfold bind at 1. unfold check at 1, http_NewRequest at 1. rewrite Hu'.
    unfold ret at 1.
    unfold bind at 1. unfold client_Do at 1. cbn [n_choose n_do n_string trace].
    rewrite Hres3.
    unfold bind at 1. unfold check at 1, ret at 1.
    cbn beta iota delta [ioutil_ReadAll]. rewrite Hstat. cbn [negb].
    unfold return_. rewrite <- !app_assoc. reflexivity.
Qed.

Lemma duo_prompt_rejected_witness :
  duoCase scenario_duo_prompt_denied 0 "x.okta.com" "st1" "f1" "https://x/verify"
    (res_json (duo_verify "AAA:BBB")) duo_entry_state
  = (Stop (Returned "" None),
     {| n_do := 4; n_choose := 1; n_string := 1;
        trace := trace duo_entry_state ++
          [EvDo (duoAuthCall "duo.example" "x.okta.com" "AAA");
           EvChoose "Select a DUO MFA Option" ["Passcode"; "Duo Push"];
           EvStringRequired "Enter passcode";
           EvDo (statusRequest "https://duo.example/frame/prompt"
                   [("sid", "SID"); ("device", "phone1"); ("factor", "Passcode");
                    ("out_of_date", "false"); ("passcode", "987654")])] |}).
Proof.
  exact (@duo_prompt_rejected scenario_duo_prompt_denied 0 "x.okta.com" "st1" "f1"
           "https://x/verify" (res_json (duo_verify "AAA:BBB")) duo_entry_state
           {| Host := "duo.example" |} {| Host := "duo.example" |}
           sid_page_response prompt_denied_response "SID" "Passcode"
           eq_refl eq_refl eq_refl eq_refl eq_refl eq_refl eq_refl
           ltac:(discriminate)).
Defined.


Lemma sessionRedirect_returns (env : Env) (host entry : string) (resp : json)
      (s : State) :
  exists saml err, fst (sessionRedirect env host entry resp s) = Stop (Returned saml err).
Proof.
  unfold sessionRedirect. cbv zeta.
  unfold bind at 1. unfold check at 1, http_NewRequest at 1.
  destruct (url_Parse env _); [cbn; eauto|]. unfold ret at 1.
  unfold bind at 1. unfold client_Do at 1.
  destruct (http_answer env (n_do s)) as [e|res]; [cbn; eauto|].
  unfold bind at 1. unfold check at 1, ret at 1.
  unfold bind at 1. unfold check at 1, goquery_NewDocumentFromResponse.
  destruct (res_read_err res); [cbn; eauto|]. unfold ret at 1.
  destruct (Attr (Find_input_named (res_doc res) "SAMLResponse") "value")
    as [v [|]]; cbn; eauto.
Qed.

Lemma smsTotpCase_returns (env : Env) (st url : string) (s : State) :
  returns_or_continues (fst (smsTotpCase env st url s)).
Proof.
  unfold smsTotpCase. cbv zeta.
  unfold bind at 1. unfold prompt_StringRequired at 1.
  unfold bind at 1. unfold check at 1, http_NewRequest at 1.
  destruct (url_Parse env url); [exact I|]. unfold ret at 1.
  unfold bind at 1. unfold client_Do at 1. cbn [n_do].
  destruct (http_answer env (n_do s)); exact I.
Qed.

Lemma verifyMfaOption_not_duo (env : Env) (fuel : nat) (host st : string)
      (resp : json) (err : option error) (i : nat) (s : State) :
  parseMfaIdentifer resp i <> IdentifierDuoMfa ->
  verifyMfaOption env fuel host st resp err i s
  = verifyMfaOption env 0 host st resp err i s /\
  returns_or_continues (fst (verifyMfaOption env fuel host st resp err i s)).
Proof.
  intros Hid. apply String.eqb_neq in Hid.
  unfold verifyMfaOption. cbv zeta. rewrite Hid.
  split; [reflexivity|].
  destruct (assoc (parseMfaIdentifer resp i) supportedMfaOptions); [|exact I].
  unfold bind at 1. unfold check at 1, http_NewRequest at 1.
  destruct (url_Parse env _); [exact I|]. unfold ret at 1.
  unfold bind at 1. unfold client_Do at 1.
  destruct (http_answer env (n_do s)) as [e|res]; [exact I|].
  unfold bind at 1. unfold check at 1, ret at 1.
  cbn beta iota delta [ioutil_ReadAll].
  destruct (_ || _)%bool; [apply smsTotpCase_returns|exact I].
Qed.

Lemma Authenticate_unbuilt (env : Env) (fuel : nat) (login : LoginDetails)
      (u : URL) (e : error) :
  url_Parse env (entryURL login) = inr u ->
  url_Parse env ("https://" ++ Host u ++ "/api/v1/authn") = inl e ->
  Authenticate env fuel login init_state
  = (Stop (Returned "" (Some (ErrWrap "error building authentication request" e))),
     init_state).
Proof.
  intros Hu Hu'. unfold Authenticate. fold (entryURL login).
  unfold bind at 1. unfold deref. rewrite Hu. unfold ret at 1.
  unfold bind at 1. unfold check at 1, http_NewRequest at 1. rewrite Hu'.
  reflexivity.
Qed.

Lemma Authenticate_unanswered (env : Env) (fuel : nat) (login : LoginDetails)
      (u u' : URL) (e : error) :
  url_Parse env (entryURL login) = inr u ->
  url_Parse env ("https://" ++ Host u ++ "/api/v1/authn") = inr u' ->
  http_answer env 0 = inl e ->
  Authenticate env fuel login init_state
  = (Stop (Returned "" (Some (ErrWrap "error retrieving auth response" e))),
     state_after [EvDo (authRequest (Host u) login)]).
Proof.
  intros Hu Hu' He. unfold Authenticate. fold (entryURL login).
  unfold bind at 1. unfold deref. rewrite Hu. unfold ret at 1.
  unfold bind at 1. unfold check at 1, http_NewRequest at 1. rewrite Hu'.
  unfold ret at 1.
  unfold bind at 1. unfold client_Do at 1. cbn [n_do init_state]. rewrite He.
  unfold bind at 1. unfold check at 1.
  reflexivity.
Qed.

(** X16. Outside the Duo case, with an entry URL that parses,
    [Authenticate] neither panics nor polls: it returns, and its run is
    the same for every bound on the poll loop. *)
Theorem returns_outside_duo
        (env : Env) (login : LoginDetails) (u : URL) :
  url_Parse env (entryURL login) = inr u ->
  (forall res0,
      http_answer env 0 = inr res0 ->
      auth_status res0 = "MFA_REQUIRED" ->
      parseMfaIdentifer (res_json res0) (chosen_option env (res_json res0))
      <> IdentifierDuoMfa) ->
  forall fuel,
    run (Authenticate env fuel login) = run (Authenticate env 0 login) /\
    exists saml err, fst (run (Authenticate env fuel login)) = Returned saml err.
Proof.
  intros Hu Hnot fuel.
  assert (Hinit : forall f,
    Authenticate env f login init_state = Authenticate env 0 login init_state /\
    exists saml err,
      fst (Authenticate env f login init_state) = Stop (Returned saml err)).
  { intros f.
    destruct (url_Parse env ("https://" ++ Host u ++ "/api/v1/authn")) as [e|u'] eqn:Hu'.
    { rewrite (@Authenticate_unbuilt env f login u e Hu Hu').
      rewrite (@Authenticate_unbuilt env 0 login u e Hu Hu').
      split; [reflexivity|do 2 eexists; reflexivity]. }
    destruct (http_answer env 0) as [e|res0] eqn:Hres.
    { rewrite (@Authenticate_unanswered env f login u u' e Hu Hu' Hres).
      rewrite (@Authenticate_unanswered env 0 login u u' e Hu Hu' Hres).
      split; [reflexivity|do 2 eexists; reflexivity]. }
    destruct (String.eqb_spec (auth_status res0) "MFA_REQUIRED") as [Hst|Hst].
    - rewrite (@Authenticate_mfa env login u u' Hu Hu' res0 Hres f Hst).
      rewrite (@Authenticate_mfa env login u u' Hu Hu' res0 Hres 0 Hst).
      destruct (@verifyMfaOption_not_duo env f (Host u) (auth_stateToken res0)
                  (res_json res0) (res_read_err res0)
                  (chosen_option env (res_json res0))
                  (state_after (EvDo (authRequest (Host u) login)
                                :: selection_events (res_json res0)))
                  (Hnot res0 eq_refl Hst)) as [Heq Hret].
      unfold bind. rewrite Heq in Hret. rewrite Heq. split; [reflexivity|].
      destruct (verifyMfaOption env 0 _ _ _ _ _ _) as [[resp|r] s'].
      + apply sessionRedirect_returns.
      + cbn [fst] in Hret |- *. destruct r; try contradiction.
        do 2 eexists; reflexivity.
    - rewrite (@Authenticate_not_mfa env login u u' Hu Hu' res0 Hres f Hst).
      rewrite (@Authenticate_not_mfa env login u u' Hu Hu' res0 Hres 0 Hst).
      split; [reflexivity|]. apply sessionRedirect_returns. }
  destruct (Hinit fuel) as [Heq (saml & err & Hret)].
  split.
  - unfold run. now rewrite Heq.
  - exists saml, err. unfold run.
    destruct (Authenticate env fuel login init_state) as [[[]|r] s'].
    cbn [fst] in Hret |- *. congruence.
Qed.

Lemma returns_outside_duo_witness :
  run (Authenticate scenario_B 5 login_x) = run (Authenticate scenario_B 0 login_x) /\
  exists saml err, fst (run (Authenticate scenario_B 5 login_x)) = Returned saml err.
Proof.
  apply (@returns_outside_duo scenario_B login_x {| Host := "x.okta.com" |} eq_refl).
  intros res0 Hres _ Hid.
  vm_compute in Hres. injection Hres as <-.
  vm_compute in Hid. discriminate Hid.
Defined.
